(** * Muhimmath Library: storage layer, routes and circulation flows

    A shallow embedding of the server-side storage classes
    ([MemStorage], the query predicates of [DatabaseStorage]), of the
    route table of [registerRoutes] and of the two client mutations of the
    circulation tab ([issueBook], [returnBook]), with the properties the
    specification states about them.

    Conventions.
    - A JavaScript [Map<number, V>] is an association list in insertion
      order (the order [Map.prototype.values] iterates in).
    - A [Date] is its time value, an integer number of milliseconds; a
      nullable column is an [option].
    - [text] columns are [string]s; [toLowerCase] is modelled on the ASCII
      range.
    - The clock ([new Date()]) is an explicit argument [now]. *)

From Stdlib Require Import ZArith List String Ascii Bool Lia.
From Stdlib Require Import Permutation Sorted DecimalString.
From Stdlib Require Import DecimalPos DecimalZ.
Import ListNotations.
Open Scope string_scope.
Open Scope list_scope.
Open Scope Z_scope.

(* ================================================================== *)
(** ** ES [Map<number, V>] *)

Module JsMap.
Section Map.
Context {V : Type}.

Definition t := list (Z * V).

Definition empty : t := [].

Fixpoint get (k : Z) (m : t) : option V :=
  match m with
  | [] => None
  | (k', v) :: r => if k =? k' then Some v else get k r
  end.

Definition has (k : Z) (m : t) : bool :=
  match get k m with Some _ => true | None => false end.

(** [Map.prototype.set]: an existing key keeps its position, a new key
    goes last. *)
Fixpoint set (k : Z) (v : V) (m : t) : t :=
  match m with
  | [] => [(k, v)]
  | (k', v') :: r => if k =? k' then (k, v) :: r else (k', v') :: set k v r
  end.

(** The map without the key [k] (a [Map] holds a key at most once). *)
Definition remove (k : Z) (m : t) : t :=
  filter (fun e => negb (k =? fst e)) m.

(** [Map.prototype.delete] answers whether the key was present. *)
Definition delete (k : Z) (m : t) : bool * t := (has k m, remove k m).

Definition values (m : t) : list V := map snd m.
Definition keys (m : t) : list Z := map fst m.
Definition entries (m : t) : list (Z * V) := m.
End Map.
Arguments t : clear implicits.
End JsMap.

(* ================================================================== *)
(** ** shared/schema.ts: the six tables and their insert types *)

(** Row types ([$inferSelect]).  [serial] and [integer] columns are [Z],
    [text] columns are [string], [timestamp] columns are [option Z]. *)

Module Book.
Record t := mk
  { id : Z; title : string; author : string; category : string;
    language : string; price : Z; publisher : string; ddc : string;
    coverImage : option string; status : string; createdAt : option Z }.
End Book.

Module Member.
Record t := mk
  { id : Z; fullName : string; class : string; registrationNo : string;
    createdAt : option Z }.
End Member.

Module Category.
Record t := mk { id : Z; name : string; createdAt : option Z }.
End Category.

Module BookSuggestion.
Record t := mk
  { id : Z; memberId : Z; bookTitle : string; author : string;
    reason : option string; status : string; createdAt : option Z }.
End BookSuggestion.

Module BookReview.
Record t := mk
  { id : Z; bookId : Z; memberId : Z; rating : Z; review : string;
    createdAt : option Z }.
End BookReview.

Module Circulation.
Record t := mk
  { id : Z; bookId : Z; memberId : Z; action : string; date : option Z;
    dueDate : option Z; returnDate : option Z; status : string }.
End Circulation.

(** Insert types: [createInsertSchema(table).omit({...})]. *)

Module InsertBook.
Record t := mk
  { title : string; author : string; category : string; language : string;
    price : Z; publisher : string; ddc : string; coverImage : option string }.
End InsertBook.

Module InsertMember.
Record t := mk { fullName : string; class : string; registrationNo : string }.
End InsertMember.

Module InsertCategory.
Record t := mk { name : string }.
End InsertCategory.

Module InsertBookSuggestion.
Record t := mk
  { memberId : Z; bookTitle : string; author : string; reason : option string }.
End InsertBookSuggestion.

Module InsertBookReview.
Record t := mk { bookId : Z; memberId : Z; rating : Z; review : string }.
End InsertBookReview.

Module InsertCirculation.
Record t := mk
  { bookId : Z; memberId : Z; action : string;
    dueDate : option Z; returnDate : option Z }.
End InsertCirculation.

(** [Partial<T>]: every field optional.  [{ ...row, ...updates }] takes a
  field from [updates] when it is there and from [row] otherwise. *)

Definition over {A : Type} (old : A) (upd : option A) : A :=
match upd with Some x => x | None => old end.

Module PartialBook.
Record t := mk
  { id : option Z; title : option string; author : option string;
    category : option string; language : option string; price : option Z;
    publisher : option string; ddc : option string;
    coverImage : option (option string); status : option string;
    createdAt : option (option Z) }.
Definition none : t :=
  mk None None None None None None None None None None None.
Definition spread (b : Book.t) (u : t) : Book.t :=
  Book.mk (over (Book.id b) (id u)) (over (Book.title b) (title u))
    (over (Book.author b) (author u)) (over (Book.category b) (category u))
    (over (Book.language b) (language u)) (over (Book.price b) (price u))
    (over (Book.publisher b) (publisher u)) (over (Book.ddc b) (ddc u))
    (over (Book.coverImage b) (coverImage u)) (over (Book.status b) (status u))
    (over (Book.createdAt b) (createdAt u)).
End PartialBook.

Module PartialMember.
Record t := mk
  { id : option Z; fullName : option string; class : option string;
    registrationNo : option string; createdAt : option (option Z) }.
Definition spread (m : Member.t) (u : t) : Member.t :=
  Member.mk (over (Member.id m) (id u)) (over (Member.fullName m) (fullName u))
    (over (Member.class m) (class u))
    (over (Member.registrationNo m) (registrationNo u))
    (over (Member.createdAt m) (createdAt u)).
End PartialMember.

Module PartialCategory.
Record t := mk
  { id : option Z; name : option string; createdAt : option (option Z) }.
Definition spread (c : Category.t) (u : t) : Category.t :=
  Category.mk (over (Category.id c) (id u)) (over (Category.name c) (name u))
    (over (Category.createdAt c) (createdAt u)).
End PartialCategory.

Module PartialBookSuggestion.
Record t := mk
  { id : option Z; memberId : option Z; bookTitle : option string;
    author : option string; reason : option (option string);
    status : option string; createdAt : option (option Z) }.
Definition spread (s : BookSuggestion.t) (u : t) : BookSuggestion.t :=
  BookSuggestion.mk (over (BookSuggestion.id s) (id u))
    (over (BookSuggestion.memberId s) (memberId u))
    (over (BookSuggestion.bookTitle s) (bookTitle u))
    (over (BookSuggestion.author s) (author u))
    (over (BookSuggestion.reason s) (reason u))
    (over (BookSuggestion.status s) (status u))
    (over (BookSuggestion.createdAt s) (createdAt u)).
End PartialBookSuggestion.

Module PartialBookReview.
Record t := mk
  { id : option Z; bookId : option Z; memberId : option Z; rating : option Z;
    review : option string; createdAt : option (option Z) }.
Definition spread (r : BookReview.t) (u : t) : BookReview.t :=
  BookReview.mk (over (BookReview.id r) (id u))
    (over (BookReview.bookId r) (bookId u))
    (over (BookReview.memberId r) (memberId u))
    (over (BookReview.rating r) (rating u))
    (over (BookReview.review r) (review u))
    (over (BookReview.createdAt r) (createdAt u)).
End PartialBookReview.

Module PartialCirculation.
Record t := mk
  { id : option Z; bookId : option Z; memberId : option Z;
    action : option string; date : option (option Z);
    dueDate : option (option Z); returnDate : option (option Z);
    status : option string }.
Definition spread (c : Circulation.t) (u : t) : Circulation.t :=
  Circulation.mk (over (Circulation.id c) (id u))
    (over (Circulation.bookId c) (bookId u))
    (over (Circulation.memberId c) (memberId u))
    (over (Circulation.action c) (action u))
    (over (Circulation.date c) (date u))
    (over (Circulation.dueDate c) (dueDate u))
    (over (Circulation.returnDate c) (returnDate u))
    (over (Circulation.status c) (status u)).
End PartialCirculation.

(* ================================================================== *)
(** ** Strings: [toLowerCase] and [includes] *)

(** Text is a string of bytes.  [toLowerCase] maps the letters [A] to [Z]
    and leaves every other byte as it is: it is
    [String.prototype.toLowerCase] on ASCII text, and says nothing of
    capitals outside ASCII. *)
Definition lower_ascii (c : ascii) : ascii :=
  let n := N_of_ascii c in
  if ((65 <=? n) && (n <=? 90))%N then ascii_of_N (n + 32) else c.

Fixpoint toLowerCase (s : string) : string :=
  match s with
  | EmptyString => EmptyString
  | String c r => String (lower_ascii c) (toLowerCase r)
  end.

Fixpoint startsWith (s t : string) {struct t} : bool :=
  match t, s with
  | EmptyString, _ => true
  | String _ _, EmptyString => false
  | String c t', String d s' => Ascii.eqb c d && startsWith s' t'
  end.

(** [s.includes(t)]: [t] occurs in [s] at some position. *)
Fixpoint includes (s t : string) : bool :=
  startsWith s t ||
  match s with
  | EmptyString => false
  | String _ r => includes r t
  end.

(* ================================================================== *)
(** ** server/storage.ts: [MemStorage] *)

Module MemStorage.

Record t := mk
  { books : JsMap.t Book.t;
    members : JsMap.t Member.t;
    categories : JsMap.t Category.t;
    bookSuggestions : JsMap.t BookSuggestion.t;
    bookReviews : JsMap.t BookReview.t;
    circulation : JsMap.t Circulation.t;
    currentId : Z }.

(** [new MemStorage()] *)
Definition init : t := mk [] [] [] [] [] [] 1.

(** The storage after an assignment to one collection and to
    [currentId]. *)
Definition with_books (s : t) bs n :=
  mk bs (members s) (categories s) (bookSuggestions s) (bookReviews s)
     (circulation s) n.
Definition with_members (s : t) ms n :=
  mk (books s) ms (categories s) (bookSuggestions s) (bookReviews s)
     (circulation s) n.
Definition with_categories (s : t) cs n :=
  mk (books s) (members s) cs (bookSuggestions s) (bookReviews s)
     (circulation s) n.
Definition with_bookSuggestions (s : t) gs n :=
  mk (books s) (members s) (categories s) gs (bookReviews s)
     (circulation s) n.
Definition with_bookReviews (s : t) rs n :=
  mk (books s) (members s) (categories s) (bookSuggestions s) rs
     (circulation s) n.
Definition with_circulation (s : t) cs n :=
  mk (books s) (members s) (categories s) (bookSuggestions s) (bookReviews s)
     cs n.

(** *** Books *)

Definition getBooks (s : t) : list Book.t := JsMap.values (books s).
Definition getBook (id : Z) (s : t) : option Book.t := JsMap.get id (books s).

Definition createBook (now : Z) (book : InsertBook.t) (s : t) : Book.t * t :=
  let id := currentId s in
  let newBook :=
    Book.mk id (InsertBook.title book) (InsertBook.author book)
      (InsertBook.category book) (InsertBook.language book)
      (InsertBook.price book) (InsertBook.publisher book) (InsertBook.ddc book)
      (InsertBook.coverImage book) "available" (Some now) in
  (newBook, with_books s (JsMap.set id newBook (books s)) (id + 1)).

Definition updateBook (id : Z) (updates : PartialBook.t) (s : t)
  : option Book.t * t :=
  match JsMap.get id (books s) with
  | None => (None, s)
  | Some book =>
      let updatedBook := PartialBook.spread book updates in
      (Some updatedBook,
       with_books s (JsMap.set id updatedBook (books s)) (currentId s))
  end.

Definition deleteBook (id : Z) (s : t) : bool * t :=
  let (found, bs) := JsMap.delete id (books s) in
  (found, with_books s bs (currentId s)).

Definition searchBooks (query : string) (s : t) : list Book.t :=
  let lowerQuery := toLowerCase query in
  filter (fun book =>
            includes (toLowerCase (Book.title book)) lowerQuery
            || includes (toLowerCase (Book.author book)) lowerQuery
            || includes (toLowerCase (Book.category book)) lowerQuery)
         (JsMap.values (books s)).

(** *** Members *)

Definition getMembers (s : t) : list Member.t := JsMap.values (members s).
Definition getMember (id : Z) (s : t) : option Member.t :=
  JsMap.get id (members s).

Definition createMember (now : Z) (member : InsertMember.t) (s : t)
  : Member.t * t :=
  let id := currentId s in
  let newMember :=
    Member.mk id (InsertMember.fullName member) (InsertMember.class member)
      (InsertMember.registrationNo member) (Some now) in
  (newMember, with_members s (JsMap.set id newMember (members s)) (id + 1)).

Definition updateMember (id : Z) (updates : PartialMember.t) (s : t)
  : option Member.t * t :=
  match JsMap.get id (members s) with
  | None => (None, s)
  | Some member =>
      let updatedMember := PartialMember.spread member updates in
      (Some updatedMember,
       with_members s (JsMap.set id updatedMember (members s)) (currentId s))
  end.

Definition deleteMember (id : Z) (s : t) : bool * t :=
  let (found, ms) := JsMap.delete id (members s) in
  (found, with_members s ms (currentId s)).

Definition searchMembers (query : string) (s : t) : list Member.t :=
  let lowerQuery := toLowerCase query in
  filter (fun member =>
            includes (toLowerCase (Member.fullName member)) lowerQuery
            || includes (toLowerCase (Member.class member)) lowerQuery
            || includes (toLowerCase (Member.registrationNo member)) lowerQuery)
         (JsMap.values (members s)).

(** *** Categories *)

Definition getCategories (s : t) : list Category.t :=
  JsMap.values (categories s).
Definition getCategory (id : Z) (s : t) : option Category.t :=
  JsMap.get id (categories s).

Definition createCategory (now : Z) (category : InsertCategory.t) (s : t)
  : Category.t * t :=
  let id := currentId s in
  let newCategory := Category.mk id (InsertCategory.name category) (Some now) in
  (newCategory,
   with_categories s (JsMap.set id newCategory (categories s)) (id + 1)).

Definition updateCategory (id : Z) (updates : PartialCategory.t) (s : t)
  : option Category.t * t :=
  match JsMap.get id (categories s) with
  | None => (None, s)
  | Some category =>
      let updatedCategory := PartialCategory.spread category updates in
      (Some updatedCategory,
       with_categories s (JsMap.set id updatedCategory (categories s))
         (currentId s))
  end.

Definition deleteCategory (id : Z) (s : t) : bool * t :=
  let (found, cs) := JsMap.delete id (categories s) in
  (found, with_categories s cs (currentId s)).

(** *** Book suggestions *)

Definition getBookSuggestions (s : t) : list BookSuggestion.t :=
  JsMap.values (bookSuggestions s).
Definition getBookSuggestion (id : Z) (s : t) : option BookSuggestion.t :=
  JsMap.get id (bookSuggestions s).

Definition createBookSuggestion (now : Z) (suggestion : InsertBookSuggestion.t)
    (s : t) : BookSuggestion.t * t :=
  let id := currentId s in
  let newSuggestion :=
    BookSuggestion.mk id (InsertBookSuggestion.memberId suggestion)
      (InsertBookSuggestion.bookTitle suggestion)
      (InsertBookSuggestion.author suggestion)
      (InsertBookSuggestion.reason suggestion) "pending" (Some now) in
  (newSuggestion,
   with_bookSuggestions s (JsMap.set id newSuggestion (bookSuggestions s))
     (id + 1)).

Definition updateBookSuggestion (id : Z) (updates : PartialBookSuggestion.t)
    (s : t) : option BookSuggestion.t * t :=
  match JsMap.get id (bookSuggestions s) with
  | None => (None, s)
  | Some suggestion =>
      let updatedSuggestion := PartialBookSuggestion.spread suggestion updates in
      (Some updatedSuggestion,
       with_bookSuggestions s
         (JsMap.set id updatedSuggestion (bookSuggestions s)) (currentId s))
  end.

(** *** Book reviews *)

Definition getBookReviews (s : t) : list BookReview.t :=
  JsMap.values (bookReviews s).
Definition getBookReview (id : Z) (s : t) : option BookReview.t :=
  JsMap.get id (bookReviews s).

Definition createBookReview (now : Z) (review : InsertBookReview.t) (s : t)
  : BookReview.t * t :=
  let id := currentId s in
  let newReview :=
    BookReview.mk id (InsertBookReview.bookId review)
      (InsertBookReview.memberId review) (InsertBookReview.rating review)
      (InsertBookReview.review review) (Some now) in
  (newReview,
   with_bookReviews s (JsMap.set id newReview (bookReviews s)) (id + 1)).

Definition updateBookReview (id : Z) (updates : PartialBookReview.t) (s : t)
  : option BookReview.t * t :=
  match JsMap.get id (bookReviews s) with
  | None => (None, s)
  | Some review =>
      let updatedReview := PartialBookReview.spread review updates in
      (Some updatedReview,
       with_bookReviews s (JsMap.set id updatedReview (bookReviews s))
         (currentId s))
  end.

Definition getBookReviewsByBook (bookId : Z) (s : t) : list BookReview.t :=
  filter (fun review => BookReview.bookId review =? bookId)
         (JsMap.values (bookReviews s)).

(** *** Circulation *)

Definition getCirculation (s : t) : list Circulation.t :=
  JsMap.values (circulation s).
Definition getCirculationRecord (id : Z) (s : t) : option Circulation.t :=
  JsMap.get id (circulation s).

Definition createCirculationRecord (now : Z) (c : InsertCirculation.t) (s : t)
  : Circulation.t * t :=
  let id := currentId s in
  let newCirculation :=
    Circulation.mk id (InsertCirculation.bookId c) (InsertCirculation.memberId c)
      (InsertCirculation.action c) (Some now) (InsertCirculation.dueDate c)
      (InsertCirculation.returnDate c) "active" in
  (newCirculation,
   with_circulation s (JsMap.set id newCirculation (circulation s)) (id + 1)).

Definition updateCirculationRecord (id : Z) (updates : PartialCirculation.t)
    (s : t) : option Circulation.t * t :=
  match JsMap.get id (circulation s) with
  | None => (None, s)
  | Some record =>
      let updatedRecord := PartialCirculation.spread record updates in
      (Some updatedRecord,
       with_circulation s (JsMap.set id updatedRecord (circulation s))
         (currentId s))
  end.

Definition getActiveCirculation (s : t) : list Circulation.t :=
  filter (fun c => String.eqb (Circulation.status c) "active")
         (JsMap.values (circulation s)).

(** [c.status === "active" && c.dueDate && new Date(c.dueDate) < now]:
    a [Date] object is truthy, [null] is not. *)
Definition is_overdue (now : Z) (c : Circulation.t) : bool :=
  String.eqb (Circulation.status c) "active"
  && match Circulation.dueDate c with
     | Some due => due <? now
     | None => false
     end.

Definition getOverdueCirculation (now : Z) (s : t) : list Circulation.t :=
  filter (is_overdue now) (JsMap.values (circulation s)).

(** *** Analytics *)

(** [borrowCounts.set(k, (borrowCounts.get(k) || 0) + 1)] *)
Definition bump (k : Z) (counts : JsMap.t Z) : JsMap.t Z :=
  JsMap.set k (match JsMap.get k counts with Some n => n | None => 0 end + 1)
            counts.

(** The [forEach] over the circulation records that fills [borrowCounts]. *)
Definition borrowCountsBy (key : Circulation.t -> Z)
    (records : list Circulation.t) : JsMap.t Z :=
  fold_left (fun counts record =>
               if String.eqb (Circulation.action record) "borrow"
               then bump (key record) counts else counts)
            records JsMap.empty.

(** [Array.prototype.sort] with a comparator: a stable sort; [x] goes
    before [y] unless [cmp x y > 0]. *)
Section Sort.
Context {A : Type} (cmp : A -> A -> Z).
Fixpoint sort_insert (x : A) (l : list A) : list A :=
    match l with
    | [] => [x]
    | y :: r => if cmp x y <=? 0 then x :: y :: r else y :: sort_insert x r
    end.
Definition sort (l : list A) : list A := fold_right sort_insert [] l.
End Sort.

(** The row types of the three analytics queries. *)
Module BookCount.
Record t := mk { book : Book.t; borrowCount : Z }.
End BookCount.
Module MemberCount.
Record t := mk { member : Member.t; borrowCount : Z }.
End MemberCount.
Module Issued.
Record t := mk { book : Book.t; member : Member.t; dueDate : option Z }.
End Issued.

(** The loop [for (const [bookId, count] of borrowCounts)] with its
    [if (book)] guard. *)
Fixpoint joinBooks (bs : JsMap.t Book.t) (counts : list (Z * Z))
  : list BookCount.t :=
  match counts with
  | [] => []
  | (bookId, count) :: r =>
      match JsMap.get bookId bs with
      | Some b => BookCount.mk b count :: joinBooks bs r
      | None => joinBooks bs r
      end
  end.

Definition getMostReadBooks (s : t) : list BookCount.t :=
  let borrowCounts :=
    borrowCountsBy Circulation.bookId (JsMap.values (circulation s)) in
  let results := joinBooks (books s) (JsMap.entries borrowCounts) in
  sort (fun a b => BookCount.borrowCount b - BookCount.borrowCount a) results.

Fixpoint joinMembers (ms : JsMap.t Member.t) (counts : list (Z * Z))
  : list MemberCount.t :=
  match counts with
  | [] => []
  | (memberId, count) :: r =>
      match JsMap.get memberId ms with
      | Some m => MemberCount.mk m count :: joinMembers ms r
      | None => joinMembers ms r
      end
  end.

Definition getMostActiveReaders (s : t) : list MemberCount.t :=
  let borrowCounts :=
    borrowCountsBy Circulation.memberId (JsMap.values (circulation s)) in
  let results := joinMembers (members s) (JsMap.entries borrowCounts) in
  sort (fun a b => MemberCount.borrowCount b - MemberCount.borrowCount a)
       results.

(** The loop of [getIssuedBooks] with its [if (book && member)] guard. *)
Fixpoint joinIssued (bs : JsMap.t Book.t) (ms : JsMap.t Member.t)
    (active : list Circulation.t) : list Issued.t :=
  match active with
  | [] => []
  | record :: r =>
      match JsMap.get (Circulation.bookId record) bs,
            JsMap.get (Circulation.memberId record) ms with
      | Some b, Some m =>
          Issued.mk b m (Circulation.dueDate record) :: joinIssued bs ms r
      | _, _ => joinIssued bs ms r
      end
  end.

Definition getIssuedBooks (s : t) : list Issued.t :=
  joinIssued (books s) (members s) (getActiveCirculation s).

End MemStorage.

(* ================================================================== *)
(** ** server/storage.ts: the queries of [DatabaseStorage]

    A table is the list of its rows.  Only the [where] clauses and the
    inserted values the properties below depend on are embedded; they are
    evaluated the way PostgreSQL evaluates them. *)

Module DatabaseStorage.

(** PostgreSQL [subject LIKE pattern]: [%] stands for any run of
    characters, [_] for any one character, a backslash makes the next
    character literal, and every other character stands for itself,
    letter case included.  (PostgreSQL rejects a pattern that ends in a
    lone backslash; such a pattern matches nothing here.  The patterns
    [searchBooks] builds end in [%].) *)
Fixpoint like_match (pattern : string) : string -> bool :=
  match pattern with
  | EmptyString =>
      fun s => match s with EmptyString => true | String _ _ => false end
  | String c p =>
      if Ascii.eqb c "%" then
        fix any (s : string) : bool :=
          like_match p s
          || match s with EmptyString => false | String _ r => any r end
      else if Ascii.eqb c "_" then
        fun s =>
          match s with EmptyString => false | String _ r => like_match p r end
      else if Ascii.eqb c "\" then
        match p with
        | EmptyString => fun _ => false
        | String e q =>
            fun s =>
              match s with
              | EmptyString => false
              | String d r => Ascii.eqb e d && like_match q r
              end
        end
      else
        fun s =>
          match s with
          | EmptyString => false
          | String d r => Ascii.eqb c d && like_match p r
          end
  end.

(** drizzle's [like(column, value)] on a [notNull] text column. *)
Definition like (column : string) (value : string) : bool :=
  like_match value column.

(** [`%${query.toLowerCase()}%`] *)
Definition likePattern (query : string) : string :=
  String "%" (toLowerCase query ++ "%")%string.

Definition searchBooks (query : string) (rows : list Book.t) : list Book.t :=
  let lowerQuery := likePattern query in
  filter (fun row =>
            like (Book.title row) lowerQuery
            || like (Book.author row) lowerQuery
            || like (Book.category row) lowerQuery)
         rows.

Definition searchMembers (query : string) (rows : list Member.t)
  : list Member.t :=
  let lowerQuery := likePattern query in
  filter (fun row =>
            like (Member.fullName row) lowerQuery
            || like (Member.class row) lowerQuery
            || like (Member.registrationNo row) lowerQuery)
         rows.

(** The [status] value [createCirculationRecord] inserts:
    [circulationData.action === "return" ? "returned" : "active"]. *)
Definition insertedStatus (action : string) : string :=
  if String.eqb action "return" then "returned" else "active".

(** SQL comparisons are three-valued: comparing [NULL] gives [NULL]
    ([None]), and a [where] clause keeps the rows whose condition is
    true. *)
Definition sql_eq_text (column value : string) : option bool :=
  Some (String.eqb column value).
Definition sql_lt (column : option Z) (value : Z) : option bool :=
  option_map (fun d => d <? value) column.
Definition sql_and (a b : option bool) : option bool :=
  match a, b with
  | Some false, _ | _, Some false => Some false
  | Some true, Some true => Some true
  | _, _ => None
  end.
Definition sql_where (cond : option bool) : bool :=
  match cond with Some true => true | _ => false end.

(** [and(eq(circulation.status, "active"), lt(circulation.dueDate, now))] *)
Definition getOverdueCirculation (now : Z) (rows : list Circulation.t)
  : list Circulation.t :=
  filter (fun row =>
            sql_where (sql_and (sql_eq_text (Circulation.status row) "active")
                               (sql_lt (Circulation.dueDate row) now)))
         rows.

End DatabaseStorage.

(* ================================================================== *)
(** ** Request bodies and the insert schemas *)

(** A parsed JSON body.  Numbers are the integral ones; an object is the
    list of its properties. *)
#[warnings="-register-all"]
Inductive json :=
| JNull
| JBool (b : bool)
| JNum (n : Z)
| JStr (s : string)
| JArr (items : list json)
| JObj (fields : list (string * json)).

Fixpoint prop (k : string) (fields : list (string * json)) : option json :=
  match fields with
  | [] => None
  | (k', v) :: r => if String.eqb k k' then Some v else prop k r
  end.

Definition fields_of (body : json) : option (list (string * json)) :=
  match body with JObj fs => Some fs | _ => None end.

Module Zod.
(** The validators drizzle-zod derives from the column types.  [None] is
    a [ZodError]. *)

(** The range of an [integer] column.  (Releases of drizzle-zod differ in
    whether they check it; the schemas of this repository add no check of
    their own, on any column.) *)
Definition int4 (n : Z) : bool := (-2147483648 <=? n) && (n <=? 2147483647).

(** [integer(..).notNull()] *)
Definition integer (k : string) (fs : list (string * json)) : option Z :=
  match prop k fs with
  | Some (JNum n) => if int4 n then Some n else None
  | _ => None
  end.

(** [text(..).notNull()] *)
Definition text (k : string) (fs : list (string * json)) : option string :=
  match prop k fs with
  | Some (JStr s) => Some s
  | _ => None
  end.

(** [text(..)]: nullable and optional. *)
Definition textNullable (k : string) (fs : list (string * json))
  : option (option string) :=
  match prop k fs with
  | None | Some JNull => Some None
  | Some (JStr s) => Some (Some s)
  | Some _ => None
  end.

(** [timestamp(..)]: nullable and optional; [z.date()] wants a [Date]
    object, which no JSON value is. *)
Definition timestampNullable (k : string) (fs : list (string * json))
  : option (option Z) :=
  match prop k fs with
  | None | Some JNull => Some None
  | Some _ => None
  end.

Definition bind {A B} (x : option A) (f : A -> option B) : option B :=
  match x with Some a => f a | None => None end.

Notation "x <- e ;; k" := (bind e (fun x => k))
  (at level 61, e at next level, right associativity).

(** Keys the schema does not list ([id], [createdAt], [status], ...) are
    stripped: the parsed value only has the listed fields. *)

Definition insertBookSchema (body : json) : option InsertBook.t :=
  fs <- fields_of body ;;
  title <- text "title" fs ;;
  author <- text "author" fs ;;
  category <- text "category" fs ;;
  language <- text "language" fs ;;
  price <- integer "price" fs ;;
  publisher <- text "publisher" fs ;;
  ddc <- text "ddc" fs ;;
  coverImage <- textNullable "coverImage" fs ;;
  Some (InsertBook.mk title author category language price publisher ddc
                      coverImage).

Definition insertMemberSchema (body : json) : option InsertMember.t :=
  fs <- fields_of body ;;
  fullName <- text "fullName" fs ;;
  class <- text "class" fs ;;
  registrationNo <- text "registrationNo" fs ;;
  Some (InsertMember.mk fullName class registrationNo).

Definition insertCategorySchema (body : json) : option InsertCategory.t :=
  fs <- fields_of body ;;
  name <- text "name" fs ;;
  Some (InsertCategory.mk name).

Definition insertBookSuggestionSchema (body : json)
  : option InsertBookSuggestion.t :=
  fs <- fields_of body ;;
  memberId <- integer "memberId" fs ;;
  bookTitle <- text "bookTitle" fs ;;
  author <- text "author" fs ;;
  reason <- textNullable "reason" fs ;;
  Some (InsertBookSuggestion.mk memberId bookTitle author reason).

Definition insertBookReviewSchema (body : json) : option InsertBookReview.t :=
  fs <- fields_of body ;;
  bookId <- integer "bookId" fs ;;
  memberId <- integer "memberId" fs ;;
  rating <- integer "rating" fs ;;
  review <- text "review" fs ;;
  Some (InsertBookReview.mk bookId memberId rating review).

Definition insertCirculationSchema (body : json) : option InsertCirculation.t :=
  fs <- fields_of body ;;
  bookId <- integer "bookId" fs ;;
  memberId <- integer "memberId" fs ;;
  action <- text "action" fs ;;
  dueDate <- timestampNullable "dueDate" fs ;;
  returnDate <- timestampNullable "returnDate" fs ;;
  Some (InsertCirculation.mk bookId memberId action dueDate returnDate).

(** The client-side schema of the review form
    (write-review-modal): [rating: z.number().min(1).max(5)]. *)
Definition reviewFormRating (rating : Z) : bool :=
  (1 <=? rating) && (rating <=? 5).
End Zod.

(** [req.body] read as a [Partial<Book>] by [PUT /api/books/:id], which
    hands it to [updateBook] unvalidated.  A property whose value has the
    column's type overrides the stored field; the typed row of this model
    cannot hold any other value, and such properties are left out. *)
Definition partialBook_of_json (body : json) : PartialBook.t :=
  match body with
  | JObj fs =>
      let num k := match prop k fs with Some (JNum n) => Some n | _ => None end in
      let str k := match prop k fs with Some (JStr s) => Some s | _ => None end in
      PartialBook.mk (num "id") (str "title") (str "author") (str "category")
        (str "language") (num "price") (str "publisher") (str "ddc")
        (match prop "coverImage" fs with
         | Some JNull => Some None
         | Some (JStr s) => Some (Some s)
         | _ => None
         end)
        (str "status") None
  | _ => PartialBook.none
  end.

(* ================================================================== *)
(** ** server/routes.ts: [registerRoutes] *)

(** [parseInt(s)]: leading white space, an optional sign, then the longest
    run of digits (hexadecimal after [0x]); [None] is [NaN].  The value is
    the exact integer, which is what JavaScript returns up to 2^53; the
    white space skipped is that of ASCII. *)
Definition is_space (c : ascii) : bool :=
  let n := N_of_ascii c in
  ((9 <=? n) && (n <=? 13) || (n =? 32))%N.

Fixpoint trimStart (s : string) : string :=
  match s with
  | String c r => if is_space c then trimStart r else s
  | EmptyString => s
  end.

Definition digit10 (c : ascii) : option Z :=
  let n := Z.of_N (N_of_ascii c) in
  if (48 <=? n) && (n <=? 57) then Some (n - 48) else None.

Definition digit16 (c : ascii) : option Z :=
  let n := Z.of_N (N_of_ascii c) in
  if (48 <=? n) && (n <=? 57) then Some (n - 48)
  else if (97 <=? n) && (n <=? 102) then Some (n - 87)
  else if (65 <=? n) && (n <=? 70) then Some (n - 55)
  else None.

Fixpoint digits (radix : Z) (digit : ascii -> option Z) (s : string)
    (acc : option Z) : option Z :=
  match s with
  | EmptyString => acc
  | String c r =>
      match digit c with
      | Some d =>
          digits radix digit r
            (Some (match acc with Some a => a | None => 0 end * radix + d))
      | None => acc
      end
  end.

Definition unsigned_int (s : string) : option Z :=
  match s with
  | String "0" (String x r) =>
      if Ascii.eqb x "x" || Ascii.eqb x "X"
      then digits 16 digit16 r None
      else digits 10 digit10 s None
  | _ => digits 10 digit10 s None
  end.

Definition parseInt (s : string) : option Z :=
  match trimStart s with
  | String "-" r => option_map Z.opp (unsigned_int r)
  | String "+" r => unsigned_int r
  | r => unsigned_int r
  end.

(** [`${n}`] for an integer [n] below 10^21 in absolute value, where a
    template literal writes all the digits. *)
Definition string_of_Z (n : Z) : string :=
  NilZero.string_of_int (Z.to_int n).

Inductive meth := GET | POST | PUT | DELETE.

Definition meth_eqb (a b : meth) : bool :=
  match a, b with
  | GET, GET | POST, POST | PUT, PUT | DELETE, DELETE => true
  | _, _ => false
  end.

(** A request: the method, the path split at its slashes, the [q] query
    parameter when it is a string, and the parsed body.  Route patterns
    are compared with the path segment by segment, as they are written. *)
Record request := mkRequest
  { method : meth; path : list string; query_q : option string; body : json }.

(** What [res.json(..)] and [res.send()] put into the response. *)
Inductive payload :=
| Empty
| Error (message : string)
| OneBook (b : Book.t)
| Books (l : list Book.t)
| OneMember (m : Member.t)
| Members (l : list Member.t)
| OneCategory (c : Category.t)
| Categories (l : list Category.t)
| OneSuggestion (g : BookSuggestion.t)
| Suggestions (l : list BookSuggestion.t)
| OneReview (r : BookReview.t)
| Reviews (l : list BookReview.t)
| OneCirculation (c : Circulation.t)
| Circulations (l : list Circulation.t)
| MostRead (l : list MemStorage.BookCount.t)
| MostActive (l : list MemStorage.MemberCount.t)
| IssuedBooks (l : list MemStorage.Issued.t).

Record response := mkResponse { status : Z; content : payload }.

Fixpoint path_eqb (a b : list string) : bool :=
  match a, b with
  | [], [] => true
  | x :: a', y :: b' => String.eqb x y && path_eqb a' b'
  | _, _ => false
  end.

(** A route without parameters, e.g. [app.get("/api/books", ..)]. *)
Definition on (m : meth) (pattern : list string) (req : request) : bool :=
  meth_eqb m (method req) && path_eqb pattern (path req).

(** A route that ends in one parameter, e.g. [app.put("/api/books/:id", ..)]:
    the value of the parameter when the request matches. *)
Fixpoint last_param (pattern p : list string) : option string :=
  match pattern, p with
  | [], [seg] => if String.eqb seg "" then None else Some seg
  | x :: pattern', y :: p' =>
      if String.eqb x y then last_param pattern' p' else None
  | _, _ => None
  end.

Definition on_param (m : meth) (pattern : list string) (req : request)
  : option string :=
  if meth_eqb m (method req) then last_param pattern (path req) else None.

Definition bind_id {A} (id : option Z) (f : Z -> option A) : option A :=
  match id with Some n => f n | None => None end.

Definition reply (code : Z) (p : payload) (s : MemStorage.t)
  : option (response * MemStorage.t) :=
  Some (mkResponse code p, s).

(** The route table, in registration order.  [None]: no route of
    [registerRoutes] matches the request, and the storage is not touched by
    it.  [parseInt] giving [NaN] is [None]; [NaN] is the key of no entry,
    and the storage methods then behave as on any other absent key.  On
    the typed rows of this model no storage method throws, so the [catch]
    branch of a route (the answer 500) is not among the cases. *)
Definition handle (now : Z) (req : request) (s : MemStorage.t)
  : option (response * MemStorage.t) :=
  (* Books *)
  if on GET ["api"; "books"] req then
    reply 200 (Books (MemStorage.getBooks s)) s
  else if on GET ["api"; "books"; "search"] req then
    match query_q req with
    | None | Some "" => reply 400 (Error "Search query is required") s
    | Some q => reply 200 (Books (MemStorage.searchBooks q s)) s
    end
  else match on_param GET ["api"; "books"] req with
  | Some id =>
      match bind_id (parseInt id) (fun id => MemStorage.getBook id s) with
      | None => reply 404 (Error "Book not found") s
      | Some book => reply 200 (OneBook book) s
      end
  | None =>
  if on POST ["api"; "books"] req then
    match Zod.insertBookSchema (body req) with
    | None => reply 400 (Error "Invalid book data") s
    | Some data =>
        let (book, s') := MemStorage.createBook now data s in
        reply 201 (OneBook book) s'
    end
  else match on_param PUT ["api"; "books"] req with
  | Some id =>
      let updates := partialBook_of_json (body req) in
      let (book, s') :=
        match parseInt id with
        | Some id => MemStorage.updateBook id updates s
        | None => (None, s)
        end in
      match book with
      | None => reply 404 (Error "Book not found") s'
      | Some book => reply 200 (OneBook book) s'
      end
  | None =>
  match on_param DELETE ["api"; "books"] req with
  | Some id =>
      let (deleted, s') :=
        match parseInt id with
        | Some id => MemStorage.deleteBook id s
        | None => (false, s)
        end in
      if deleted then reply 204 Empty s'
      else reply 404 (Error "Book not found") s'
  | None =>
  (* Members *)
  if on GET ["api"; "members"] req then
    reply 200 (Members (MemStorage.getMembers s)) s
  else if on GET ["api"; "members"; "search"] req then
    match query_q req with
    | None | Some "" => reply 400 (Error "Search query is required") s
    | Some q => reply 200 (Members (MemStorage.searchMembers q s)) s
    end
  else if on POST ["api"; "members"] req then
    match Zod.insertMemberSchema (body req) with
    | None => reply 400 (Error "Invalid member data") s
    | Some data =>
        let (member, s') := MemStorage.createMember now data s in
        reply 201 (OneMember member) s'
    end
  (* Categories *)
  else if on GET ["api"; "categories"] req then
    reply 200 (Categories (MemStorage.getCategories s)) s
  else if on POST ["api"; "categories"] req then
    match Zod.insertCategorySchema (body req) with
    | None => reply 400 (Error "Invalid category data") s
    | Some data =>
        let (category, s') := MemStorage.createCategory now data s in
        reply 201 (OneCategory category) s'
    end
  else match on_param DELETE ["api"; "categories"] req with
  | Some id =>
      let (deleted, s') :=
        match parseInt id with
        | Some id => MemStorage.deleteCategory id s
        | None => (false, s)
        end in
      if deleted then reply 204 Empty s'
      else reply 404 (Error "Category not found") s'
  | None =>
  (* Book suggestions *)
  if on GET ["api"; "book-suggestions"] req then
    reply 200 (Suggestions (MemStorage.getBookSuggestions s)) s
  else if on POST ["api"; "book-suggestions"] req then
    match Zod.insertBookSuggestionSchema (body req) with
    | None => reply 400 (Error "Invalid suggestion data") s
    | Some data =>
        let (suggestion, s') := MemStorage.createBookSuggestion now data s in
        reply 201 (OneSuggestion suggestion) s'
    end
  (* Book reviews *)
  else if on GET ["api"; "book-reviews"] req then
    reply 200 (Reviews (MemStorage.getBookReviews s)) s
  else match on_param GET ["api"; "book-reviews"; "book"] req with
  | Some bookId =>
      reply 200
        (Reviews match parseInt bookId with
                 | Some bookId => MemStorage.getBookReviewsByBook bookId s
                 | None => []
                 end) s
  | None =>
  if on POST ["api"; "book-reviews"] req then
    match Zod.insertBookReviewSchema (body req) with
    | None => reply 400 (Error "Invalid review data") s
    | Some data =>
        let (review, s') := MemStorage.createBookReview now data s in
        reply 201 (OneReview review) s'
    end
  (* Circulation *)
  else if on GET ["api"; "circulation"] req then
    reply 200 (Circulations (MemStorage.getCirculation s)) s
  else if on GET ["api"; "circulation"; "active"] req then
    reply 200 (Circulations (MemStorage.getActiveCirculation s)) s
  else if on GET ["api"; "circulation"; "overdue"] req then
    reply 200 (Circulations (MemStorage.getOverdueCirculation now s)) s
  else if on POST ["api"; "circulation"] req then
    match Zod.insertCirculationSchema (body req) with
    | None => reply 400 (Error "Invalid circulation data") s
    | Some data =>
        let (record, s') := MemStorage.createCirculationRecord now data s in
        reply 201 (OneCirculation record) s'
    end
  (* Analytics *)
  else if on GET ["api"; "analytics"; "most-read-books"] req then
    reply 200 (MostRead (MemStorage.getMostReadBooks s)) s
  else if on GET ["api"; "analytics"; "most-active-readers"] req then
    reply 200 (MostActive (MemStorage.getMostActiveReaders s)) s
  else if on GET ["api"; "analytics"; "issued-books"] req then
    reply 200 (IssuedBooks (MemStorage.getIssuedBooks s)) s
  else None
  end end end end end.

(* ================================================================== *)
(** ** client: the mutations of the circulation tab *)

Definition ok (res : response) : bool :=
  (200 <=? status res) && (status res <=? 299).

Section Client.
(** Three things the mutations use are defined outside the modules
    embedded here (the query client, the express application, the
    JavaScript library) and are parameters:
    - [unrouted], the answer of the server to a request that no route of
      [registerRoutes] matches (the rest of the express application);
    - [strict], whether [apiRequest] throws on a response that is not
      [ok];
    - [toISOString], [Date.prototype.toISOString]. *)
Variable unrouted : response.
Variable strict : bool.
Variable toISOString : Z -> string.

Definition server (now : Z) (req : request) (s : MemStorage.t)
  : response * MemStorage.t :=
  match handle now req s with
  | Some r => r
  | None => (unrouted, s)
  end.

(** [apiRequest(method, url, data)]; [None] is a thrown error. *)
Definition apiRequest (now : Z) (m : meth) (url : list string) (data : json)
    (s : MemStorage.t) : option response * MemStorage.t :=
  let (res, s') := server now (mkRequest m url None data) s in
  (if strict && negb (ok res) then None else Some res, s').

(** [dueDate.setDate(dueDate.getDate() + 14)]: fourteen calendar days,
    as milliseconds (a change of daylight-saving time aside). *)
Definition fourteenDays : Z := 14 * 24 * 60 * 60 * 1000.

(** [`${circulationRecord.id}`] on the parsed response body. *)
Definition record_id_segment (p : payload) : string :=
  match p with
  | OneCirculation c => string_of_Z (Circulation.id c)
  | _ => "undefined"
  end.

(** [issueBook.mutationFn({ bookId, memberId })].  The result is whether
    the mutation ran to its end, and the storage of the server after it.
    [now] is the clock of the server, [clientNow] the one of the
    browser. *)
Definition issueBook (now clientNow : Z) (bookId memberId : Z)
    (s : MemStorage.t) : bool * MemStorage.t :=
  let circulationData :=
    JObj [("bookId", JNum bookId); ("memberId", JNum memberId);
          ("action", JStr "borrow")] in
  (* Create circulation record first *)
  match apiRequest now POST ["api"; "circulation"] circulationData s with
  | (None, s1) => (false, s1)
  | (Some circulationResponse, s1) =>
      let circulationRecord := content circulationResponse in
      (* Set due date to 14 days from now and update the record *)
      let dueDate := clientNow + fourteenDays in
      match apiRequest now PUT
              ["api"; "circulation"; record_id_segment circulationRecord]
              (JObj [("dueDate", JStr (toISOString dueDate))]) s1 with
      | (None, s2) => (false, s2)
      | (Some _, s2) =>
          (* Update book status to issued *)
          match apiRequest now PUT ["api"; "books"; string_of_Z bookId]
                  (JObj [("status", JStr "issued")]) s2 with
          | (None, s3) => (false, s3)
          | (Some _, s3) => (true, s3)
          end
      end
  end.

(** [activeRecords.find((record) => record.bookId === bookId)] *)
Definition find_active (bookId : Z) (records : list Circulation.t)
  : option Circulation.t :=
  find (fun record => Circulation.bookId record =? bookId) records.

(** [returnBook.mutationFn({ bookId })].  A body of the first response
    that is not an array has no [find] and the mutation throws. *)
Definition returnBook (now : Z) (bookId : Z) (s : MemStorage.t)
  : bool * MemStorage.t :=
  (* Find the active circulation record for this book *)
  match apiRequest now GET ["api"; "circulation"; "active"] JNull s with
  | (None, s1) => (false, s1)
  | (Some activeRecordsResponse, s1) =>
      match content activeRecordsResponse with
      | Circulations activeRecords =>
          let afterRecord :=
            match find_active bookId activeRecords with
            | Some activeRecord =>
                (* Update the active circulation record to "returned" *)
                match apiRequest now PUT
                        ["api"; "circulation";
                         string_of_Z (Circulation.id activeRecord)]
                        (JObj [("status", JStr "returned")]) s1 with
                | (None, s2) => (false, s2)
                | (Some _, s2) =>
                    (* Create return circulation record for history *)
                    let circulationData :=
                      JObj [("bookId", JNum bookId);
                            ("memberId",
                             JNum (Circulation.memberId activeRecord));
                            ("action", JStr "return")] in
                    match apiRequest now POST ["api"; "circulation"]
                            circulationData s2 with
                    | (None, s3) => (false, s3)
                    | (Some _, s3) => (true, s3)
                    end
                end
            | None => (true, s1)
            end in
          match afterRecord with
          | (false, s3) => (false, s3)
          | (true, s3) =>
              (* Update book status to available *)
              match apiRequest now PUT ["api"; "books"; string_of_Z bookId]
                      (JObj [("status", JStr "available")]) s3 with
              | (None, s4) => (false, s4)
              | (Some _, s4) => (true, s4)
              end
          end
      | _ => (false, s1)
      end
  end.

(** The stores the circulation tab can produce: books and members are
    created through the storage, books are issued and returned through
    the two mutations. *)
Inductive circulation_reachable : MemStorage.t -> Prop :=
| reach_init : circulation_reachable MemStorage.init
| reach_createBook now data s :
    circulation_reachable s ->
    circulation_reachable (snd (MemStorage.createBook now data s))
| reach_createMember now data s :
    circulation_reachable s ->
    circulation_reachable (snd (MemStorage.createMember now data s))
| reach_issueBook now clientNow bookId memberId s :
    circulation_reachable s ->
    circulation_reachable (snd (issueBook now clientNow bookId memberId s))
| reach_returnBook now bookId s :
    circulation_reachable s ->
    circulation_reachable (snd (returnBook now bookId s)).
End Client.

(** The invariant of the data model: a book is ["issued"] exactly when an
    active circulation record references it. *)
Definition references_active (b : Book.t) (c : Circulation.t) : Prop :=
  Circulation.status c = "active" /\ Circulation.bookId c = Book.id b.

Definition issued_iff_active (s : MemStorage.t) : Prop :=
  forall b, In b (MemStorage.getBooks s) ->
    (Book.status b = "issued" <->
     exists c, In c (MemStorage.getCirculation s) /\ references_active b c).

(* ================================================================== *)
(** ** client: what the admin tabs compute from the fetched lists *)

(** circulation-tab: the lists behind the "available" and "overdue"
    tabs.  [books] is the body of [GET /api/books], [issuedBooks] the body
    of [GET /api/analytics/issued-books], [now] the clock of the
    browser. *)
Module CirculationTab.

Definition availableBooks (books : list Book.t) : list Book.t :=
  filter (fun book => String.eqb (Book.status book) "available") books.

(** [item.dueDate && new Date(item.dueDate) < new Date()] *)
Definition overdueBooks (now : Z) (issuedBooks : list MemStorage.Issued.t)
  : list MemStorage.Issued.t :=
  filter (fun item =>
            match MemStorage.Issued.dueDate item with
            | Some due => due <? now
            | None => false
            end)
         issuedBooks.

(** [getDisplayData()] on the "available" tab. *)
Definition displayAvailable (searchQuery : string) (books : list Book.t)
  : list Book.t :=
  filter (fun book =>
            String.eqb searchQuery ""
            || includes (toLowerCase (Book.title book)) (toLowerCase searchQuery)
            || includes (toLowerCase (Book.author book)) (toLowerCase searchQuery))
         (availableBooks books).

End CirculationTab.

(** members-tab: the filter of the member list, and the two mutations
    that edit and delete a member. *)
Module MembersTab.

Definition filteredMembers (searchQuery : string) (members : list Member.t)
  : list Member.t :=
  filter (fun member =>
            String.eqb searchQuery ""
            || includes (toLowerCase (Member.fullName member))
                        (toLowerCase searchQuery)
            || includes (toLowerCase (Member.class member))
                        (toLowerCase searchQuery)
            || includes (toLowerCase (Member.registrationNo member))
                        (toLowerCase searchQuery))
         members.

Section Mutations.
Variable unrouted : response.
Variable strict : bool.

(** [apiRequest("PUT", `/api/members/${id}`, data)] *)
Definition updateMember (now id : Z) (data : json) (s : MemStorage.t)
  : option response * MemStorage.t :=
  apiRequest unrouted strict now PUT ["api"; "members"; string_of_Z id] data s.

(** [apiRequest("DELETE", `/api/members/${id}`)] *)
Definition deleteMember (now id : Z) (s : MemStorage.t)
  : option response * MemStorage.t :=
  apiRequest unrouted strict now DELETE ["api"; "members"; string_of_Z id]
    JNull s.
End Mutations.

End MembersTab.

(** library-tab: the filters of the book and category lists, and the two
    mutations that edit and delete a book. *)
Module LibraryTab.

Definition filteredCategories (categorySearch : string)
    (categories : list Category.t) : list Category.t :=
  filter (fun category =>
            includes (toLowerCase (Category.name category))
                     (toLowerCase categorySearch))
         categories.

Definition filteredBooks (bookSearch : string) (books : list Book.t)
  : list Book.t :=
  filter (fun book =>
            String.eqb bookSearch ""
            || includes (toLowerCase (Book.title book)) (toLowerCase bookSearch)
            || includes (toLowerCase (Book.author book)) (toLowerCase bookSearch)
            || includes (toLowerCase (Book.category book))
                        (toLowerCase bookSearch)
            || includes (toLowerCase (Book.publisher book))
                        (toLowerCase bookSearch))
         books.

Section Mutations.
Variable unrouted : response.
Variable strict : bool.

(** [apiRequest("PUT", `/api/books/${id}`, data)] *)
Definition updateBook (now id : Z) (data : json) (s : MemStorage.t)
  : option response * MemStorage.t :=
  apiRequest unrouted strict now PUT ["api"; "books"; string_of_Z id] data s.

(** [apiRequest("DELETE", `/api/books/${id}`)] *)
Definition deleteBook (now id : Z) (s : MemStorage.t)
  : option response * MemStorage.t :=
  apiRequest unrouted strict now DELETE ["api"; "books"; string_of_Z id] JNull s.
End Mutations.

End LibraryTab.

(** enhanced-history-tab: the borrow records paired with their returns.
    [circulation], [books] and [members] are the bodies of
    [GET /api/circulation], [/api/books] and [/api/members]. *)
Module EnhancedHistoryTab.

Module CirculationPair.
Record t := mk
  { bookId : Z; memberId : Z; bookTitle : string; memberName : string;
    borrowDate : Z; returnDate : option Z; dueDate : option Z;
    isOverdue : bool; isActive : bool }.
End CirculationPair.

Definition getBookTitle (books : list Book.t) (bookId : Z) : string :=
  match find (fun b => Book.id b =? bookId) books with
  | Some book => Book.title book
  | None => "Unknown Book"
  end.

Definition getMemberName (members : list Member.t) (memberId : Z) : string :=
  match find (fun m => Member.id m =? memberId) members with
  | Some member => Member.fullName member
  | None => "Unknown Member"
  end.

(** [new Date(record.date || 0)] *)
Definition dateOr0 (date : option Z) : Z :=
  match date with Some t => t | None => 0 end.

(** The callback of [circulation.find] that looks for the return of
    [borrowRecord]. *)
Definition returns (borrowRecord record : Circulation.t) : bool :=
  String.eqb (Circulation.action record) "return"
  && (Circulation.bookId record =? Circulation.bookId borrowRecord)
  && (Circulation.memberId record =? Circulation.memberId borrowRecord)
  && (dateOr0 (Circulation.date record)
      >? dateOr0 (Circulation.date borrowRecord)).

Definition pairOf (now : Z) (circulation : list Circulation.t)
    (books : list Book.t) (members : list Member.t)
    (borrowRecord : Circulation.t) : CirculationPair.t :=
  let returnRecord := find (returns borrowRecord) circulation in
  let borrowDate := dateOr0 (Circulation.date borrowRecord) in
  let returnDate :=
    option_map (fun r => dateOr0 (Circulation.date r)) returnRecord in
  let dueDate := Circulation.dueDate borrowRecord in
  (* dueDate && !returnDate && new Date() > dueDate *)
  let isOverdue :=
    match dueDate, returnDate with
    | Some due, None => now >? due
    | _, _ => false
    end in
  let isActive := String.eqb (Circulation.status borrowRecord) "active" in
  CirculationPair.mk (Circulation.bookId borrowRecord)
    (Circulation.memberId borrowRecord)
    (getBookTitle books (Circulation.bookId borrowRecord))
    (getMemberName members (Circulation.memberId borrowRecord))
    borrowDate returnDate dueDate isOverdue isActive.

Definition circulationPairs (now : Z) (circulation : list Circulation.t)
    (books : list Book.t) (members : list Member.t)
  : list CirculationPair.t :=
  let borrowRecords :=
    filter (fun record => String.eqb (Circulation.action record) "borrow")
           circulation in
  let pairs := map (pairOf now circulation books members) borrowRecords in
  MemStorage.sort
    (fun a b => CirculationPair.borrowDate b - CirculationPair.borrowDate a)
    pairs.

(** The [actionMatch] part of the filter of the pairs. *)
Definition actionMatch (actionFilter : string) (pair : CirculationPair.t)
  : bool :=
  String.eqb actionFilter "all"
  || (String.eqb actionFilter "completed"
      && match CirculationPair.returnDate pair with
         | Some _ => true
         | None => false
         end)
  || (String.eqb actionFilter "active"
      && match CirculationPair.returnDate pair with
         | Some _ => false
         | None => true
         end).

Inductive badge := OVERDUE | ACTIVE | COMPLETED | UNKNOWN.

Definition getStatusBadge (pair : CirculationPair.t) : badge :=
  if CirculationPair.isOverdue pair then OVERDUE
  else if CirculationPair.isActive pair
          && match CirculationPair.returnDate pair with
             | Some _ => false
             | None => true
             end
  then ACTIVE
  else match CirculationPair.returnDate pair with
       | Some _ => COMPLETED
       | None => UNKNOWN
       end.

End EnhancedHistoryTab.

(* ================================================================== *)
(** ** Vocabulary of the properties *)

(** One day, in milliseconds. *)
Definition oneDay : Z := 24 * 60 * 60 * 1000.

(** The body of a [POST /api/book-reviews] request. *)
Definition reviewBody (bookId memberId rating : Z) (review : string) : json :=
  JObj [("bookId", JNum bookId); ("memberId", JNum memberId);
        ("rating", JNum rating); ("review", JStr review)].

(** [field] contains [q] as a case-insensitive substring: some stretch of
    [field] equals [q] up to letter case. *)
Definition contains_ci (field q : string) : Prop :=
  exists pre mid post,
    field = (pre ++ mid ++ post)%string /\ toLowerCase mid = toLowerCase q.

(** A book and a member whose names start with a capital letter. *)
Definition alice : Book.t :=
  Book.mk 1 "Alice in Wonderland" "Lewis Carroll" "Fiction" "English" 500
    "Macmillan" "823" None "available" (Some 0).

Definition ali : Member.t := Member.mk 2 "Ali Khan" "10A" "R001" (Some 0).

(** The writing methods of [MemStorage], and the stores they lead to from
    [new MemStorage()]. *)
Inductive op :=
| CreateBook (now : Z) (data : InsertBook.t)
| UpdateBook (id : Z) (updates : PartialBook.t)
| DeleteBook (id : Z)
| CreateMember (now : Z) (data : InsertMember.t)
| UpdateMember (id : Z) (updates : PartialMember.t)
| DeleteMember (id : Z)
| CreateCategory (now : Z) (data : InsertCategory.t)
| UpdateCategory (id : Z) (updates : PartialCategory.t)
| DeleteCategory (id : Z)
| CreateBookSuggestion (now : Z) (data : InsertBookSuggestion.t)
| UpdateBookSuggestion (id : Z) (updates : PartialBookSuggestion.t)
| CreateBookReview (now : Z) (data : InsertBookReview.t)
| UpdateBookReview (id : Z) (updates : PartialBookReview.t)
| CreateCirculationRecord (now : Z) (data : InsertCirculation.t)
| UpdateCirculationRecord (id : Z) (updates : PartialCirculation.t).

Definition run_op (o : op) (s : MemStorage.t) : MemStorage.t :=
  match o with
  | CreateBook now data => snd (MemStorage.createBook now data s)
  | UpdateBook id u => snd (MemStorage.updateBook id u s)
  | DeleteBook id => snd (MemStorage.deleteBook id s)
  | CreateMember now data => snd (MemStorage.createMember now data s)
  | UpdateMember id u => snd (MemStorage.updateMember id u s)
  | DeleteMember id => snd (MemStorage.deleteMember id s)
  | CreateCategory now data => snd (MemStorage.createCategory now data s)
  | UpdateCategory id u => snd (MemStorage.updateCategory id u s)
  | DeleteCategory id => snd (MemStorage.deleteCategory id s)
  | CreateBookSuggestion now data =>
      snd (MemStorage.createBookSuggestion now data s)
  | UpdateBookSuggestion id u => snd (MemStorage.updateBookSuggestion id u s)
  | CreateBookReview now data => snd (MemStorage.createBookReview now data s)
  | UpdateBookReview id u => snd (MemStorage.updateBookReview id u s)
  | CreateCirculationRecord now data =>
      snd (MemStorage.createCirculationRecord now data s)
  | UpdateCirculationRecord id u =>
      snd (MemStorage.updateCirculationRecord id u s)
  end.

(** The storage after a sequence of writes. *)
Definition run (ops : list op) (s : MemStorage.t) : MemStorage.t :=
  fold_left (fun s o => run_op o s) ops s.

(** Every key of every collection is below [currentId]. *)
Definition below {V : Type} (n : Z) (m : JsMap.t V) : Prop :=
  forall k, In k (JsMap.keys m) -> k < n.

Definition keys_below_currentId (s : MemStorage.t) : Prop :=
  let n := MemStorage.currentId s in
  below n (MemStorage.books s) /\ below n (MemStorage.members s)
  /\ below n (MemStorage.categories s) /\ below n (MemStorage.bookSuggestions s)
  /\ below n (MemStorage.bookReviews s) /\ below n (MemStorage.circulation s).

(** No collection holds an entity under [id]. *)
Definition unused (id : Z) (s : MemStorage.t) : Prop :=
  MemStorage.getBook id s = None /\ MemStorage.getMember id s = None
  /\ MemStorage.getCategory id s = None
  /\ MemStorage.getBookSuggestion id s = None
  /\ MemStorage.getBookReview id s = None
  /\ MemStorage.getCirculationRecord id s = None.

(** Every stored row carries, in its [id] field, the key it is stored
    under. *)
Definition keyed {V : Type} (idf : V -> Z) (m : JsMap.t V) : Prop :=
  forall k v, In (k, v) m -> idf v = k.

Definition ids_match_keys (s : MemStorage.t) : Prop :=
  keyed Book.id (MemStorage.books s) /\ keyed Member.id (MemStorage.members s)
  /\ keyed Category.id (MemStorage.categories s)
  /\ keyed BookSuggestion.id (MemStorage.bookSuggestions s)
  /\ keyed BookReview.id (MemStorage.bookReviews s)
  /\ keyed Circulation.id (MemStorage.circulation s).

(** Some stored row has [id] in its [id] field. *)
Definition id_in_use (id : Z) (s : MemStorage.t) : Prop :=
  (exists b, In b (MemStorage.getBooks s) /\ Book.id b = id)
  \/ (exists m, In m (MemStorage.getMembers s) /\ Member.id m = id)
  \/ (exists c, In c (MemStorage.getCategories s) /\ Category.id c = id)
  \/ (exists g, In g (MemStorage.getBookSuggestions s)
                /\ BookSuggestion.id g = id)
  \/ (exists r, In r (MemStorage.getBookReviews s) /\ BookReview.id r = id)
  \/ (exists c, In c (MemStorage.getCirculation s) /\ Circulation.id c = id).

Definition is_none {A : Type} (x : option A) : bool :=
  match x with None => true | Some _ => false end.

(** The operation does not overwrite the [id] field of a row. *)
Definition keeps_id (o : op) : bool :=
  match o with
  | UpdateBook _ u => is_none (PartialBook.id u)
  | UpdateMember _ u => is_none (PartialMember.id u)
  | UpdateCategory _ u => is_none (PartialCategory.id u)
  | UpdateBookSuggestion _ u => is_none (PartialBookSuggestion.id u)
  | UpdateBookReview _ u => is_none (PartialBookReview.id u)
  | UpdateCirculationRecord _ u => is_none (PartialCirculation.id u)
  | _ => true
  end.

(** The id a creating operation hands out. *)
Definition created_id (o : op) (s : MemStorage.t) : option Z :=
  match o with
  | CreateBook now data => Some (Book.id (fst (MemStorage.createBook now data s)))
  | CreateMember now data =>
      Some (Member.id (fst (MemStorage.createMember now data s)))
  | CreateCategory now data =>
      Some (Category.id (fst (MemStorage.createCategory now data s)))
  | CreateBookSuggestion now data =>
      Some (BookSuggestion.id (fst (MemStorage.createBookSuggestion now data s)))
  | CreateBookReview now data =>
      Some (BookReview.id (fst (MemStorage.createBookReview now data s)))
  | CreateCirculationRecord now data =>
      Some (Circulation.id (fst (MemStorage.createCirculationRecord now data s)))
  | _ => None
  end.

(** A request body for [POST /api/books] that also carries a [status] and
    an [id], and what [insertBookSchema] makes of it. *)
Definition bookBodyWithStatus : json :=
  JObj [("title", JStr "Dune"); ("author", JStr "Frank Herbert");
        ("category", JStr "Fiction"); ("language", JStr "English");
        ("price", JNum 900); ("publisher", JStr "Chilton"); ("ddc", JStr "813");
        ("status", JStr "issued"); ("id", JNum 99)].

Definition bookDataWithoutStatus : InsertBook.t :=
  InsertBook.mk "Dune" "Frank Herbert" "Fiction" "English" 900 "Chilton" "813"
    None.

(** The body of the [POST /api/circulation] requests of the client. *)
Definition circulationBody (bookId memberId : Z) (action : string) : json :=
  JObj [("bookId", JNum bookId); ("memberId", JNum memberId);
        ("action", JStr action)].

(** One book and one member, nothing in circulation. *)
Definition shelf : MemStorage.t :=
  snd (MemStorage.createMember 0 (InsertMember.mk "Ali Khan" "10A" "R001")
         (snd (MemStorage.createBook 0 bookDataWithoutStatus MemStorage.init))).

Definition is_borrow (c : Circulation.t) : bool :=
  String.eqb (Circulation.action c) "borrow".

(** The keys ([bookId]s or [memberId]s) of the borrow records, one per
    record, and how often a key occurs among them. *)
Definition borrowed (key : Circulation.t -> Z) (records : list Circulation.t)
  : list Z :=
  map key (filter is_borrow records).

Definition times (id : Z) (l : list Z) : Z :=
  Z.of_nat (count_occ Z.eq_dec l id).

(** [m] maps every key of [l] to the number of times it occurs in [l],
    and nothing else. *)
Definition counts_of (m : JsMap.t Z) (l : list Z) : Prop :=
  NoDup (JsMap.keys m)
  /\ forall id,
       JsMap.get id m = if times id l =? 0 then None else Some (times id l).

(** The row of book [id] in the report on the borrow keys [l], when the
    book exists. *)
Definition book_row (bs : JsMap.t Book.t) (l : list Z) (id : Z)
  : list MemStorage.BookCount.t :=
  match JsMap.get id bs with
  | Some b => [MemStorage.BookCount.mk b (times id l)]
  | None => []
  end.

(** [a] comes before [b] in a report sorted by descending borrow count. *)
Definition more_read (a b : MemStorage.BookCount.t) : Prop :=
  MemStorage.BookCount.borrowCount b <= MemStorage.BookCount.borrowCount a.

(** A history in which book 2 is borrowed first and once, and book 1
    three times; one of the loans has been returned. *)
Definition history : MemStorage.t :=
  MemStorage.mk
    [(1, alice);
     (2, Book.mk 2 "Dune" "Frank Herbert" "Fiction" "English" 900 "Chilton"
           "813" None "available" (Some 0))]
    [(3, Member.mk 3 "Ali Khan" "10A" "R001" (Some 0))] [] [] []
    [(4, Circulation.mk 4 2 3 "borrow" (Some 1) None None "active");
     (5, Circulation.mk 5 1 3 "borrow" (Some 2) None None "active");
     (6, Circulation.mk 6 2 3 "return" (Some 3) None None "active");
     (7, Circulation.mk 7 1 3 "borrow" (Some 4) None None "active");
     (8, Circulation.mk 8 1 3 "borrow" (Some 5) None None "active")]
    9.

(** The storage without the circulation records the test [drop] selects. *)
Definition without_records (drop : Circulation.t -> bool) (s : MemStorage.t)
  : MemStorage.t :=
  MemStorage.with_circulation s
    (filter (fun e => negb (drop (snd e))) (MemStorage.circulation s))
    (MemStorage.currentId s).

Definition of_book (id : Z) (c : Circulation.t) : bool :=
  Circulation.bookId c =? id.
Definition of_member (id : Z) (c : Circulation.t) : bool :=
  Circulation.memberId c =? id.

(** The number a run of decimal digits stands for, read after the digits
    of [acc]. *)
Fixpoint uint_val (d : Decimal.uint) (acc : Z) : Z :=
  match d with
  | Decimal.Nil => acc
  | Decimal.D0 l => uint_val l (acc * 10 + 0)
  | Decimal.D1 l => uint_val l (acc * 10 + 1)
  | Decimal.D2 l => uint_val l (acc * 10 + 2)
  | Decimal.D3 l => uint_val l (acc * 10 + 3)
  | Decimal.D4 l => uint_val l (acc * 10 + 4)
  | Decimal.D5 l => uint_val l (acc * 10 + 5)
  | Decimal.D6 l => uint_val l (acc * 10 + 6)
  | Decimal.D7 l => uint_val l (acc * 10 + 7)
  | Decimal.D8 l => uint_val l (acc * 10 + 8)
  | Decimal.D9 l => uint_val l (acc * 10 + 9)
  end.

(** [Number.isSafeInteger(n)]: the integers a JavaScript number holds
    exactly, and which a template literal writes digit by digit. *)
Definition isSafeInteger (n : Z) : bool :=
  (- (2 ^ 53 - 1) <=? n) && (n <=? 2 ^ 53 - 1).

(** The writes a route of [registerRoutes] performs.  A circulation
    record is created without due date and return date, the only values
    [insertCirculationSchema] lets through. *)
Definition routed (o : op) : bool :=
  match o with
  | CreateBook _ _ | UpdateBook _ _ | DeleteBook _
  | CreateMember _ _ | CreateCategory _ _ | DeleteCategory _
  | CreateBookSuggestion _ _ | CreateBookReview _ _ => true
  | CreateCirculationRecord _ data =>
      is_none (InsertCirculation.dueDate data)
      && is_none (InsertCirculation.returnDate data)
  | _ => false
  end.

(** How a routed request ends: an answer that leaves the storage as it
    was (a read, or a 400 or 404), or one write with a 2xx answer to a
    request that is not a [GET]. *)
Definition outcome (req : request) (s : MemStorage.t) (res : response)
    (s' : MemStorage.t) : Prop :=
  (s' = s
   /\ (status res = 200 /\ method req = GET
       \/ status res = 400 \/ status res = 404))
  \/ (exists o, routed o = true /\ s' = run_op o s /\ method req <> GET
                /\ (status res = 200 \/ status res = 201 \/ status res = 204)).

(** The storages the server can be in: those the requests lead to from
    [new MemStorage()]; a request no route matches leaves the storage as
    it is. *)
Inductive http_reachable : MemStorage.t -> Prop :=
| http_init : http_reachable MemStorage.init
| http_request now req s res s' :
    http_reachable s ->
    handle now req s = Some (res, s') ->
    http_reachable s'.

(** A request body for [POST /api/members]. *)
Definition memberBody : json :=
  JObj [("fullName", JStr "Ali Khan"); ("class", JStr "10A");
        ("registrationNo", JStr "R001")].

(** No circulation record has left the state it is created in. *)
Definition circulation_untouched (s : MemStorage.t) : Prop :=
  forall c, In c (MemStorage.getCirculation s) ->
    Circulation.status c = "active"
    /\ Circulation.dueDate c = None /\ Circulation.returnDate c = None.

(** The number of entities, over all six collections, stored under
    [id]. *)
Definition uses (id : Z) (s : MemStorage.t) : nat :=
  (count_occ Z.eq_dec (JsMap.keys (MemStorage.books s)) id
   + count_occ Z.eq_dec (JsMap.keys (MemStorage.members s)) id
   + count_occ Z.eq_dec (JsMap.keys (MemStorage.categories s)) id
   + count_occ Z.eq_dec (JsMap.keys (MemStorage.bookSuggestions s)) id
   + count_occ Z.eq_dec (JsMap.keys (MemStorage.bookReviews s)) id
   + count_occ Z.eq_dec (JsMap.keys (MemStorage.circulation s)) id)%nat.

(** The two bodies the circulation tab sends to [PUT /api/books/:id]. *)
Definition statusUpdate (status : string) : PartialBook.t :=
  partialBook_of_json (JObj [("status", JStr status)]).

(** The query has none of the characters [LIKE] gives a meaning to. *)
Definition like_special (c : ascii) : bool :=
  Ascii.eqb c "%" || Ascii.eqb c "_" || Ascii.eqb c "\".

Fixpoint plain (q : string) : bool :=
  match q with
  | EmptyString => true
  | String c r => negb (like_special c) && plain r
  end.

(** The text is in ASCII. *)
Fixpoint ascii_text (s : string) : bool :=
  match s with
  | EmptyString => true
  | String c r => (N_of_ascii c <? 128)%N && ascii_text r
  end.

(** The text is in ASCII and has no capital letter. *)
Fixpoint lower_text (s : string) : bool :=
  match s with
  | EmptyString => true
  | String c r =>
      let n := N_of_ascii c in
      (n <? 128)%N && negb ((65 <=? n) && (n <=? 90))%N && lower_text r
  end.

(** The searched fields of the row are ASCII text in lower case. *)
Definition lower_book (b : Book.t) : Prop :=
  lower_text (Book.title b) = true
  /\ lower_text (Book.author b) = true
  /\ lower_text (Book.category b) = true.

(** The keys of [l] in the order of their first occurrence. *)
Definition add_first (seen : list Z) (k : Z) : list Z :=
  if existsb (Z.eqb k) seen then seen else seen ++ [k].

Definition firsts (l : list Z) : list Z := fold_left add_first l [].

(** The row of member [id] in the report on the borrow keys [l], when the
    member exists. *)
Definition member_row (ms : JsMap.t Member.t) (l : list Z) (id : Z)
  : list MemStorage.MemberCount.t :=
  match JsMap.get id ms with
  | Some m => [MemStorage.MemberCount.mk m (times id l)]
  | None => []
  end.

(** [a] comes before [b] in a report sorted by descending borrow count. *)
Definition more_active (a b : MemStorage.MemberCount.t) : Prop :=
  MemStorage.MemberCount.borrowCount b <= MemStorage.MemberCount.borrowCount a.

(** The body without its properties named [k]. *)
Definition without_key (k : string) (fs : list (string * json))
  : list (string * json) :=
  filter (fun e => negb (String.eqb k (fst e))) fs.

(** [k] is none of the listed property names. *)
Definition not_among (k : string) (names : list string) : Prop :=
  existsb (String.eqb k) names = false.

(** [x] is the first element of [l] with the property [P]. *)
Definition first_with {A : Type} (P : A -> Prop) (l : list A) (x : A) : Prop :=
  exists before after,
    l = before ++ x :: after /\ P x /\ forall y, In y before -> ~ P y.

(** The time of a circulation record; a record without date counts as of
    time 0. *)
Definition time_of (record : Circulation.t) : Z :=
  match Circulation.date record with Some t => t | None => 0 end.

(** [record] records a return of book [bookId] by member [memberId] after
    the time [borrowDate]. *)
Definition returns_loan (bookId memberId borrowDate : Z)
    (record : Circulation.t) : Prop :=
  Circulation.action record = "return"
  /\ Circulation.bookId record = bookId
  /\ Circulation.memberId record = memberId
  /\ borrowDate < time_of record.

(** What a pair of the history tab takes over from its borrow record:
    book, member, borrow date, due date and whether the record is
    active. *)
Definition loan_of_pair (pair : EnhancedHistoryTab.CirculationPair.t)
  : Z * Z * Z * option Z * bool :=
  (EnhancedHistoryTab.CirculationPair.bookId pair,
   EnhancedHistoryTab.CirculationPair.memberId pair,
   EnhancedHistoryTab.CirculationPair.borrowDate pair,
   EnhancedHistoryTab.CirculationPair.dueDate pair,
   EnhancedHistoryTab.CirculationPair.isActive pair).

Definition loan_of_record (c : Circulation.t) : Z * Z * Z * option Z * bool :=
  (Circulation.bookId c, Circulation.memberId c,
   time_of c, Circulation.dueDate c, String.eqb (Circulation.status c) "active").

(** [a] comes before [b] in a history sorted by descending borrow date. *)
Definition borrowed_later (a b : EnhancedHistoryTab.CirculationPair.t) : Prop :=
  EnhancedHistoryTab.CirculationPair.borrowDate b
  <= EnhancedHistoryTab.CirculationPair.borrowDate a.

(* ================================================================== *)
(** * Properties *)

(** ** Facts about [JsMap] *)

Section JsMapFacts.
Context {V : Type}.
Implicit Types (m : JsMap.t V) (k : Z) (v : V).

Lemma get_set_same k v m : JsMap.get k (JsMap.set k v m) = Some v.
Proof.
  induction m as [|[k' v'] r IH]; simpl.
  - now rewrite Z.eqb_refl.
  - destruct (k =? k') eqn:E; simpl; rewrite ?Z.eqb_refl, ?E; auto.
Qed.

Lemma get_set_other k k' v m : k <> k' -> JsMap.get k (JsMap.set k' v m) = JsMap.get k m.
Proof.
  intros Hne. induction m as [|[k0 v0] r IH]; simpl.
  - destruct (k =? k') eqn:E; auto. apply Z.eqb_eq in E. contradiction.
  - destruct (k' =? k0) eqn:E; simpl.
    + apply Z.eqb_eq in E; subst k0.
      destruct (k =? k') eqn:E'; auto. apply Z.eqb_eq in E'. contradiction.
    + destruct (k =? k0); auto.
Qed.

Lemma get_remove_same k m : JsMap.get k (JsMap.remove k m) = None.
Proof.
  induction m as [|[k' v'] r IH]; simpl; auto.
  destruct (k =? k') eqn:E; simpl; auto. now rewrite E.
Qed.

Lemma get_remove_other k k' m : k <> k' -> JsMap.get k (JsMap.remove k' m) = JsMap.get k m.
Proof.
  intros Hne. induction m as [|[k0 v0] r IH]; simpl; auto.
  destruct (k' =? k0) eqn:E; simpl.
  - apply Z.eqb_eq in E; subst k0.
    destruct (k =? k') eqn:E'; auto. apply Z.eqb_eq in E'. contradiction.
  - now rewrite IH.
Qed.

Lemma remove_absent k m : JsMap.get k m = None -> JsMap.remove k m = m.
Proof.
  induction m as [|[k' v'] r IH]; simpl; auto.
  destruct (k =? k') eqn:E; simpl; [discriminate|].
  intros H. now rewrite IH.
Qed.

Lemma get_Some_In k v m : JsMap.get k m = Some v -> In (k, v) m.
Proof.
  induction m as [|[k' v'] r IH]; simpl; [discriminate|].
  destruct (k =? k') eqn:E.
  - apply Z.eqb_eq in E; subst. intros H; inversion H; auto.
  - auto.
Qed.

Lemma get_None_keys k m : JsMap.get k m = None <-> ~ In k (JsMap.keys m).
Proof.
  induction m as [|[k' v'] r IH]; simpl.
  - tauto.
  - destruct (k =? k') eqn:E.
    + apply Z.eqb_eq in E; subst. split; [discriminate | intros H; exfalso; auto].
    + apply Z.eqb_neq in E. rewrite IH. intuition congruence.
Qed.

Lemma keys_set k v m : forall x, In x (JsMap.keys (JsMap.set k v m)) <-> x = k \/ In x (JsMap.keys m).
Proof.
  induction m as [|[k' v'] r IH]; simpl; intros x.
  - intuition.
  - destruct (k =? k') eqn:E; simpl.
    + apply Z.eqb_eq in E; subst. intuition.
    + rewrite IH. intuition.
Qed.

Lemma keys_remove k m : forall x, In x (JsMap.keys (JsMap.remove k m)) -> In x (JsMap.keys m).
Proof.
  induction m as [|[k' v'] r IH]; simpl; intros x; auto.
  destruct (k =? k'); simpl; intuition.
Qed.

Lemma values_set_absent k v m :
  JsMap.get k m = None -> JsMap.values (JsMap.set k v m) = JsMap.values m ++ [v].
Proof.
  induction m as [|[k' v'] r IH]; simpl; auto.
  destruct (k =? k'); [discriminate|].
  intros H. simpl. now rewrite IH.
Qed.
End JsMapFacts.

Lemma get_Some_values {V : Type} (k : Z) (v : V) (m : JsMap.t V) :
  JsMap.get k m = Some v -> In v (JsMap.values m).
Proof.
  intros H. apply get_Some_In in H.
  unfold JsMap.values. change v with (snd (k, v)). now apply in_map.
Qed.

Lemma delete_absent {V : Type} (k : Z) (m : JsMap.t V) :
  JsMap.get k m = None -> JsMap.delete k m = (false, m).
Proof.
  intros H. unfold JsMap.delete, JsMap.has. now rewrite H, remove_absent.
Qed.

Lemma with_same (s : MemStorage.t) :
  MemStorage.mk (MemStorage.books s) (MemStorage.members s)
    (MemStorage.categories s) (MemStorage.bookSuggestions s)
    (MemStorage.bookReviews s) (MemStorage.circulation s)
    (MemStorage.currentId s) = s.
Proof. now destruct s. Qed.

(* ------------------------------------------------------------------ *)
(** ** Overdue records *)

Lemma is_overdue_spec (now : Z) (c : Circulation.t) :
  MemStorage.is_overdue now c = true <->
  Circulation.status c = "active" /\
  exists due, Circulation.dueDate c = Some due /\ due < now.
Proof.
  unfold MemStorage.is_overdue. rewrite andb_true_iff, String.eqb_eq.
  destruct (Circulation.dueDate c) as [due|].
  - rewrite Z.ltb_lt. split.
    + intros [Hs Hd]. split; [assumption|]. now exists due.
    + intros [Hs (d & Hd & Hlt)]. inversion Hd; subst. now split.
  - split.
    + intros [_ H]. discriminate.
    + intros [_ (d & Hd & _)]. discriminate.
Qed.

Lemma sql_overdue_agrees (now : Z) (c : Circulation.t) :
  DatabaseStorage.sql_where
    (DatabaseStorage.sql_and
       (DatabaseStorage.sql_eq_text (Circulation.status c) "active")
       (DatabaseStorage.sql_lt (Circulation.dueDate c) now))
  = MemStorage.is_overdue now c.
Proof.
  unfold MemStorage.is_overdue, DatabaseStorage.sql_eq_text,
    DatabaseStorage.sql_lt.
  destruct (String.eqb (Circulation.status c) "active");
    destruct (Circulation.dueDate c) as [due|]; simpl; auto.
  destruct (due <? now); reflexivity.
Qed.

(** C3.  [getOverdueCirculation] keeps, in their order, exactly the
    circulation records that are ["active"] and have a due date strictly
    before the current time; a record due one day ago is kept and one due
    in a day is not; the query of [DatabaseStorage] selects the same rows;
    and the request that serves it leaves the storage as it was. *)
Theorem getOverdueCirculation_exact (now : Z) (s : MemStorage.t) :
  (forall c,
      In c (MemStorage.getOverdueCirculation now s) <->
      In c (MemStorage.getCirculation s) /\
      Circulation.status c = "active" /\
      exists due, Circulation.dueDate c = Some due /\ due < now)
  /\ (exists keep,
        MemStorage.getOverdueCirculation now s
        = filter keep (MemStorage.getCirculation s))
  /\ (forall id bookId memberId action date returnDate,
        MemStorage.is_overdue now
          (Circulation.mk id bookId memberId action date
             (Some (now - oneDay)) returnDate "active") = true
        /\ MemStorage.is_overdue now
          (Circulation.mk id bookId memberId action date
             (Some (now + oneDay)) returnDate "active") = false
        /\ MemStorage.is_overdue now
          (Circulation.mk id bookId memberId action date
             None returnDate "active") = false)
  /\ DatabaseStorage.getOverdueCirculation now (MemStorage.getCirculation s)
     = MemStorage.getOverdueCirculation now s
  /\ (forall q b,
        handle now (mkRequest GET ["api"; "circulation"; "overdue"] q b) s
        = Some (mkResponse 200
                  (Circulations (MemStorage.getOverdueCirculation now s)), s)).
Proof.
  split; [|split; [|split; [|split]]].
  - intros c. unfold MemStorage.getOverdueCirculation, MemStorage.getCirculation.
    rewrite filter_In, is_overdue_spec. reflexivity.
  - now exists (MemStorage.is_overdue now).
  - intros. unfold MemStorage.is_overdue, oneDay; simpl.
    repeat split; [apply Z.ltb_lt | apply Z.ltb_ge]; lia.
  - unfold DatabaseStorage.getOverdueCirculation,
      MemStorage.getOverdueCirculation, MemStorage.getCirculation.
    apply filter_ext. intros c. apply sql_overdue_agrees.
  - reflexivity.
Qed.

(* ------------------------------------------------------------------ *)
(** ** Update and delete of an unknown id *)

Lemma last_param_books (seg : string) :
  seg <> "" -> last_param ["api"; "books"] ["api"; "books"; seg] = Some seg.
Proof.
  intros H. simpl. destruct (String.eqb seg "") eqn:E; [|reflexivity].
  apply String.eqb_eq in E. contradiction.
Qed.

Lemma parseInt_nonempty (seg : string) (id : Z) :
  parseInt seg = Some id -> seg <> "".
Proof. intros H ->. discriminate. Qed.

(** C9.  On an id that the collection does not hold, every [update]
    method answers [undefined] and every [delete] method answers [false],
    leaving the storage as it was, and [PUT] and [DELETE] on
    [/api/books/:id] answer 404 with the storage unchanged. *)
Theorem unknown_id_is_noop (id : Z) (s : MemStorage.t) :
  (MemStorage.getBook id s = None ->
     (forall updates, MemStorage.updateBook id updates s = (None, s))
     /\ MemStorage.deleteBook id s = (false, s)
     /\ forall now seg q b,
          parseInt seg = Some id ->
          handle now (mkRequest PUT ["api"; "books"; seg] q b) s
          = Some (mkResponse 404 (Error "Book not found"), s)
          /\ handle now (mkRequest DELETE ["api"; "books"; seg] q b) s
             = Some (mkResponse 404 (Error "Book not found"), s))
  /\ (MemStorage.getMember id s = None ->
        (forall updates, MemStorage.updateMember id updates s = (None, s))
        /\ MemStorage.deleteMember id s = (false, s))
  /\ (MemStorage.getCategory id s = None ->
        (forall updates, MemStorage.updateCategory id updates s = (None, s))
        /\ MemStorage.deleteCategory id s = (false, s)
        /\ forall now seg q b,
             parseInt seg = Some id ->
             handle now (mkRequest DELETE ["api"; "categories"; seg] q b) s
             = Some (mkResponse 404 (Error "Category not found"), s))
  /\ (MemStorage.getBookSuggestion id s = None ->
        forall updates, MemStorage.updateBookSuggestion id updates s = (None, s))
  /\ (MemStorage.getBookReview id s = None ->
        forall updates, MemStorage.updateBookReview id updates s = (None, s))
  /\ (MemStorage.getCirculationRecord id s = None ->
        forall updates,
          MemStorage.updateCirculationRecord id updates s = (None, s)).
Proof.
  split; [|split; [|split; [|split; [|split]]]].
  - unfold MemStorage.getBook. intros H.
    assert (Hu : forall updates, MemStorage.updateBook id updates s = (None, s))
      by (intros; unfold MemStorage.updateBook; now rewrite H).
    assert (Hd : MemStorage.deleteBook id s = (false, s))
      by (unfold MemStorage.deleteBook, MemStorage.with_books;
          rewrite (delete_absent _ _ H); now rewrite with_same).
    split; [exact Hu|]. split; [exact Hd|].
    intros now seg q b Hp. pose proof (parseInt_nonempty _ _ Hp) as Hne.
    apply String.eqb_neq in Hne.
    unfold handle, on, on_param; simpl. rewrite Hne, Hp, Hu, Hd. now split.
  - unfold MemStorage.getMember. intros H. split.
    + intros. unfold MemStorage.updateMember. now rewrite H.
    + unfold MemStorage.deleteMember, MemStorage.with_members.
      rewrite (delete_absent _ _ H). now rewrite with_same.
  - unfold MemStorage.getCategory. intros H.
    assert (Hd : MemStorage.deleteCategory id s = (false, s))
      by (unfold MemStorage.deleteCategory, MemStorage.with_categories;
          rewrite (delete_absent _ _ H); now rewrite with_same).
    split; [|split; [exact Hd|]].
    + intros. unfold MemStorage.updateCategory. now rewrite H.
    + intros now seg q b Hp. pose proof (parseInt_nonempty _ _ Hp) as Hne.
      apply String.eqb_neq in Hne.
      unfold handle, on, on_param; simpl. now rewrite Hne, Hp, Hd.
  - unfold MemStorage.getBookSuggestion. intros H updates.
    unfold MemStorage.updateBookSuggestion. now rewrite H.
  - unfold MemStorage.getBookReview. intros H updates.
    unfold MemStorage.updateBookReview. now rewrite H.
  - unfold MemStorage.getCirculationRecord. intros H updates.
    unfold MemStorage.updateCirculationRecord. now rewrite H.
Qed.

(** The theorem at id 7 of the empty storage. *)
Lemma unknown_id_is_noop_witness :
  MemStorage.updateBook 7 PartialBook.none MemStorage.init
  = (None, MemStorage.init)
  /\ MemStorage.deleteBook 7 MemStorage.init = (false, MemStorage.init)
  /\ handle 0 (mkRequest PUT ["api"; "books"; "7"] None JNull) MemStorage.init
     = Some (mkResponse 404 (Error "Book not found"), MemStorage.init)
  /\ MemStorage.deleteMember 7 MemStorage.init = (false, MemStorage.init)
  /\ MemStorage.deleteCategory 7 MemStorage.init = (false, MemStorage.init).
Proof.
  destruct (unknown_id_is_noop 7 MemStorage.init)
    as (Hb & Hm & Hc & _ & _ & _).
  destruct (Hb eq_refl) as (Hu & Hd & Hh).
  destruct (Hm eq_refl) as (_ & Hdm).
  destruct (Hc eq_refl) as (_ & Hdc & _).
  destruct (Hh 0 "7" None JNull eq_refl) as (Hput & _).
  split; [apply Hu|]. split; [exact Hd|]. split; [exact Hput|].
  split; [exact Hdm | exact Hdc].
Defined.

(* ------------------------------------------------------------------ *)
(** ** Review ratings *)

(** A review body whose numbers are 32-bit integers passes
    [insertBookReviewSchema] whatever its rating is. *)
Lemma insertBookReviewSchema_any_rating bookId memberId rating review :
  Zod.int4 bookId = true -> Zod.int4 memberId = true ->
  Zod.int4 rating = true ->
  Zod.insertBookReviewSchema (reviewBody bookId memberId rating review)
  = Some (InsertBookReview.mk bookId memberId rating review).
Proof.
  intros Hb Hm Hr. unfold Zod.insertBookReviewSchema, reviewBody, Zod.integer.
  simpl. now rewrite Hb, Hm, Hr.
Qed.

(** C5.  [POST /api/book-reviews] with rating 7 (and with rating 0) is
    answered 201 on every storage, and the review is stored with that
    rating, although the review form of the client only lets ratings from
    1 to 5 through. *)
Theorem review_rating_unchecked (now : Z) (s : MemStorage.t) (q : option string) :
  let post rating :=
    handle now
      (mkRequest POST ["api"; "book-reviews"] q (reviewBody 1 2 rating "fine"))
      s in
  let stored rating :=
    BookReview.mk (MemStorage.currentId s) 1 2 rating "fine" (Some now) in
  (exists s', post 7 = Some (mkResponse 201 (OneReview (stored 7)), s')
              /\ MemStorage.getBookReview (MemStorage.currentId s) s'
                 = Some (stored 7))
  /\ (exists s', post 0 = Some (mkResponse 201 (OneReview (stored 0)), s')
              /\ MemStorage.getBookReview (MemStorage.currentId s) s'
                 = Some (stored 0))
  /\ Zod.reviewFormRating 7 = false
  /\ Zod.reviewFormRating 0 = false.
Proof.
  intros post stored.
  assert (H : forall rating, Zod.int4 rating = true ->
            exists s', post rating
                       = Some (mkResponse 201 (OneReview (stored rating)), s')
              /\ MemStorage.getBookReview (MemStorage.currentId s) s'
                 = Some (stored rating)).
  { intros rating Hr. unfold post, handle, on, on_param; simpl.
    rewrite insertBookReviewSchema_any_rating by (assumption || reflexivity).
    eexists. split; [reflexivity|].
    unfold MemStorage.getBookReview; simpl. apply get_set_same. }
  split; [apply H; reflexivity|]. split; [apply H; reflexivity|].
  split; reflexivity.
Qed.

(* ------------------------------------------------------------------ *)
(** ** Unique columns *)

(** C6.  [createMember] called twice with one input leaves two members
    with different ids and the same [registrationNo] in the storage, and
    [createCategory] two categories with the same [name]: [MemStorage] does
    not keep the columns unique that the schema declares [unique()]. *)
Theorem create_keeps_no_uniqueness (now1 now2 : Z) (s : MemStorage.t)
    (member : InsertMember.t) (category : InsertCategory.t) :
  (let (m1, s1) := MemStorage.createMember now1 member s in
   let (m2, s2) := MemStorage.createMember now2 member s1 in
   In m1 (MemStorage.getMembers s2) /\ In m2 (MemStorage.getMembers s2)
   /\ Member.id m1 <> Member.id m2
   /\ Member.registrationNo m1 = Member.registrationNo m2)
  /\
  (let (c1, s1) := MemStorage.createCategory now1 category s in
   let (c2, s2) := MemStorage.createCategory now2 category s1 in
   In c1 (MemStorage.getCategories s2) /\ In c2 (MemStorage.getCategories s2)
   /\ Category.id c1 <> Category.id c2
   /\ Category.name c1 = Category.name c2).
Proof.
  split.
  - unfold MemStorage.createMember, MemStorage.getMembers,
      MemStorage.with_members.
    cbn [MemStorage.members MemStorage.currentId Member.id
         Member.registrationNo].
    repeat split.
    + apply get_Some_values with (k := MemStorage.currentId s).
      rewrite get_set_other by lia. apply get_set_same.
    + apply get_Some_values with (k := MemStorage.currentId s + 1).
      apply get_set_same.
    + lia.
  - unfold MemStorage.createCategory, MemStorage.getCategories,
      MemStorage.with_categories.
    cbn [MemStorage.categories MemStorage.currentId Category.id Category.name].
    repeat split.
    + apply get_Some_values with (k := MemStorage.currentId s).
      rewrite get_set_other by lia. apply get_set_same.
    + apply get_Some_values with (k := MemStorage.currentId s + 1).
      apply get_set_same.
    + lia.
Qed.

(* ------------------------------------------------------------------ *)
(** ** Search *)

Local Open Scope string_scope.

Lemma append_assoc_s (a b c : string) : (a ++ b) ++ c = a ++ (b ++ c).
Proof. induction a as [|x a IH]; simpl; [reflexivity | now rewrite IH]. Qed.

Lemma startsWith_spec (s t : string) :
  startsWith s t = true <-> exists post, s = t ++ post.
Proof.
  revert s. induction t as [|c t IH]; intros s; simpl.
  - split; [intros _; now exists s | intros _; reflexivity].
  - destruct s as [|d s].
    + split; [discriminate | intros [post H]; discriminate].
    + rewrite andb_true_iff, Ascii.eqb_eq, IH. split.
      * intros [-> [post ->]]. now exists post.
      * intros [post H]. inversion H; subst. split; [reflexivity | now exists post].
Qed.

Lemma includes_spec (s t : string) :
  includes s t = true <-> exists pre post, s = pre ++ t ++ post.
Proof.
  induction s as [|d s IH]; simpl.
  - rewrite orb_false_r, startsWith_spec. split.
    + intros [post H]. now exists "", post.
    + intros (pre & post & H). destruct pre; [now exists post | discriminate].
  - rewrite orb_true_iff, startsWith_spec, IH. split.
    + intros [[post H] | (pre & post & H)].
      * now exists "", post.
      * exists (String d pre), post. simpl. now rewrite H.
    + intros (pre & post & H). destruct pre as [|e pre].
      * left. now exists post.
      * right. inversion H; subst. now exists pre, post.
Qed.

Lemma toLowerCase_app (a b : string) :
  toLowerCase (a ++ b) = toLowerCase a ++ toLowerCase b.
Proof. induction a as [|x a IH]; simpl; [reflexivity | now rewrite IH]. Qed.

Lemma toLowerCase_split (s a b : string) :
  toLowerCase s = a ++ b ->
  exists s1 s2, s = s1 ++ s2 /\ toLowerCase s1 = a /\ toLowerCase s2 = b.
Proof.
  revert s. induction a as [|x a IH]; intros s H; simpl in H.
  - now exists "", s.
  - destruct s as [|c s]; [discriminate|]. simpl in H. inversion H; subst.
    destruct (IH _ H2) as (s1 & s2 & -> & <- & <-).
    now exists (String c s1), s2.
Qed.

Lemma includes_lower_spec (field q : string) :
  includes (toLowerCase field) (toLowerCase q) = true <-> contains_ci field q.
Proof.
  rewrite includes_spec. unfold contains_ci. split.
  - intros (a & b & H).
    destruct (toLowerCase_split _ _ _ H) as (pre & rest & -> & <- & Hr).
    destruct (toLowerCase_split _ _ _ Hr) as (mid & post & -> & Hm & <-).
    now exists pre, mid, post.
  - intros (pre & mid & post & -> & Hm).
    exists (toLowerCase pre), (toLowerCase post).
    now rewrite !toLowerCase_app, Hm.
Qed.

(** The searches of [MemStorage] return, in storage order, exactly the
    rows one of whose three fields contains the query as a
    case-insensitive substring. *)
Lemma MemStorage_search_exact (q : string) (s : MemStorage.t) :
  (forall b, In b (MemStorage.searchBooks q s) <->
     In b (MemStorage.getBooks s) /\
     (contains_ci (Book.title b) q \/ contains_ci (Book.author b) q
      \/ contains_ci (Book.category b) q))
  /\ (forall m, In m (MemStorage.searchMembers q s) <->
        In m (MemStorage.getMembers s) /\
        (contains_ci (Member.fullName m) q \/ contains_ci (Member.class m) q
         \/ contains_ci (Member.registrationNo m) q)).
Proof.
  split; intros x.
  - unfold MemStorage.searchBooks, MemStorage.getBooks.
    rewrite filter_In, !orb_true_iff, !includes_lower_spec. tauto.
  - unfold MemStorage.searchMembers, MemStorage.getMembers.
    rewrite filter_In, !orb_true_iff, !includes_lower_spec. tauto.
Qed.

(** C4.  The searches of [DatabaseStorage] compare with [LIKE], which
    tells letter case apart, against the lower-cased query: the book
    "Alice in Wonderland" and the member "Ali Khan" contain "Ali" as a
    case-insensitive substring and [MemStorage] finds them, but
    [DatabaseStorage] returns nothing for the query "Ali" (nor for
    "ali"). *)
Theorem DatabaseStorage_search_case_sensitive :
  let mem :=
    MemStorage.mk [(1, alice)] [(2, ali)] [] [] [] [] 3 in
  contains_ci (Book.title alice) "Ali"
  /\ contains_ci (Member.fullName ali) "Ali"
  /\ MemStorage.searchBooks "Ali" mem = [alice]
  /\ MemStorage.searchMembers "Ali" mem = [ali]
  /\ DatabaseStorage.searchBooks "Ali" [alice] = []
  /\ DatabaseStorage.searchMembers "Ali" [ali] = []
  /\ DatabaseStorage.searchBooks "ali" [alice] = []
  /\ DatabaseStorage.searchMembers "ali" [ali] = [].
Proof.
  intros mem.
  split; [apply includes_lower_spec; reflexivity|].
  split; [apply includes_lower_spec; reflexivity|].
  repeat split; vm_compute; reflexivity.
Qed.

Local Open Scope list_scope.
Local Open Scope Z_scope.

(* ------------------------------------------------------------------ *)
(** ** Identifiers *)

Lemma below_set {V : Type} (n k : Z) (v : V) (m : JsMap.t V) :
  below n m -> n <= k -> below (k + 1) (JsMap.set k v m).
Proof.
  intros H Hk x Hx. apply keys_set in Hx. destruct Hx as [-> | Hx]; [lia|].
  specialize (H x Hx). lia.
Qed.

Lemma below_update {V : Type} (n k : Z) (v v' : V) (m : JsMap.t V) :
  below n m -> JsMap.get k m = Some v -> below n (JsMap.set k v' m).
Proof.
  intros H Hg x Hx. apply keys_set in Hx. destruct Hx as [-> | Hx]; [|auto].
  apply H. destruct (in_dec Z.eq_dec k (JsMap.keys m)) as [i | n0]; [assumption|].
  apply get_None_keys in n0. congruence.
Qed.

Lemma below_remove {V : Type} (n k : Z) (m : JsMap.t V) :
  below n m -> below n (JsMap.remove k m).
Proof. intros H x Hx. apply H. eapply keys_remove; eassumption. Qed.

Lemma below_mono {V : Type} (n n' : Z) (m : JsMap.t V) :
  below n m -> n <= n' -> below n' m.
Proof. intros H Hn x Hx. specialize (H x Hx). lia. Qed.

Lemma below_unused {V : Type} (n : Z) (m : JsMap.t V) :
  below n m -> JsMap.get n m = None.
Proof.
  intros H. apply get_None_keys. intros Hin. specialize (H n Hin). lia.
Qed.

Create HintDb storage.
#[local] Hint Resolve below_remove below_mono : storage.

Ltac storage_unfold :=
  unfold run_op, MemStorage.createBook, MemStorage.updateBook,
    MemStorage.deleteBook, MemStorage.createMember, MemStorage.updateMember,
    MemStorage.deleteMember, MemStorage.createCategory,
    MemStorage.updateCategory, MemStorage.deleteCategory,
    MemStorage.createBookSuggestion, MemStorage.updateBookSuggestion,
    MemStorage.createBookReview, MemStorage.updateBookReview,
    MemStorage.createCirculationRecord, MemStorage.updateCirculationRecord,
    MemStorage.with_books, MemStorage.with_members, MemStorage.with_categories,
    MemStorage.with_bookSuggestions, MemStorage.with_bookReviews,
    MemStorage.with_circulation, JsMap.delete.

Lemma run_op_keys_below (o : op) (s : MemStorage.t) :
  keys_below_currentId s ->
  keys_below_currentId (run_op o s)
  /\ MemStorage.currentId s <= MemStorage.currentId (run_op o s).
Proof.
  unfold keys_below_currentId. intros (Hb & Hm & Hc & Hg & Hr & Hx).
  destruct o; storage_unfold;
    try match goal with
        | |- context [match JsMap.get ?k ?m with _ => _ end] =>
            destruct (JsMap.get k m) eqn:Hget
        end;
    cbn [snd MemStorage.books MemStorage.members MemStorage.categories
         MemStorage.bookSuggestions MemStorage.bookReviews
         MemStorage.circulation MemStorage.currentId];
    (split; [|lia]);
    repeat split;
    eauto using below_update with storage;
    try (eapply below_set; [eassumption | lia]);
    try (eapply below_mono; [eassumption | lia]).
Qed.

Lemma run_keys_below (ops : list op) (s : MemStorage.t) :
  keys_below_currentId s ->
  keys_below_currentId (run ops s)
  /\ MemStorage.currentId s <= MemStorage.currentId (run ops s).
Proof.
  revert s. induction ops as [|o ops IH]; intros s H; simpl.
  - split; [assumption | lia].
  - destruct (run_op_keys_below o s H) as [H1 H2].
    destruct (IH _ H1) as [H3 H4]. split; [assumption | lia].
Qed.

Lemma init_keys_below : keys_below_currentId MemStorage.init.
Proof. repeat split; intros k []. Qed.

Lemma keys_below_unused (s : MemStorage.t) :
  keys_below_currentId s -> unused (MemStorage.currentId s) s.
Proof.
  intros (Hb & Hm & Hc & Hg & Hr & Hx).
  repeat split; now apply below_unused.
Qed.

Lemma In_set {V : Type} (k k' : Z) (v v' : V) (m : JsMap.t V) :
  In (k', v') (JsMap.set k v m) -> (k', v') = (k, v) \/ In (k', v') m.
Proof.
  induction m as [|[k0 v0] r IH]; simpl.
  - intros [H | []]. left. now symmetry.
  - destruct (k =? k0) eqn:E; simpl.
    + intros [H | H]; [left; now symmetry | right; now right].
    + intros [H | H]; [right; now left|].
      destruct (IH H) as [H' | H']; [now left | right; now right].
Qed.

Lemma keyed_set {V : Type} (idf : V -> Z) (k : Z) (v : V) (m : JsMap.t V) :
  keyed idf m -> idf v = k -> keyed idf (JsMap.set k v m).
Proof.
  intros H Hv k' v' Hin. apply In_set in Hin. destruct Hin as [E | Hin].
  - now inversion E; subst.
  - now apply H.
Qed.

Lemma keyed_remove {V : Type} (idf : V -> Z) (k : Z) (m : JsMap.t V) :
  keyed idf m -> keyed idf (JsMap.remove k m).
Proof.
  intros H k' v' Hin. unfold JsMap.remove in Hin. apply filter_In in Hin.
  apply H. tauto.
Qed.

Lemma keyed_get {V : Type} (idf : V -> Z) (k : Z) (v : V) (m : JsMap.t V) :
  keyed idf m -> JsMap.get k m = Some v -> idf v = k.
Proof. intros H Hg. apply H. now apply get_Some_In. Qed.

Lemma keyed_values {V : Type} (idf : V -> Z) (n : Z) (v : V) (m : JsMap.t V) :
  keyed idf m -> below n m -> In v (JsMap.values m) -> idf v < n.
Proof.
  intros Hk Hb Hin. unfold JsMap.values in Hin. apply in_map_iff in Hin.
  destruct Hin as ([k v'] & Hv & Hin). simpl in Hv. subst v'.
  rewrite (Hk _ _ Hin). apply Hb. unfold JsMap.keys.
  change k with (fst (k, v)). now apply in_map.
Qed.

#[local] Hint Resolve keyed_remove : storage.

Ltac storage_fields :=
  cbn [snd MemStorage.books MemStorage.members MemStorage.categories
       MemStorage.bookSuggestions MemStorage.bookReviews
       MemStorage.circulation MemStorage.currentId].

Ltac split_get :=
  match goal with
  | |- context [match JsMap.get ?k ?m with _ => _ end] =>
      destruct (JsMap.get k m) eqn:Hget
  end.

Lemma run_op_ids_match (o : op) (s : MemStorage.t) :
  keeps_id o = true -> ids_match_keys s -> ids_match_keys (run_op o s).
Proof.
  unfold ids_match_keys. intros Hk (Hb & Hm & Hc & Hg & Hr & Hx).
  destruct o as [now d|id u|id|now d|id u|id|now d|id u|id|now d|id u
                |now d|id u|now d|id u].
  all: try (destruct u; cbn in Hk;
            match type of Hk with
            | is_none ?x = true => destruct x; [discriminate|]
            end).
  all: storage_unfold; try split_get; storage_fields.
  all: repeat split; auto with storage.
  all: apply keyed_set; auto.
  all: cbn; eapply keyed_get; eassumption.
Qed.

Lemma run_ids_match (ops : list op) (s : MemStorage.t) :
  forallb keeps_id ops = true -> ids_match_keys s -> ids_match_keys (run ops s).
Proof.
  revert s. induction ops as [|o ops IH]; intros s Hk H; simpl; [assumption|].
  simpl in Hk. apply andb_true_iff in Hk. destruct Hk as [Ho Hk].
  apply IH; [assumption|]. now apply run_op_ids_match.
Qed.

Lemma init_ids_match : ids_match_keys MemStorage.init.
Proof. repeat split; intros k v []. Qed.

Lemma id_in_use_below (s : MemStorage.t) (id : Z) :
  ids_match_keys s -> keys_below_currentId s -> id_in_use id s ->
  id < MemStorage.currentId s.
Proof.
  intros (Kb & Km & Kc & Kg & Kr & Kx) (Bb & Bm & Bc & Bg & Br & Bx) H.
  destruct H as [(x & Hin & <-) | [(x & Hin & <-) | [(x & Hin & <-)
               | [(x & Hin & <-) | [(x & Hin & <-) | (x & Hin & <-)]]]]];
    eapply keyed_values; eassumption.
Qed.

Lemma created_id_currentId (o : op) (s : MemStorage.t) (id : Z) :
  created_id o s = Some id -> id = MemStorage.currentId s.
Proof. destruct o; simpl; intros H; inversion H; reflexivity. Qed.

(** What [createBook] does ensure.  On every storage reached from
    [new MemStorage()] the book it returns has status ["available"] and an
    id under which no collection holds an entity; the book is stored under
    that id, every entity created later gets a strictly larger id, and
    [POST /api/books] answers 201 with that book for every body the insert
    schema accepts, a [status] in the body being dropped by the schema.
    That no stored row carries the id in its [id] field holds only as long
    as no update has overwritten an [id] field. *)
Lemma createBook_available_fresh (ops : list op) (now : Z)
    (data : InsertBook.t) :
  let s := run ops MemStorage.init in
  let book := fst (MemStorage.createBook now data s) in
  let s' := snd (MemStorage.createBook now data s) in
  Book.status book = "available"
  /\ unused (Book.id book) s
  /\ MemStorage.getBook (Book.id book) s' = Some book
  /\ (forallb keeps_id ops = true -> ~ id_in_use (Book.id book) s)
  /\ (forall ops' o id',
        created_id o (run ops' s') = Some id' -> Book.id book < id')
  /\ (forall q body,
        Zod.insertBookSchema body = Some data ->
        handle now (mkRequest POST ["api"; "books"] q body) s
        = Some (mkResponse 201 (OneBook book), s'))
  /\ Zod.insertBookSchema bookBodyWithStatus = Some bookDataWithoutStatus.
Proof.
  intros s book s'.
  destruct (run_keys_below ops MemStorage.init init_keys_below) as [Hbelow _].
  fold s in Hbelow.
  assert (Hid : Book.id book = MemStorage.currentId s) by reflexivity.
  split; [reflexivity|].
  split; [rewrite Hid; now apply keys_below_unused|].
  split.
  { unfold MemStorage.getBook, s', book, MemStorage.createBook,
      MemStorage.with_books; cbn [fst snd MemStorage.books Book.id].
    apply get_set_same. }
  split.
  { intros Hk Huse.
    pose proof (run_ids_match ops MemStorage.init Hk init_ids_match) as Hm.
    fold s in Hm. pose proof (id_in_use_below s _ Hm Hbelow Huse). lia. }
  split.
  { intros ops' o id' Hc. apply created_id_currentId in Hc. subst id'.
    assert (Hs' : keys_below_currentId s').
    { apply (run_op_keys_below (CreateBook now data) s Hbelow). }
    destruct (run_keys_below ops' s' Hs') as [_ Hle].
    assert (MemStorage.currentId s' = MemStorage.currentId s + 1)
      by reflexivity.
    lia. }
  split; [|reflexivity].
  intros q body Hparse. unfold handle, on, on_param; simpl. rewrite Hparse.
  reflexivity.
Qed.

(** The theorem after one book, one member and an update of the book. *)
Lemma createBook_available_fresh_witness :
  let ops :=
    [CreateBook 0 bookDataWithoutStatus;
     CreateMember 1 (InsertMember.mk "Ali Khan" "10A" "R001");
     UpdateBook 1 (partialBook_of_json (JObj [("status", JStr "issued")]))] in
  let s := run ops MemStorage.init in
  let book := fst (MemStorage.createBook 2 bookDataWithoutStatus s) in
  Book.id book = 3
  /\ Book.status book = "available"
  /\ ~ id_in_use 3 s
  /\ handle 2 (mkRequest POST ["api"; "books"] None bookBodyWithStatus) s
     = Some (mkResponse 201 (OneBook book),
             snd (MemStorage.createBook 2 bookDataWithoutStatus s)).
Proof.
  intros ops s book.
  destruct (createBook_available_fresh ops 2 bookDataWithoutStatus)
    as (Hst & _ & _ & Hfresh & _ & Hpost & Hparse).
  split; [reflexivity|]. split; [exact Hst|].
  split; [exact (Hfresh eq_refl)|].
  exact (Hpost None bookBodyWithStatus Hparse).
Defined.

(** C8.  [createBook] can return an id that a stored book already
    carries.  After [POST /api/books], [PUT /api/books/1] with the body
    [{"id": 2}] and a second [POST /api/books], the new book has status
    ["available"] and id 2, which the first book has carried since the
    [PUT]; the listing then holds two books with id 2, and
    [GET /api/books/2] serves only the second.  The id is fresh as a key
    only.  ([updateBook] spreads the updates over the row, its [id]
    included, and keeps the row under its old key; the [create] methods
    write [id] after the spread and the insert schemas omit it.) *)
Theorem createBook_id_not_fresh :
  let post := mkRequest POST ["api"; "books"] None bookBodyWithStatus in
  let put :=
    mkRequest PUT ["api"; "books"; "1"] None (JObj [("id", JNum 2)]) in
  exists first renumbered second s1 s2 s3,
    handle 0 post MemStorage.init = Some (mkResponse 201 (OneBook first), s1)
    /\ Book.id first = 1
    /\ handle 1 put s1 = Some (mkResponse 200 (OneBook renumbered), s2)
    /\ MemStorage.getBooks s2 = [renumbered]
    /\ Book.id renumbered = 2
    /\ handle 2 post s2 = Some (mkResponse 201 (OneBook second), s3)
    /\ second = fst (MemStorage.createBook 2 bookDataWithoutStatus s2)
    /\ Book.status second = "available"
    /\ Book.id second = 2
    /\ unused (Book.id second) s2
    /\ id_in_use (Book.id second) s2
    /\ map Book.id (MemStorage.getBooks s3) = [2; 2]
    /\ handle 3 (mkRequest GET ["api"; "books"; "2"] None JNull) s3
       = Some (mkResponse 200 (OneBook second), s3)
    /\ handle 3 (mkRequest GET ["api"; "books"; "1"] None JNull) s3
       = Some (mkResponse 200 (OneBook renumbered), s3).
Proof.
  intros post put.
  eexists. eexists. eexists. eexists. eexists. eexists.
  split; [reflexivity|]. split; [reflexivity|].
  split; [reflexivity|]. split; [reflexivity|]. split; [reflexivity|].
  split; [reflexivity|]. split; [reflexivity|]. split; [reflexivity|].
  split; [reflexivity|].
  split; [repeat split|].
  split; [left; eexists; split; [left; reflexivity | reflexivity]|].
  split; [reflexivity|]. split; reflexivity.
Qed.

(* ------------------------------------------------------------------ *)
(** ** Issuing and returning *)

(** No route answers [PUT /api/circulation/:id]. *)
Lemma put_circulation_unrouted now (seg : string) q b s :
  handle now (mkRequest PUT ["api"; "circulation"; seg] q b) s = None.
Proof. unfold handle, on, on_param. simpl. reflexivity. Qed.

Lemma post_circulation now bookId memberId action q s :
  Zod.int4 bookId = true -> Zod.int4 memberId = true ->
  handle now
    (mkRequest POST ["api"; "circulation"] q
       (circulationBody bookId memberId action)) s
  = let r :=
      MemStorage.createCirculationRecord now
        (InsertCirculation.mk bookId memberId action None None) s in
    Some (mkResponse 201 (OneCirculation (fst r)), snd r).
Proof.
  intros Hb Hm. unfold handle, on, on_param. simpl.
  unfold Zod.insertCirculationSchema, Zod.integer. simpl.
  now rewrite Hb, Hm.
Qed.

(** [PUT /api/books/:id] writes to the books only. *)
Lemma put_books_frame now (seg : string) q b s res s' :
  handle now (mkRequest PUT ["api"; "books"; seg] q b) s = Some (res, s') ->
  MemStorage.circulation s' = MemStorage.circulation s
  /\ MemStorage.currentId s' = MemStorage.currentId s.
Proof.
  unfold handle, on, on_param. simpl.
  destruct (String.eqb seg ""); simpl; [discriminate|].
  destruct (parseInt seg) as [id|].
  - unfold MemStorage.updateBook.
    destruct (JsMap.get id (MemStorage.books s));
      intros H; inversion H; subst; now split.
  - intros H; inversion H; subst; now split.
Qed.

Section ClientFacts.
Variable unrouted : response.
Variable strict : bool.
Variable toISOString : Z -> string.

Lemma apiRequest_eq now m url data s :
  apiRequest unrouted strict now m url data s
  = match handle now (mkRequest m url None data) s with
    | Some (res, s') => (if strict && negb (ok res) then None else Some res, s')
    | None => (if strict && negb (ok unrouted) then None else Some unrouted, s)
    end.
Proof.
  unfold apiRequest, server.
  destruct (handle now (mkRequest m url None data) s) as [[res s']|];
    reflexivity.
Qed.

Lemma apiRequest_put_books_frame now seg data s :
  let s' := snd (apiRequest unrouted strict now PUT ["api"; "books"; seg] data s) in
  MemStorage.circulation s' = MemStorage.circulation s
  /\ MemStorage.currentId s' = MemStorage.currentId s.
Proof.
  rewrite apiRequest_eq.
  destruct (handle now (mkRequest PUT ["api"; "books"; seg] None data) s)
    as [[res s1]|] eqn:H; simpl.
  - eapply put_books_frame; eassumption.
  - now split.
Qed.

(** Whatever the parameters are, the circulation records after
    [issueBook] are those before it and the record [POST /api/circulation]
    created. *)
Lemma issueBook_circulation now clientNow bookId memberId s :
  Zod.int4 bookId = true -> Zod.int4 memberId = true ->
  MemStorage.circulation
    (snd (issueBook unrouted strict toISOString now clientNow bookId memberId s))
  = JsMap.set (MemStorage.currentId s)
      (Circulation.mk (MemStorage.currentId s) bookId memberId "borrow"
         (Some now) None None "active")
      (MemStorage.circulation s).
Proof.
  intros Hb Hm. unfold issueBook.
  rewrite apiRequest_eq.
  fold (circulationBody bookId memberId "borrow").
  rewrite post_circulation by assumption.
  cbv zeta. cbn [ok status]. replace ((200 <=? 201) && (201 <=? 299)) with true
    by reflexivity.
  cbn [negb]. rewrite andb_false_r.
  rewrite apiRequest_eq, put_circulation_unrouted.
  destruct (strict && negb (ok unrouted)); [reflexivity|].
  match goal with
  | |- context [apiRequest unrouted strict now PUT ?u ?d ?s1] =>
      destruct (apiRequest_put_books_frame now (string_of_Z bookId) d s1)
        as [Hc _];
      destruct (apiRequest unrouted strict now PUT u d s1) as [[r|] s3]
  end; simpl in Hc |- *; rewrite Hc; reflexivity.
Qed.

End ClientFacts.

(** C2.  [issueBook] creates the circulation record with action
    ["borrow"] and status ["active"], but the record it leaves in the
    storage has no due date: [POST /api/circulation] stores none, and the
    [PUT /api/circulation/:id] request that is to set it matches no route,
    so it never reaches [updateCirculationRecord]. *)
Theorem issueBook_leaves_dueDate_unset (unrouted : response) (strict : bool)
    (toISOString : Z -> string) (now clientNow bookId memberId : Z)
    (s : MemStorage.t) :
  Zod.int4 bookId = true -> Zod.int4 memberId = true ->
  let s' :=
    snd (issueBook unrouted strict toISOString now clientNow bookId memberId s) in
  (exists record,
      MemStorage.getCirculationRecord (MemStorage.currentId s) s' = Some record
      /\ Circulation.action record = "borrow"
      /\ Circulation.status record = "active"
      /\ Circulation.bookId record = bookId
      /\ Circulation.memberId record = memberId
      /\ Circulation.date record = Some now
      /\ Circulation.dueDate record = None)
  /\ (forall seg q b s0,
        handle now (mkRequest PUT ["api"; "circulation"; seg] q b) s0 = None).
Proof.
  intros Hb Hm s'. split.
  - eexists. split.
    + unfold MemStorage.getCirculationRecord, s'.
      rewrite issueBook_circulation by assumption. apply get_set_same.
    + repeat split.
  - intros. apply put_circulation_unrouted.
Qed.

(** The theorem for book 1 and member 2 of [shelf], with a server that
    answers 404 where it has no route and a client that throws on it. *)
Lemma issueBook_leaves_dueDate_unset_witness :
  exists record,
    MemStorage.getCirculationRecord 3
      (snd (issueBook (mkResponse 404 Empty) true (fun _ => "") 10 11 1 2 shelf))
    = Some record
    /\ Circulation.dueDate record = None.
Proof.
  destruct (issueBook_leaves_dueDate_unset (mkResponse 404 Empty) true
              (fun _ => "") 10 11 1 2 shelf eq_refl eq_refl)
    as [(record & Hget & _ & _ & _ & _ & _ & Hdue) _].
  exists record. split; [exact Hget | exact Hdue].
Defined.

Ltac api_step :=
  rewrite apiRequest_eq;
  match goal with
  | |- context [handle ?n ?r ?s] =>
      let h := eval vm_compute in (handle n r s) in
      change (handle n r s) with h
  end;
  cbv beta iota.

(** C1.  From a storage with one available book and one member, issuing
    the book and returning it leads to a storage that breaks the
    invariant.  When the answer to an unrouted request makes [apiRequest]
    throw, [issueBook] stops after creating the active record and the book
    stays ["available"].  Otherwise [returnBook] runs to its end and the
    book is ["available"] again while the borrow record, which no route
    could update, and the ["return"] record, which
    [createCirculationRecord] stores as ["active"], both reference it as
    active records; [DatabaseStorage] would store the latter as
    ["returned"]. *)
Theorem circulation_invariant_broken (unrouted : response) (strict : bool)
    (toISOString : Z -> string) :
  let reachable := circulation_reachable unrouted strict toISOString in
  let s1 := snd (issueBook unrouted strict toISOString 10 11 1 2 shelf) in
  let s2 := snd (returnBook unrouted strict 20 1 s1) in
  reachable s1 /\ reachable s2
  /\ (if strict && negb (ok unrouted)
      then ~ issued_iff_active s1
      else ~ issued_iff_active s2
           /\ option_map Book.status (MemStorage.getBook 1 s2) = Some "available"
           /\ map (fun c => (Circulation.bookId c, Circulation.action c))
                  (MemStorage.getActiveCirculation s2)
              = [(1, "borrow"); (1, "return")])
  /\ DatabaseStorage.insertedStatus "return" = "returned".
Proof.
  intros reachable s1 s2.
  assert (R0 : reachable shelf).
  { unfold shelf. apply reach_createMember, reach_createBook, reach_init. }
  assert (R1 : reachable s1) by (apply reach_issueBook; exact R0).
  assert (R2 : reachable s2) by (apply reach_returnBook; exact R1).
  split; [exact R1|]. split; [exact R2|]. split; [|reflexivity].
  destruct (strict && negb (ok unrouted)) eqn:E.
  - (* the unrouted PUT throws: the record is active, the book available *)
    assert (H1 : s1 = MemStorage.mk
                   (MemStorage.books shelf) (MemStorage.members shelf) [] [] []
                   [(3, Circulation.mk 3 1 2 "borrow" (Some 10) None None "active")]
                   4).
    { unfold s1, issueBook. api_step. rewrite andb_false_r.
      rewrite apiRequest_eq, put_circulation_unrouted, E. reflexivity. }
    intros Hinv. rewrite H1 in Hinv.
    specialize (Hinv (fst (MemStorage.createBook 0 bookDataWithoutStatus
                             MemStorage.init))).
    destruct Hinv as [_ Hinv]; [left; reflexivity|].
    assert (Habs : Book.status
               (fst (MemStorage.createBook 0 bookDataWithoutStatus
                       MemStorage.init)) = "issued").
    { apply Hinv. eexists. split; [left; reflexivity|]. split; reflexivity. }
    discriminate Habs.
  - (* every request goes through *)
    assert (H2 : s2 = MemStorage.mk
                   (MemStorage.books shelf) (MemStorage.members shelf) [] [] []
                   [(3, Circulation.mk 3 1 2 "borrow" (Some 10) None None "active");
                    (4, Circulation.mk 4 1 2 "return" (Some 20) None None "active")]
                   5).
    { assert (H1 : s1 = MemStorage.mk
                     [(1, PartialBook.spread
                            (fst (MemStorage.createBook 0 bookDataWithoutStatus
                                    MemStorage.init))
                            (partialBook_of_json
                               (JObj [("status", JStr "issued")])))]
                     (MemStorage.members shelf) [] [] []
                     [(3, Circulation.mk 3 1 2 "borrow" (Some 10) None None
                            "active")]
                     4).
      { unfold s1, issueBook. api_step. rewrite andb_false_r.
        rewrite apiRequest_eq, put_circulation_unrouted, E.
        api_step. rewrite andb_false_r. reflexivity. }
      unfold s2. rewrite H1. unfold returnBook.
      api_step. rewrite andb_false_r. cbn [content].
      replace (find_active 1 _) with
        (Some (Circulation.mk 3 1 2 "borrow" (Some 10) None None "active"))
        by reflexivity.
      cbv beta iota.
      rewrite apiRequest_eq, put_circulation_unrouted, E.
      api_step. rewrite andb_false_r.
      api_step. rewrite andb_false_r. reflexivity. }
    rewrite H2. split; [|split; reflexivity].
    intros Hinv.
    specialize (Hinv (fst (MemStorage.createBook 0 bookDataWithoutStatus
                             MemStorage.init))).
    destruct Hinv as [_ Hinv]; [left; reflexivity|].
    assert (Habs : Book.status
               (fst (MemStorage.createBook 0 bookDataWithoutStatus
                       MemStorage.init)) = "issued").
    { apply Hinv. eexists. split; [left; reflexivity|]. split; reflexivity. }
    discriminate Habs.
Qed.

(* ------------------------------------------------------------------ *)
(** ** Analytics *)

Lemma keys_set_cases {V : Type} (k : Z) (v : V) (m : JsMap.t V) :
  JsMap.keys (JsMap.set k v m)
  = match JsMap.get k m with
    | Some _ => JsMap.keys m
    | None => JsMap.keys m ++ [k]
    end.
Proof.
  induction m as [|[k' v'] r IH]; simpl; [reflexivity|].
  destruct (k =? k') eqn:E; simpl.
  - apply Z.eqb_eq in E. now subst.
  - rewrite IH. now destruct (JsMap.get k r).
Qed.

Lemma NoDup_keys_set {V : Type} (k : Z) (v : V) (m : JsMap.t V) :
  NoDup (JsMap.keys m) -> NoDup (JsMap.keys (JsMap.set k v m)).
Proof.
  intros H. rewrite keys_set_cases. destruct (JsMap.get k m) eqn:E; [assumption|].
  apply get_None_keys in E.
  apply NoDup_rev in H. rewrite <- (rev_involutive (_ ++ _)).
  apply NoDup_rev. rewrite rev_app_distr. simpl. constructor; [|assumption].
  now rewrite <- in_rev.
Qed.

Lemma times_app (id : Z) (l l' : list Z) :
  times id (l ++ l') = times id l + times id l'.
Proof. unfold times. rewrite count_occ_app. lia. Qed.

Lemma times_nonneg (id : Z) (l : list Z) : 0 <= times id l.
Proof. unfold times. lia. Qed.

Lemma times_single (id k : Z) : times id [k] = if id =? k then 1 else 0.
Proof.
  unfold times. simpl. destruct (Z.eq_dec k id) as [->|Hne].
  - now rewrite Z.eqb_refl.
  - destruct (id =? k) eqn:E; [apply Z.eqb_eq in E; congruence | reflexivity].
Qed.

Lemma bump_counts (k : Z) (m : JsMap.t Z) (l : list Z) :
  counts_of m l -> counts_of (MemStorage.bump k m) (l ++ [k]).
Proof.
  intros [Hnd Hget]. split.
  - now apply NoDup_keys_set.
  - intros id. unfold MemStorage.bump. rewrite times_app, times_single.
    pose proof (times_nonneg id l) as Hpos.
    destruct (id =? k) eqn:E.
    + apply Z.eqb_eq in E. subst id. rewrite get_set_same, Hget.
      destruct (times k l =? 0) eqn:E0.
      * apply Z.eqb_eq in E0. rewrite E0. reflexivity.
      * destruct (times k l + 1 =? 0) eqn:E1; [|reflexivity].
        apply Z.eqb_eq in E1. lia.
    + apply Z.eqb_neq in E. rewrite get_set_other by assumption.
      rewrite Hget. now rewrite Z.add_0_r.
Qed.

Lemma fold_counts (key : Circulation.t -> Z) (records : list Circulation.t) :
  forall m l,
    counts_of m l ->
    counts_of
      (fold_left (fun counts record =>
                    if String.eqb (Circulation.action record) "borrow"
                    then MemStorage.bump (key record) counts else counts)
                 records m)
      (l ++ borrowed key records).
Proof.
  induction records as [|r records IH]; intros m l H; simpl.
  - unfold borrowed. simpl. now rewrite app_nil_r.
  - unfold borrowed, is_borrow. simpl.
    destruct (String.eqb (Circulation.action r) "borrow").
    + simpl. change (l ++ key r :: ?x) with (l ++ [key r] ++ x).
      rewrite app_assoc. apply IH. now apply bump_counts.
    + now apply IH.
Qed.

Lemma borrowCountsBy_counts (key : Circulation.t -> Z)
    (records : list Circulation.t) :
  counts_of (MemStorage.borrowCountsBy key records) (borrowed key records).
Proof.
  unfold MemStorage.borrowCountsBy.
  apply (fold_counts key records JsMap.empty []).
  split; [constructor | reflexivity].
Qed.

Lemma In_get {V : Type} (k : Z) (v : V) (m : JsMap.t V) :
  NoDup (JsMap.keys m) -> In (k, v) m -> JsMap.get k m = Some v.
Proof.
  induction m as [|[k' v'] r IH]; simpl; intros Hnd Hin; [contradiction|].
  inversion Hnd as [|? ? Hnotin Hnd']; subst.
  destruct Hin as [E | Hin].
  - inversion E; subst. now rewrite Z.eqb_refl.
  - destruct (k =? k') eqn:E.
    + apply Z.eqb_eq in E. subst k'. exfalso. apply Hnotin.
      unfold JsMap.keys. change k with (fst (k, v)). now apply in_map.
    + now apply IH.
Qed.

Lemma joinBooks_rows (bs : JsMap.t Book.t) (l : list Z) (m : JsMap.t Z) :
  (forall id n, In (id, n) m -> n = times id l) ->
  MemStorage.joinBooks bs m = flat_map (book_row bs l) (JsMap.keys m).
Proof.
  induction m as [|[id n] r IH]; intros H; simpl; [reflexivity|].
  rewrite IH by (intros; apply H; now right).
  pose proof (H id n (or_introl eq_refl)) as Hn. subst n.
  unfold book_row. destruct (JsMap.get id bs); reflexivity.
Qed.

Lemma counts_of_entries (m : JsMap.t Z) (l : list Z) :
  counts_of m l ->
  (forall id n, In (id, n) m -> n = times id l)
  /\ (forall id, In id (JsMap.keys m) <-> 0 < times id l).
Proof.
  intros [Hnd Hget]. split.
  - intros id n Hin. apply In_get in Hin; [|assumption].
    rewrite Hget in Hin. destruct (times id l =? 0); congruence.
  - intros id. pose proof (times_nonneg id l) as Hpos.
    pose proof (get_None_keys id m) as Hk. rewrite Hget in Hk.
    destruct (times id l =? 0) eqn:E.
    + apply Z.eqb_eq in E. split; [|lia].
      intros Hin. exfalso. now apply (proj1 Hk).
    + apply Z.eqb_neq in E. split; [lia|]. intros _.
      destruct (in_dec Z.eq_dec id (JsMap.keys m)) as [Hin|Hout];
        [assumption|].
      apply Hk in Hout. discriminate.
Qed.

Section SortFacts.
Context {A : Type} (f : A -> Z).
Let cmp := fun a b : A => f b - f a.
Let desc := fun a b : A => f b <= f a.

Lemma sort_insert_perm (x : A) (l : list A) :
  Permutation (MemStorage.sort_insert cmp x l) (x :: l).
Proof.
  induction l as [|y r IH]; simpl; [reflexivity|].
  destruct (cmp x y <=? 0); [reflexivity|].
  rewrite IH. apply perm_swap.
Qed.

Lemma sort_perm (l : list A) : Permutation (MemStorage.sort cmp l) l.
Proof.
  induction l as [|x l IH]; simpl; [reflexivity|].
  rewrite sort_insert_perm. now constructor.
Qed.

Lemma sort_insert_sorted (x : A) (l : list A) :
  Sorted desc l -> Sorted desc (MemStorage.sort_insert cmp x l).
Proof.
  induction l as [|y r IH]; simpl; intros H.
  - repeat constructor.
  - destruct (cmp x y <=? 0) eqn:E.
    + apply Z.leb_le in E. constructor; [assumption|].
      constructor. unfold desc, cmp in *. lia.
    + apply Z.leb_gt in E. inversion H as [|? ? Hs Hh]; subst.
      constructor; [now apply IH|].
      destruct r as [|z r]; simpl.
      * constructor. unfold desc, cmp in *. lia.
      * destruct (cmp x z <=? 0).
        -- constructor. unfold desc, cmp in *. lia.
        -- inversion Hh; subst. now constructor.
Qed.

Lemma sort_sorted (l : list A) : StronglySorted desc (MemStorage.sort cmp l).
Proof.
  apply Sorted_StronglySorted.
  - intros a b c Hab Hbc. unfold desc in *. lia.
  - induction l as [|x l IH]; simpl; [constructor|].
    now apply sort_insert_sorted.
Qed.
End SortFacts.

Lemma getMostReadBooks_rows (s : MemStorage.t) :
  let l := borrowed Circulation.bookId (MemStorage.getCirculation s) in
  exists ids,
    NoDup ids
    /\ (forall id, In id ids <-> 0 < times id l)
    /\ Permutation (MemStorage.getMostReadBooks s)
         (flat_map (book_row (MemStorage.books s) l) ids).
Proof.
  intros l.
  pose proof (borrowCountsBy_counts Circulation.bookId
                (MemStorage.getCirculation s)) as Hc.
  fold l in Hc. destruct (counts_of_entries _ _ Hc) as [Hn Hk].
  exists (JsMap.keys (MemStorage.borrowCountsBy Circulation.bookId
                        (MemStorage.getCirculation s))).
  split; [apply Hc|]. split; [exact Hk|].
  unfold MemStorage.getMostReadBooks, JsMap.entries.
  rewrite (sort_perm MemStorage.BookCount.borrowCount).
  unfold MemStorage.getCirculation in *.
  now rewrite (joinBooks_rows _ l).
Qed.

Lemma times_three_one (a b id : Z) :
  a <> b ->
  times id [a; a; a; b] = if id =? a then 3 else if id =? b then 1 else 0.
Proof.
  intros Hne. unfold times. simpl.
  destruct (Z.eq_dec a id) as [->|Ha]; destruct (Z.eq_dec b id) as [->|Hb].
  - contradiction.
  - now rewrite Z.eqb_refl.
  - rewrite Z.eqb_refl. destruct (id =? a) eqn:E; [|reflexivity].
    apply Z.eqb_eq in E. congruence.
  - destruct (id =? a) eqn:E; [apply Z.eqb_eq in E; congruence|].
    destruct (id =? b) eqn:E'; [apply Z.eqb_eq in E'; congruence|].
    reflexivity.
Qed.

(** C7.  [getMostReadBooks] is sorted by descending borrow count; it has
    one row for every [bookId] that occurs in a borrow record and names a
    stored book, the row pairing that book with the number of borrow
    records of the [bookId], and no other row; and when the borrow records
    are three of book [a] and one of book [b], the result is
    [[A:3, B:1]]. *)
Theorem getMostReadBooks_sorted_counts (s : MemStorage.t) :
  let l := borrowed Circulation.bookId (MemStorage.getCirculation s) in
  StronglySorted more_read (MemStorage.getMostReadBooks s)
  /\ (exists ids,
        NoDup ids
        /\ (forall id, In id ids <-> 0 < times id l)
        /\ Permutation (MemStorage.getMostReadBooks s)
             (flat_map (book_row (MemStorage.books s) l) ids))
  /\ (forall a b A B,
        a <> b ->
        MemStorage.getBook a s = Some A ->
        MemStorage.getBook b s = Some B ->
        Permutation l [a; a; a; b] ->
        MemStorage.getMostReadBooks s
        = [MemStorage.BookCount.mk A 3; MemStorage.BookCount.mk B 1]).
Proof.
  intros l.
  assert (Hsorted : StronglySorted more_read (MemStorage.getMostReadBooks s))
    by apply (sort_sorted MemStorage.BookCount.borrowCount).
  pose proof (getMostReadBooks_rows s) as Hrows. cbv zeta in Hrows. fold l in Hrows.
  split; [exact Hsorted|]. split; [exact Hrows|].
  intros a b A B Hne HA HB Hl.
  destruct Hrows as (ids & Hnd & Hin & Hperm).
  assert (Ht : forall id, times id l
                          = if id =? a then 3 else if id =? b then 1 else 0).
  { intros id. rewrite <- times_three_one by assumption. unfold times.
    f_equal. now apply Permutation_count_occ. }
  assert (Hids : Permutation ids [a; b]).
  { apply NoDup_Permutation; [assumption| |].
    - constructor; [simpl; intuition congruence|].
      constructor; [simpl; tauto | constructor].
    - intros id. rewrite Hin, Ht. simpl.
      destruct (id =? a) eqn:Ea; [apply Z.eqb_eq in Ea; intuition lia|].
      destruct (id =? b) eqn:Eb; [apply Z.eqb_eq in Eb; intuition lia|].
      apply Z.eqb_neq in Ea, Eb. intuition (congruence || lia). }
  assert (Hrow : Permutation (MemStorage.getMostReadBooks s)
                   [MemStorage.BookCount.mk A 3; MemStorage.BookCount.mk B 1]).
  { rewrite Hperm, (Permutation_flat_map _ Hids). simpl. unfold book_row.
    unfold MemStorage.getBook in HA, HB. rewrite HA, HB, !Ht, !Z.eqb_refl.
    destruct (b =? a) eqn:E; [apply Z.eqb_eq in E; congruence|]. reflexivity. }
  apply Permutation_sym, Permutation_length_2_inv in Hrow.
  destruct Hrow as [Hrow | Hrow]; [exact Hrow|].
  rewrite Hrow in Hsorted. inversion Hsorted as [|? ? _ Hall]; subst.
  inversion Hall as [|? ? Hle _]; subst. unfold more_read in Hle.
  simpl in Hle. lia.
Qed.

(** The theorem on [history]. *)
Lemma getMostReadBooks_sorted_counts_witness :
  map (fun row => (Book.title (MemStorage.BookCount.book row),
                   MemStorage.BookCount.borrowCount row))
      (MemStorage.getMostReadBooks history)
  = [("Alice in Wonderland", 3); ("Dune", 1)].
Proof.
  destruct (getMostReadBooks_sorted_counts history) as (_ & _ & H).
  rewrite (H 1 2 _ _ ltac:(discriminate) eq_refl eq_refl
             (Permutation_cons_append [1; 1; 1] 2)).
  reflexivity.
Defined.

Lemma remove_set_same {V : Type} (k : Z) (v : V) (m : JsMap.t V) :
  JsMap.remove k (JsMap.set k v m) = JsMap.remove k m.
Proof.
  induction m as [|[k' v'] r IH]; simpl.
  - now rewrite Z.eqb_refl.
  - destruct (k =? k') eqn:E; simpl.
    + now rewrite Z.eqb_refl.
    + rewrite ?E; simpl. now rewrite IH.
Qed.

Lemma remove_set_other {V : Type} (k id : Z) (v : V) (m : JsMap.t V) :
  k <> id -> JsMap.remove id (JsMap.set k v m) = JsMap.set k v (JsMap.remove id m).
Proof.
  intros Hne. induction m as [|[k' v'] r IH]; simpl.
  - destruct (id =? k) eqn:E; [apply Z.eqb_eq in E; congruence | reflexivity].
  - destruct (k =? k') eqn:E; simpl.
    + apply Z.eqb_eq in E. subst k'.
      destruct (id =? k) eqn:E'; [apply Z.eqb_eq in E'; congruence|].
      simpl. now rewrite Z.eqb_refl.
    + destruct (id =? k') eqn:E'; simpl; [assumption|]. now rewrite E, IH.
Qed.

Lemma bump_remove (k id : Z) (m : JsMap.t Z) :
  JsMap.remove id (MemStorage.bump k m)
  = if k =? id then JsMap.remove id m
    else MemStorage.bump k (JsMap.remove id m).
Proof.
  unfold MemStorage.bump. destruct (k =? id) eqn:E.
  - apply Z.eqb_eq in E. subst. apply remove_set_same.
  - apply Z.eqb_neq in E. rewrite remove_set_other by assumption.
    now rewrite get_remove_other.
Qed.

(** Counting without the records of key [id] gives the counts without
    the entry of [id]. *)
Lemma borrowCountsBy_without (key : Circulation.t -> Z) (id : Z)
    (records : list Circulation.t) :
  MemStorage.borrowCountsBy key
    (filter (fun c => negb (key c =? id)) records)
  = JsMap.remove id (MemStorage.borrowCountsBy key records).
Proof.
  unfold MemStorage.borrowCountsBy.
  change (@JsMap.empty Z) with (JsMap.remove id (@JsMap.empty Z)) at 1.
  generalize (@JsMap.empty Z) as m.
  induction records as [|r records IH]; intros m; simpl; [reflexivity|].
  destruct (key r =? id) eqn:E; simpl; rewrite <- IH;
    destruct (String.eqb (Circulation.action r) "borrow");
    rewrite ?bump_remove, ?E; reflexivity.
Qed.

Lemma joinBooks_remove (bs : JsMap.t Book.t) (id : Z) (m : JsMap.t Z) :
  JsMap.get id bs = None ->
  MemStorage.joinBooks bs (JsMap.remove id m) = MemStorage.joinBooks bs m.
Proof.
  intros Hnone. induction m as [|[k n] r IH]; simpl; [reflexivity|].
  destruct (id =? k) eqn:E; simpl.
  - apply Z.eqb_eq in E. subst k. now rewrite Hnone.
  - now rewrite IH.
Qed.

Lemma joinMembers_remove (ms : JsMap.t Member.t) (id : Z) (m : JsMap.t Z) :
  JsMap.get id ms = None ->
  MemStorage.joinMembers ms (JsMap.remove id m) = MemStorage.joinMembers ms m.
Proof.
  intros Hnone. induction m as [|[k n] r IH]; simpl; [reflexivity|].
  destruct (id =? k) eqn:E; simpl.
  - apply Z.eqb_eq in E. subst k. now rewrite Hnone.
  - now rewrite IH.
Qed.

Lemma values_filter {V : Type} (p : V -> bool) (m : JsMap.t V) :
  JsMap.values (filter (fun e => p (snd e)) m) = filter p (JsMap.values m).
Proof.
  induction m as [|[k v] r IH]; simpl; [reflexivity|].
  destruct (p v); simpl; now rewrite IH.
Qed.

Lemma joinIssued_without (bs : JsMap.t Book.t) (ms : JsMap.t Member.t)
    (drop : Circulation.t -> bool) (records : list Circulation.t) :
  (forall c, drop c = true ->
             JsMap.get (Circulation.bookId c) bs = None
             \/ JsMap.get (Circulation.memberId c) ms = None) ->
  MemStorage.joinIssued bs ms (filter (fun c => negb (drop c)) records)
  = MemStorage.joinIssued bs ms records.
Proof.
  intros Hdrop. induction records as [|c records IH]; simpl; [reflexivity|].
  destruct (drop c) eqn:E; simpl.
  - rewrite IH. destruct (Hdrop c E) as [H | H]; rewrite H; [reflexivity|].
    now destruct (JsMap.get (Circulation.bookId c) bs).
  - now rewrite IH.
Qed.

Lemma filter_comm {A : Type} (p q : A -> bool) (l : list A) :
  filter p (filter q l) = filter q (filter p l).
Proof.
  induction l as [|x l IH]; simpl; [reflexivity|].
  destruct (p x) eqn:Ep; destruct (q x) eqn:Eq; simpl;
    rewrite ?Ep, ?Eq, IH; reflexivity.
Qed.

Lemma mostRead_without (id : Z) (s : MemStorage.t) :
  MemStorage.getBook id s = None ->
  MemStorage.getMostReadBooks (without_records (of_book id) s)
  = MemStorage.getMostReadBooks s.
Proof.
  intros Hnone. unfold MemStorage.getMostReadBooks, without_records,
    MemStorage.with_circulation, JsMap.entries.
  cbn [MemStorage.circulation MemStorage.books].
  rewrite (values_filter (fun c => negb (of_book id c))).
  unfold of_book. rewrite borrowCountsBy_without.
  now rewrite joinBooks_remove.
Qed.

Lemma mostActive_without (id : Z) (s : MemStorage.t) :
  MemStorage.getMember id s = None ->
  MemStorage.getMostActiveReaders (without_records (of_member id) s)
  = MemStorage.getMostActiveReaders s.
Proof.
  intros Hnone. unfold MemStorage.getMostActiveReaders, without_records,
    MemStorage.with_circulation, JsMap.entries.
  cbn [MemStorage.circulation MemStorage.members].
  rewrite (values_filter (fun c => negb (of_member id c))).
  unfold of_member. rewrite borrowCountsBy_without.
  now rewrite joinMembers_remove.
Qed.

Lemma issued_without (drop : Circulation.t -> bool) (s : MemStorage.t) :
  (forall c, drop c = true ->
             MemStorage.getBook (Circulation.bookId c) s = None
             \/ MemStorage.getMember (Circulation.memberId c) s = None) ->
  MemStorage.getIssuedBooks (without_records drop s)
  = MemStorage.getIssuedBooks s.
Proof.
  intros Hdrop. unfold MemStorage.getIssuedBooks, MemStorage.getActiveCirculation,
    without_records, MemStorage.with_circulation.
  cbn [MemStorage.circulation MemStorage.books MemStorage.members].
  rewrite (values_filter (fun c => negb (drop c))), filter_comm.
  now apply joinIssued_without.
Qed.

Lemma joinMembers_rows (ms : JsMap.t Member.t) (m : JsMap.t Z) row :
  In row (MemStorage.joinMembers ms m) ->
  exists id, JsMap.get id ms = Some (MemStorage.MemberCount.member row).
Proof.
  induction m as [|[id n] r IH]; simpl; [contradiction|].
  destruct (JsMap.get id ms) as [mem|] eqn:E; [|exact IH].
  intros [<- | Hin]; [now exists id | now apply IH].
Qed.

Lemma joinIssued_rows (bs : JsMap.t Book.t) (ms : JsMap.t Member.t)
    (records : list Circulation.t) row :
  In row (MemStorage.joinIssued bs ms records) ->
  exists c,
    In c records
    /\ JsMap.get (Circulation.bookId c) bs = Some (MemStorage.Issued.book row)
    /\ JsMap.get (Circulation.memberId c) ms
       = Some (MemStorage.Issued.member row)
    /\ MemStorage.Issued.dueDate row = Circulation.dueDate c.
Proof.
  induction records as [|c records IH]; simpl; [contradiction|].
  assert (Hrest : In row (MemStorage.joinIssued bs ms records) ->
                  exists c0, (c = c0 \/ In c0 records)
                    /\ JsMap.get (Circulation.bookId c0) bs
                       = Some (MemStorage.Issued.book row)
                    /\ JsMap.get (Circulation.memberId c0) ms
                       = Some (MemStorage.Issued.member row)
                    /\ MemStorage.Issued.dueDate row = Circulation.dueDate c0).
  { intros H. destruct (IH H) as (c0 & Hin & Hrow). exists c0. tauto. }
  destruct (JsMap.get (Circulation.bookId c) bs) as [b|] eqn:Eb; [|exact Hrest].
  destruct (JsMap.get (Circulation.memberId c) ms) as [mem|] eqn:Em;
    [|exact Hrest].
  intros [<- | Hin]; [|now apply Hrest].
  exists c. simpl. tauto.
Qed.

(** C10.  Every row of the three reports joins a book or member that the
    storage holds.  After [deleteBook], the book is gone and both
    [getMostReadBooks] and [getIssuedBooks] return what they would return if
    the circulation records of that book did not exist; likewise for
    [getMostActiveReaders] and [getIssuedBooks] after [deleteMember]. *)
Theorem analytics_omit_dangling (s : MemStorage.t) :
  (forall row,
      In row (MemStorage.getMostReadBooks s) ->
      exists id,
        MemStorage.getBook id s = Some (MemStorage.BookCount.book row)
        /\ MemStorage.BookCount.borrowCount row
           = times id (borrowed Circulation.bookId (MemStorage.getCirculation s))
        /\ 0 < MemStorage.BookCount.borrowCount row)
  /\ (forall row,
        In row (MemStorage.getMostActiveReaders s) ->
        exists id,
          MemStorage.getMember id s = Some (MemStorage.MemberCount.member row))
  /\ (forall row,
        In row (MemStorage.getIssuedBooks s) ->
        exists c,
          In c (MemStorage.getActiveCirculation s)
          /\ MemStorage.getBook (Circulation.bookId c) s
             = Some (MemStorage.Issued.book row)
          /\ MemStorage.getMember (Circulation.memberId c) s
             = Some (MemStorage.Issued.member row)
          /\ MemStorage.Issued.dueDate row = Circulation.dueDate c)
  /\ (forall id,
        let s' := snd (MemStorage.deleteBook id s) in
        MemStorage.getBook id s' = None
        /\ MemStorage.getMostReadBooks s'
           = MemStorage.getMostReadBooks (without_records (of_book id) s')
        /\ MemStorage.getIssuedBooks s'
           = MemStorage.getIssuedBooks (without_records (of_book id) s'))
  /\ (forall id,
        let s' := snd (MemStorage.deleteMember id s) in
        MemStorage.getMember id s' = None
        /\ MemStorage.getMostActiveReaders s'
           = MemStorage.getMostActiveReaders (without_records (of_member id) s')
        /\ MemStorage.getIssuedBooks s'
           = MemStorage.getIssuedBooks (without_records (of_member id) s')).
Proof.
  split; [|split; [|split; [|split]]].
  - intros row Hin.
    destruct (getMostReadBooks_rows s) as (ids & _ & Hids & Hperm).
    apply (Permutation_in _ Hperm) in Hin. apply in_flat_map in Hin.
    destruct Hin as (id & Hid & Hrow). unfold book_row in Hrow.
    exists id. unfold MemStorage.getBook.
    destruct (JsMap.get id (MemStorage.books s)) as [b|]; [|contradiction].
    destruct Hrow as [<- | []]. simpl. apply Hids in Hid. tauto.
  - intros row Hin. unfold MemStorage.getMostActiveReaders in Hin.
    apply (Permutation_in _ (sort_perm MemStorage.MemberCount.borrowCount _))
      in Hin.
    now apply joinMembers_rows in Hin.
  - intros row Hin. now apply joinIssued_rows in Hin.
  - intros id s'.
    assert (Hnone : MemStorage.getBook id s' = None)
      by apply get_remove_same.
    split; [exact Hnone|]. split.
    + symmetry. now apply mostRead_without.
    + symmetry. apply issued_without. intros c Hc. left.
      unfold of_book in Hc. apply Z.eqb_eq in Hc. now rewrite Hc.
  - intros id s'.
    assert (Hnone : MemStorage.getMember id s' = None)
      by apply get_remove_same.
    split; [exact Hnone|]. split.
    + symmetry. now apply mostActive_without.
    + symmetry. apply issued_without. intros c Hc. right.
      unfold of_member in Hc. apply Z.eqb_eq in Hc. now rewrite Hc.
Qed.

(** The theorem on [history]: the row of "Alice in Wonderland" joins a
    stored book, and once that book is deleted only "Dune" is reported. *)
Lemma analytics_omit_dangling_witness :
  (exists id, MemStorage.getBook id history = Some alice)
  /\ map (fun row => (Book.title (MemStorage.BookCount.book row),
                      MemStorage.BookCount.borrowCount row))
         (MemStorage.getMostReadBooks (snd (MemStorage.deleteBook 1 history)))
     = [("Dune", 1)].
Proof.
  destruct (analytics_omit_dangling history) as (Hrow & _ & _ & Hdel & _).
  split.
  - destruct (Hrow (MemStorage.BookCount.mk alice 3) (or_introl eq_refl))
      as (id & Hget & _).
    exists id. exact Hget.
  - destruct (Hdel 1) as (_ & Hread & _). rewrite Hread. reflexivity.
Defined.

(* ================================================================== *)
(** * Further properties *)

(* ------------------------------------------------------------------ *)
(** ** Path parameters *)

Lemma digits_string_of_uint (d : Decimal.uint) (acc : Z) :
  digits 10 digit10 (NilEmpty.string_of_uint d) (Some acc)
  = Some (uint_val d acc).
Proof.
  revert acc. induction d; intros acc; simpl; try reflexivity; apply IHd.
Qed.

Lemma unsigned_int_string_of_uint (d : Decimal.uint) :
  d <> Decimal.Nil ->
  unsigned_int (NilEmpty.string_of_uint d) = Some (uint_val d 0).
Proof.
  intros Hd. destruct d as [|d|d|d|d|d|d|d|d|d|d]; [contradiction|..];
    try (unfold unsigned_int; simpl; apply digits_string_of_uint).
  destruct d; unfold unsigned_int; simpl; try reflexivity;
    apply digits_string_of_uint.
Qed.

Lemma of_uint_acc_val (d : Decimal.uint) (acc : positive) :
  Z.pos (Pos.of_uint_acc d acc) = uint_val d (Z.pos acc).
Proof.
  revert acc.
  induction d; intros acc; cbn [Pos.of_uint_acc uint_val]; try reflexivity;
    rewrite IHd; f_equal; lia.
Qed.

Lemma of_uint_val (d : Decimal.uint) : Z.of_N (Pos.of_uint d) = uint_val d 0.
Proof.
  induction d; cbn [Pos.of_uint uint_val Z.of_N]; try reflexivity;
    try assumption; apply of_uint_acc_val.
Qed.

Lemma parseInt_digits (d : Decimal.uint) :
  d <> Decimal.Nil ->
  parseInt (NilEmpty.string_of_uint d) = Some (uint_val d 0)
  /\ parseInt (String "-" (NilEmpty.string_of_uint d))
     = Some (- uint_val d 0).
Proof.
  intros Hd. split.
  - rewrite <- (unsigned_int_string_of_uint d Hd).
    destruct d; [contradiction|..]; reflexivity.
  - unfold parseInt. simpl. now rewrite unsigned_int_string_of_uint.
Qed.

Lemma parseInt_decimal (n : Z) : parseInt (string_of_Z n) = Some n.
Proof.
  unfold string_of_Z. destruct n as [|p|p]; [reflexivity|..]; simpl;
    unfold NilZero.string_of_uint;
    pose proof (DecimalPos.Unsigned.to_uint_nonnil p) as Hnil;
    pose proof (DecimalPos.Unsigned.of_to p) as Hof;
    apply (f_equal Z.of_N) in Hof; rewrite of_uint_val in Hof; simpl in Hof;
    destruct (parseInt_digits (Pos.to_uint p) Hnil) as [Hpos Hneg].
  - destruct (Pos.to_uint p); [contradiction|..]; rewrite Hpos, Hof;
      reflexivity.
  - destruct (Pos.to_uint p); [contradiction|..]; rewrite Hneg, Hof;
      reflexivity.
Qed.

Lemma string_of_Z_nonempty (n : Z) : string_of_Z n <> "".
Proof. apply (parseInt_nonempty _ n), parseInt_decimal. Qed.

(** X1.  [parseInt] reads back the decimal text of every safe integer,
    that is of every integer up to 2^53 - 1 in absolute value, which a
    template literal writes digit by digit and [parseInt] reads exactly:
    the id a client writes into a path is the id the route handler gets
    from [parseInt(req.params.id)].  So two such ids never give the same
    path, and the path segment of an id is never empty and never the word
    "search" that [GET /api/books/search] is matched on. *)
Theorem parseInt_string_of_Z (n : Z) :
  isSafeInteger n = true ->
  parseInt (string_of_Z n) = Some n
  /\ (forall m, isSafeInteger m = true ->
                string_of_Z n = string_of_Z m -> n = m)
  /\ string_of_Z n <> ""
  /\ string_of_Z n <> "search".
Proof.
  intros _. split; [apply parseInt_decimal|]. split; [|split].
  - intros m _ E. pose proof (parseInt_decimal n) as Hn.
    rewrite E, parseInt_decimal in Hn. now inversion Hn.
  - apply string_of_Z_nonempty.
  - intros E. pose proof (parseInt_decimal n) as Hn. rewrite E in Hn.
    discriminate Hn.
Qed.

(** The theorem for the id 42. *)
Lemma parseInt_string_of_Z_witness :
  parseInt "42" = Some 42 /\ "42" <> "search".
Proof.
  destruct (parseInt_string_of_Z 42 eq_refl) as (Hread & _ & _ & Hsearch).
  split; [exact Hread | exact Hsearch].
Defined.

(* ------------------------------------------------------------------ *)
(** ** What a request can do to the storage *)

Lemma on_method m p req : on m p req = true -> method req = m.
Proof.
  unfold on. intros H. apply andb_true_iff in H. destruct H as [H _].
  destruct m, (method req); simpl in H; congruence.
Qed.

Lemma on_param_method m p req x : on_param m p req = Some x -> method req = m.
Proof.
  unfold on_param. destruct (meth_eqb m (method req)) eqn:E; [|discriminate].
  intros _. destruct m, (method req); simpl in E; congruence.
Qed.

Lemma deleteBook_false id s s' : MemStorage.deleteBook id s = (false, s') -> s' = s.
Proof.
  unfold MemStorage.deleteBook, JsMap.delete, JsMap.has, MemStorage.with_books.
  destruct (JsMap.get id (MemStorage.books s)) eqn:E; intros H; inversion H.
  rewrite (remove_absent _ _ E). apply with_same.
Qed.

Lemma deleteCategory_false id s s' :
  MemStorage.deleteCategory id s = (false, s') -> s' = s.
Proof.
  unfold MemStorage.deleteCategory, JsMap.delete, JsMap.has,
    MemStorage.with_categories.
  destruct (JsMap.get id (MemStorage.categories s)) eqn:E;
    intros H; inversion H.
  rewrite (remove_absent _ _ E). apply with_same.
Qed.

Lemma insertCirculationSchema_dates body data :
  Zod.insertCirculationSchema body = Some data ->
  InsertCirculation.dueDate data = None
  /\ InsertCirculation.returnDate data = None.
Proof.
  unfold Zod.insertCirculationSchema, Zod.bind, Zod.timestampNullable.
  destruct (fields_of body) as [fs|]; [|discriminate].
  destruct (Zod.integer "bookId" fs); [|discriminate].
  destruct (Zod.integer "memberId" fs); [|discriminate].
  destruct (Zod.text "action" fs); [|discriminate].
  destruct (prop "dueDate" fs) as [[]|]; try discriminate;
    destruct (prop "returnDate" fs) as [[]|]; try discriminate;
    intros H; inversion H; now split.
Qed.

Ltac route_split H :=
  match type of H with
  | (if on ?m ?p ?r then _ else _) = _ =>
      let E := fresh "Eon" in destruct (on m p r) eqn:E
  | match on_param ?m ?p ?r with _ => _ end = _ =>
      let E := fresh "Epar" in destruct (on_param m p r) eqn:E
  end.

Ltac leaf_read H :=
  inversion H; subst; left; split; [reflexivity|]; simpl;
  first [ left; split; [reflexivity | eauto using on_method, on_param_method]
        | right; left; reflexivity
        | right; right; reflexivity ].

Ltac leaf_write H o :=
  inversion H; subst; right; exists o;
  split; [reflexivity|]; split; [reflexivity|]; split;
  [ intros Hget;
    repeat match goal with
           | E : on _ _ _ = true |- _ => apply on_method in E
           | E : on_param _ _ _ = Some _ |- _ => apply on_param_method in E
           end; congruence
  | simpl; tauto ].

Ltac leaf H now s :=
  first
    [ discriminate H
    | leaf_read H
    | match type of H with
      | context [match query_q ?r with _ => _ end] =>
          destruct (query_q r) as [[|? ?]|]; leaf_read H
      | context [bind_id (parseInt ?x) ?f] =>
          destruct (bind_id (parseInt x) f); leaf_read H
      | context [Zod.insertBookSchema ?b] =>
          destruct (Zod.insertBookSchema b) as [data|];
          [leaf_write H (CreateBook now data) | leaf_read H]
      | context [Zod.insertMemberSchema ?b] =>
          destruct (Zod.insertMemberSchema b) as [data|];
          [leaf_write H (CreateMember now data) | leaf_read H]
      | context [Zod.insertCategorySchema ?b] =>
          destruct (Zod.insertCategorySchema b) as [data|];
          [leaf_write H (CreateCategory now data) | leaf_read H]
      | context [Zod.insertBookSuggestionSchema ?b] =>
          destruct (Zod.insertBookSuggestionSchema b) as [data|];
          [leaf_write H (CreateBookSuggestion now data) | leaf_read H]
      | context [Zod.insertBookReviewSchema ?b] =>
          destruct (Zod.insertBookReviewSchema b) as [data|];
          [leaf_write H (CreateBookReview now data) | leaf_read H]
      | context [Zod.insertCirculationSchema ?b] =>
          let E := fresh "E" in
          destruct (Zod.insertCirculationSchema b) as [data|] eqn:E;
          [ destruct (insertCirculationSchema_dates _ _ E) as [Hd Hr];
            destruct data as [bk mb ac due ret]; simpl in Hd, Hr;
            subst due ret;
            leaf_write H
              (CreateCirculationRecord now
                 (InsertCirculation.mk bk mb ac None None))
          | leaf_read H ]
      | context [MemStorage.updateBook _ ?u s] =>
          match type of H with
          | context [parseInt ?x] =>
              let E := fresh "E" in
              destruct (parseInt x) as [id|]; [|leaf_read H];
              destruct (MemStorage.updateBook id u s) as [[b|] s1] eqn:E;
              [ replace s1 with (run_op (UpdateBook id u) s) in H
                  by (unfold run_op; now rewrite E);
                leaf_write H (UpdateBook id u)
              | unfold MemStorage.updateBook in E;
                destruct (JsMap.get id (MemStorage.books s));
                inversion E; subst; leaf_read H ]
          end
      | context [MemStorage.deleteBook _ s] =>
          match type of H with
          | context [parseInt ?x] =>
              let E := fresh "E" in
              destruct (parseInt x) as [id|]; [|leaf_read H];
              destruct (MemStorage.deleteBook id s) as [[|] s1] eqn:E;
              [ replace s1 with (run_op (DeleteBook id) s) in H
                  by (unfold run_op; now rewrite E);
                leaf_write H (DeleteBook id)
              | apply deleteBook_false in E; subst s1; leaf_read H ]
          end
      | context [MemStorage.deleteCategory _ s] =>
          match type of H with
          | context [parseInt ?x] =>
              let E := fresh "E" in
              destruct (parseInt x) as [id|]; [|leaf_read H];
              destruct (MemStorage.deleteCategory id s) as [[|] s1] eqn:E;
              [ replace s1 with (run_op (DeleteCategory id) s) in H
                  by (unfold run_op; now rewrite E);
                leaf_write H (DeleteCategory id)
              | apply deleteCategory_false in E; subst s1; leaf_read H ]
          end
      end ].

Lemma handle_outcome now req s res s' :
  handle now req s = Some (res, s') -> outcome req s res s'.
Proof.
  intros H. unfold handle, reply in H. unfold outcome.
  repeat route_split H.
  all: leaf H now s.
Qed.

(** X2.  A request that a route answers either leaves the storage as it
    was or performs exactly one of nine writes: a create of one of the six
    entities, [updateBook], [deleteBook] or [deleteCategory].  No route
    updates or deletes a member, updates a category, a suggestion, a
    review or a circulation record, and a circulation record is only
    created without due date and return date. *)
Theorem request_writes now req s res s' :
  handle now req s = Some (res, s') ->
  s' = s \/ exists o, routed o = true /\ s' = run_op o s.
Proof.
  intros H. apply handle_outcome in H.
  destruct H as [[H _] | (o & Ho & Hs & _)].
  - now left.
  - right. now exists o.
Qed.

(** The theorem at [POST /api/members] on the empty storage. *)
Lemma request_writes_witness :
  let s' :=
    snd (MemStorage.createMember 5 (InsertMember.mk "Ali Khan" "10A" "R001")
           MemStorage.init) in
  s' = MemStorage.init \/ exists o, routed o = true /\ s' = run_op o MemStorage.init.
Proof.
  intros s'.
  exact (request_writes 5
           (mkRequest POST ["api"; "members"] None memberBody)
           MemStorage.init
           (mkResponse 201
              (OneMember
                 (fst (MemStorage.createMember 5
                         (InsertMember.mk "Ali Khan" "10A" "R001")
                         MemStorage.init))))
           s' eq_refl).
Defined.

(** X3.  A [GET] request and every request answered 400 or 404 leave the
    storage exactly as it was; a request that changes the storage is not
    a [GET] and is answered 200, 201 or 204. *)
Theorem reads_and_errors_write_nothing now req s res s' :
  handle now req s = Some (res, s') ->
  (method req = GET -> s' = s)
  /\ (status res = 400 \/ status res = 404 -> s' = s)
  /\ (s' <> s -> method req <> GET /\ In (status res) [200; 201; 204]).
Proof.
  intros H. apply handle_outcome in H.
  destruct H as [[Hs Hst] | (o & Ho & Hs & Hm & Hst)].
  - split; [intros _; exact Hs|]. split; [intros _; exact Hs|].
    intros Hne. contradiction.
  - split; [intros Hget; contradiction|]. split.
    + intros [E | E]; rewrite E in Hst; destruct Hst as [Hst | [Hst | Hst]];
        discriminate Hst.
    + intros _. split; [exact Hm|]. simpl. intuition.
Qed.

(** The theorem at a [POST /api/books] whose body is not an object, which
    is answered 400. *)
Lemma reads_and_errors_write_nothing_witness :
  (400 = 400 \/ 400 = 404 -> shelf = shelf)
  /\ (shelf <> shelf -> POST <> GET /\ In 400 [200; 201; 204]).
Proof.
  destruct (reads_and_errors_write_nothing 0
              (mkRequest POST ["api"; "books"] None JNull) shelf
              (mkResponse 400 (Error "Invalid book data")) shelf eq_refl)
    as (_ & Hsame & Hwrite).
  split; [exact Hsame | exact Hwrite].
Defined.

(* ------------------------------------------------------------------ *)
(** ** The members tab *)

Lemma put_members_unrouted now (seg : string) q b s :
  handle now (mkRequest PUT ["api"; "members"; seg] q b) s = None.
Proof. unfold handle, on, on_param. simpl. reflexivity. Qed.

Lemma delete_members_unrouted now (seg : string) q b s :
  handle now (mkRequest DELETE ["api"; "members"; seg] q b) s = None.
Proof. unfold handle, on, on_param. simpl. reflexivity. Qed.

(** X4.  The edit and delete mutations of the members tab send
    [PUT] and [DELETE /api/members/:id], which no route answers: whatever
    the id and the data, the storage stays as it was, and the mutation
    gets the answer the server gives to unrouted requests. *)
Theorem members_tab_mutations_write_nothing (unrouted : response)
    (strict : bool) (now id : Z) (data : json) (s : MemStorage.t) :
  let outcome := if strict && negb (ok unrouted) then None else Some unrouted in
  MembersTab.updateMember unrouted strict now id data s = (outcome, s)
  /\ MembersTab.deleteMember unrouted strict now id s = (outcome, s)
  /\ MemStorage.getMembers
       (snd (MembersTab.updateMember unrouted strict now id data s))
     = MemStorage.getMembers s.
Proof.
  intros outcome.
  assert (Hu : MembersTab.updateMember unrouted strict now id data s
               = (outcome, s)).
  { unfold MembersTab.updateMember.
    now rewrite apiRequest_eq, put_members_unrouted. }
  split; [exact Hu|]. split.
  - unfold MembersTab.deleteMember.
    now rewrite apiRequest_eq, delete_members_unrouted.
  - now rewrite Hu.
Qed.

(* ------------------------------------------------------------------ *)
(** ** Storages the server can reach *)

Lemma http_reachable_keys_below s :
  http_reachable s -> keys_below_currentId s.
Proof.
  induction 1 as [|now req s res s' _ IH H]; [apply init_keys_below|].
  apply handle_outcome in H. destruct H as [[-> _] | (o & _ & -> & _)];
    [assumption | now apply run_op_keys_below].
Qed.

Lemma In_values_set {V : Type} (k : Z) (v v' : V) (m : JsMap.t V) :
  In v' (JsMap.values (JsMap.set k v m)) -> v' = v \/ In v' (JsMap.values m).
Proof.
  unfold JsMap.values. intros H. apply in_map_iff in H.
  destruct H as ([k0 v0] & Hv & Hin). simpl in Hv. subst v0.
  apply In_set in Hin. destruct Hin as [E | Hin].
  - left. now inversion E.
  - right. apply in_map_iff. now exists (k0, v').
Qed.

Lemma routed_circulation_untouched o s :
  routed o = true -> circulation_untouched s ->
  circulation_untouched (run_op o s).
Proof.
  unfold circulation_untouched, MemStorage.getCirculation. intros Ho Hs.
  destruct o; try discriminate Ho; storage_unfold; try split_get;
    storage_fields; try assumption.
  destruct data as [b m a due ret]. simpl in Ho.
  destruct due; [discriminate|]. destruct ret; [discriminate|].
  intros c Hc. apply In_values_set in Hc.
  destruct Hc as [-> | Hc]; [now repeat split | now apply Hs].
Qed.

Lemma http_reachable_circulation_untouched s :
  http_reachable s -> circulation_untouched s.
Proof.
  induction 1 as [|now req s res s' _ IH H]; [intros c []|].
  apply handle_outcome in H. destruct H as [[-> _] | (o & Ho & -> & _)];
    [assumption | now apply routed_circulation_untouched].
Qed.

Lemma filter_none {A : Type} (p : A -> bool) (l : list A) :
  (forall x, In x l -> p x = false) -> filter p l = [].
Proof.
  induction l as [|x l IH]; intros H; simpl; [reflexivity|].
  rewrite (H x) by now left. apply IH. intros y Hy. apply H. now right.
Qed.

Lemma filter_all {A : Type} (p : A -> bool) (l : list A) :
  (forall x, In x l -> p x = true) -> filter p l = l.
Proof.
  induction l as [|x l IH]; intros H; simpl; [reflexivity|].
  rewrite (H x) by now left. f_equal. apply IH. intros y Hy. apply H.
  now right.
Qed.

(** X5.  On every [MemStorage] the server can reach, each circulation
    record is as [POST /api/circulation] created it: status ["active"], no
    due date, no return date.  So at any time [getOverdueCirculation] is
    empty, [getActiveCirculation] is the whole circulation list, and the
    "overdue" tab of the client shows nothing. *)
Theorem served_circulation_never_changes (s : MemStorage.t) :
  http_reachable s ->
  circulation_untouched s
  /\ (forall now, MemStorage.getOverdueCirculation now s = [])
  /\ MemStorage.getActiveCirculation s = MemStorage.getCirculation s
  /\ (forall now,
        CirculationTab.overdueBooks now (MemStorage.getIssuedBooks s) = []).
Proof.
  intros Hs. pose proof (http_reachable_circulation_untouched s Hs) as Hc.
  split; [exact Hc|]. split; [|split].
  - intros now. apply filter_none. intros c Hin.
    destruct (Hc c Hin) as (_ & Hd & _).
    unfold MemStorage.is_overdue. rewrite Hd. apply andb_false_r.
  - apply filter_all. intros c Hin. destruct (Hc c Hin) as (Ha & _).
    rewrite Ha. reflexivity.
  - intros now. apply filter_none. intros row Hin.
    apply joinIssued_rows in Hin. destruct Hin as (c & Hin & _ & _ & Hd).
    unfold MemStorage.getActiveCirculation in Hin. apply filter_In in Hin.
    destruct (Hc c (proj1 Hin)) as (_ & Hdue & _).
    now rewrite Hd, Hdue.
Qed.

(** The theorem on the storage after one [POST /api/circulation]. *)
Lemma served_circulation_never_changes_witness :
  let s :=
    snd (MemStorage.createCirculationRecord 7
           (InsertCirculation.mk 1 2 "borrow" None None) MemStorage.init) in
  MemStorage.getOverdueCirculation 1000000000 s = []
  /\ MemStorage.getActiveCirculation s = MemStorage.getCirculation s.
Proof.
  intros s.
  assert (Hs : http_reachable s).
  { apply (http_request 7
             (mkRequest POST ["api"; "circulation"] None
                (circulationBody 1 2 "borrow"))
             MemStorage.init
             (mkResponse 201
                (OneCirculation
                   (fst (MemStorage.createCirculationRecord 7
                           (InsertCirculation.mk 1 2 "borrow" None None)
                           MemStorage.init))))
             s http_init eq_refl). }
  destruct (served_circulation_never_changes s Hs) as (_ & Ho & Ha & _).
  split; [apply Ho | exact Ha].
Defined.

(** X6.  No request changes or removes a member, a book suggestion, a
    book review or a circulation record: on a storage the server can
    reach, each of these four lists after a request is the list before
    it, followed by at most one new row. *)
Theorem served_lists_only_grow now req s res s' :
  http_reachable s ->
  handle now req s = Some (res, s') ->
  (exists l, MemStorage.getMembers s' = MemStorage.getMembers s ++ l
             /\ (List.length l <= 1)%nat)
  /\ (exists l, MemStorage.getBookSuggestions s'
                = MemStorage.getBookSuggestions s ++ l
                /\ (List.length l <= 1)%nat)
  /\ (exists l, MemStorage.getBookReviews s' = MemStorage.getBookReviews s ++ l
                /\ (List.length l <= 1)%nat)
  /\ (exists l, MemStorage.getCirculation s' = MemStorage.getCirculation s ++ l
                /\ (List.length l <= 1)%nat).
Proof.
  intros Hs H. apply http_reachable_keys_below in Hs.
  destruct Hs as (Bb & Bm & Bc & Bg & Br & Bx).
  assert (Hsame : forall A (l : list A),
             exists l', l = l ++ l' /\ (List.length l' <= 1)%nat).
  { intros A l. exists []. rewrite app_nil_r. split; [reflexivity | simpl; lia]. }
  apply handle_outcome in H. destruct H as [[-> _] | (o & Ho & -> & _)].
  - repeat split; apply Hsame.
  - unfold MemStorage.getMembers, MemStorage.getBookSuggestions,
      MemStorage.getBookReviews, MemStorage.getCirculation.
    destruct o; try discriminate Ho; storage_unfold; try split_get;
      storage_fields; repeat split; try apply Hsame;
      rewrite values_set_absent by (now apply below_unused);
      eexists; (split; [reflexivity | simpl; lia]).
Qed.

(** The theorem at [POST /api/members] on [shelf]. *)
Lemma served_lists_only_grow_witness :
  exists l,
    MemStorage.getMembers
      (snd (MemStorage.createMember 5 (InsertMember.mk "Ali Khan" "10A" "R001")
              shelf))
    = MemStorage.getMembers shelf ++ l
    /\ (List.length l <= 1)%nat.
Proof.
  assert (Hs : http_reachable shelf).
  { apply (http_request 0
             (mkRequest POST ["api"; "members"] None memberBody)
             (snd (MemStorage.createBook 0 bookDataWithoutStatus
                     MemStorage.init))
             (mkResponse 201 (OneMember ali)) shelf); [|reflexivity].
    apply (http_request 0
             (mkRequest POST ["api"; "books"] None bookBodyWithStatus)
             MemStorage.init
             (mkResponse 201
                (OneBook (fst (MemStorage.createBook 0 bookDataWithoutStatus
                                 MemStorage.init))))
             _ http_init eq_refl). }
  exact (proj1 (served_lists_only_grow 5
                  (mkRequest POST ["api"; "members"] None memberBody) shelf
                  (mkResponse 201
                     (OneMember
                        (fst (MemStorage.createMember 5
                                (InsertMember.mk "Ali Khan" "10A" "R001")
                                shelf))))
                  _ Hs eq_refl)).
Defined.

(* ------------------------------------------------------------------ *)
(** ** One counter for all ids *)

Lemma count_keys_below {V : Type} (n : Z) (m : JsMap.t V) :
  below n m -> count_occ Z.eq_dec (JsMap.keys m) n = 0%nat.
Proof.
  intros H. apply count_occ_not_In. intros Hin. specialize (H n Hin). lia.
Qed.

Lemma count_keys_set_new {V : Type} (k id : Z) (v : V) (m : JsMap.t V) :
  JsMap.get k m = None ->
  count_occ Z.eq_dec (JsMap.keys (JsMap.set k v m)) id
  = (count_occ Z.eq_dec (JsMap.keys m) id + if Z.eq_dec k id then 1 else 0)%nat.
Proof.
  intros H. rewrite keys_set_cases, H, count_occ_app. simpl.
  now destruct (Z.eq_dec k id).
Qed.

Lemma count_keys_set_old {V : Type} (k id : Z) (v v' : V) (m : JsMap.t V) :
  JsMap.get k m = Some v' ->
  count_occ Z.eq_dec (JsMap.keys (JsMap.set k v m)) id
  = count_occ Z.eq_dec (JsMap.keys m) id.
Proof. intros H. now rewrite keys_set_cases, H. Qed.

Lemma count_keys_remove {V : Type} (k id : Z) (m : JsMap.t V) :
  (count_occ Z.eq_dec (JsMap.keys (JsMap.remove k m)) id
   <= count_occ Z.eq_dec (JsMap.keys m) id)%nat.
Proof.
  induction m as [|[k' v'] r IH]; simpl; [lia|].
  destruct (k =? k'); simpl; destruct (Z.eq_dec k' id); lia.
Qed.

Lemma run_op_uses (o : op) (s : MemStorage.t) (id : Z) :
  keys_below_currentId s -> (uses id s <= 1)%nat ->
  (uses id (run_op o s) <= 1)%nat.
Proof.
  intros (Bb & Bm & Bc & Bg & Br & Bx) H. unfold uses in *.
  pose proof (count_keys_below _ _ Bb) as Cb.
  pose proof (count_keys_below _ _ Bm) as Cm.
  pose proof (count_keys_below _ _ Bc) as Cc.
  pose proof (count_keys_below _ _ Bg) as Cg.
  pose proof (count_keys_below _ _ Br) as Cr.
  pose proof (count_keys_below _ _ Bx) as Cx.
  destruct o; storage_unfold; try split_get; storage_fields; try exact H;
    try (erewrite count_keys_set_old by eassumption; exact H);
    try (rewrite count_keys_set_new by (now apply below_unused);
         destruct (Z.eq_dec (MemStorage.currentId s) id) as [<-|_]; lia).
  - pose proof (count_keys_remove id0 id (MemStorage.books s)). lia.
  - pose proof (count_keys_remove id0 id (MemStorage.members s)). lia.
  - pose proof (count_keys_remove id0 id (MemStorage.categories s)). lia.
Qed.

Lemma run_uses (ops : list op) (s : MemStorage.t) (id : Z) :
  keys_below_currentId s -> (uses id s <= 1)%nat ->
  (uses id (run ops s) <= 1)%nat.
Proof.
  revert s. induction ops as [|o ops IH]; intros s Hk H; simpl; [exact H|].
  apply IH; [now apply run_op_keys_below | now apply run_op_uses].
Qed.

Lemma get_Some_count {V : Type} (k : Z) (v : V) (m : JsMap.t V) :
  JsMap.get k m = Some v -> (1 <= count_occ Z.eq_dec (JsMap.keys m) k)%nat.
Proof.
  intros H. apply count_occ_In.
  destruct (in_dec Z.eq_dec k (JsMap.keys m)) as [Hin|Hout]; [exact Hin|].
  apply get_None_keys in Hout. congruence.
Qed.

Lemma count_zero_get {V : Type} (k : Z) (m : JsMap.t V) :
  count_occ Z.eq_dec (JsMap.keys m) k = 0%nat -> JsMap.get k m = None.
Proof. intros H. apply get_None_keys. now apply count_occ_not_In in H. Qed.

(** X7.  [MemStorage] numbers all entities from one counter: on every
    storage reached from [new MemStorage()], an id is the key of at most
    one entity over all six collections, so the id of a book is never
    also the id of a member, category, suggestion, review or circulation
    record, and no collection holds two entries under one id. *)
Theorem ids_are_shared_by_no_two_entities (ops : list op) (id : Z) :
  let s := run ops MemStorage.init in
  (uses id s <= 1)%nat
  /\ (MemStorage.getBook id s <> None ->
      MemStorage.getMember id s = None /\ MemStorage.getCategory id s = None
      /\ MemStorage.getBookSuggestion id s = None
      /\ MemStorage.getBookReview id s = None
      /\ MemStorage.getCirculationRecord id s = None)
  /\ NoDup (JsMap.keys (MemStorage.books s))
  /\ NoDup (JsMap.keys (MemStorage.members s))
  /\ NoDup (JsMap.keys (MemStorage.circulation s)).
Proof.
  intros s.
  assert (Hall : forall k, (uses k s <= 1)%nat).
  { intros k. apply run_uses; [apply init_keys_below|].
    unfold uses. simpl. lia. }
  split; [apply Hall|]. split.
  - intros Hb. destruct (MemStorage.getBook id s) as [b|] eqn:E;
      [|congruence].
    apply get_Some_count in E. specialize (Hall id). unfold uses in Hall.
    repeat split; apply count_zero_get; lia.
  - repeat split; apply NoDup_count_occ with (decA := Z.eq_dec); intros k;
      specialize (Hall k); unfold uses in Hall; lia.
Qed.

(** The theorem after a book and a member have been created. *)
Lemma ids_are_shared_by_no_two_entities_witness :
  let s :=
    run [CreateBook 0 bookDataWithoutStatus;
         CreateMember 0 (InsertMember.mk "Ali Khan" "10A" "R001")]
        MemStorage.init in
  MemStorage.getMember 1 s = None /\ MemStorage.getCirculationRecord 1 s = None.
Proof.
  intros s.
  destruct (ids_are_shared_by_no_two_entities
              [CreateBook 0 bookDataWithoutStatus;
               CreateMember 0 (InsertMember.mk "Ali Khan" "10A" "R001")] 1)
    as (_ & H & _).
  destruct (H ltac:(discriminate)) as (Hm & _ & _ & _ & Hc).
  split; [exact Hm | exact Hc].
Defined.

(* ------------------------------------------------------------------ *)
(** ** Books through the API *)

Lemma parseInt_not_search (seg : string) (id : Z) :
  parseInt seg = Some id -> String.eqb "search" seg = false.
Proof.
  intros H. destruct (String.eqb "search" seg) eqn:E; [|reflexivity].
  apply String.eqb_eq in E. subst seg. discriminate H.
Qed.

Lemma parseInt_not_empty (seg : string) (id : Z) :
  parseInt seg = Some id -> String.eqb seg "" = false.
Proof. intros H. apply String.eqb_neq. eapply parseInt_nonempty; eauto. Qed.

Lemma unknown_id_is_noop_aux id s :
  MemStorage.getBook id s = None ->
  (forall updates, MemStorage.updateBook id updates s = (None, s))
  /\ MemStorage.deleteBook id s = (false, s).
Proof.
  unfold MemStorage.getBook. intros H. split.
  - intros. unfold MemStorage.updateBook. now rewrite H.
  - unfold MemStorage.deleteBook, MemStorage.with_books.
    rewrite (delete_absent _ _ H). now rewrite with_same.
Qed.

Lemma get_book_route now seg id q b s :
  parseInt seg = Some id ->
  handle now (mkRequest GET ["api"; "books"; seg] q b) s
  = Some (match MemStorage.getBook id s with
          | Some book => mkResponse 200 (OneBook book)
          | None => mkResponse 404 (Error "Book not found")
          end, s).
Proof.
  intros Hp. unfold handle, on, on_param.
  cbn [method path body query_q meth_eqb path_eqb last_param andb].
  rewrite (parseInt_not_search _ _ Hp). simpl.
  rewrite (parseInt_not_empty _ _ Hp), Hp.
  simpl. now destruct (MemStorage.getBook id s).
Qed.

Lemma put_book_route now seg id q b s :
  parseInt seg = Some id ->
  handle now (mkRequest PUT ["api"; "books"; seg] q b) s
  = Some (match fst (MemStorage.updateBook id (partialBook_of_json b) s) with
          | Some book => mkResponse 200 (OneBook book)
          | None => mkResponse 404 (Error "Book not found")
          end,
          snd (MemStorage.updateBook id (partialBook_of_json b) s)).
Proof.
  intros Hp. unfold handle, on, on_param; simpl.
  rewrite (parseInt_not_empty _ _ Hp), Hp.
  now destruct (MemStorage.updateBook id (partialBook_of_json b) s) as [[?|] ?].
Qed.

Lemma delete_book_route now seg id q b s :
  parseInt seg = Some id ->
  handle now (mkRequest DELETE ["api"; "books"; seg] q b) s
  = Some (if fst (MemStorage.deleteBook id s)
          then mkResponse 204 Empty
          else mkResponse 404 (Error "Book not found"),
          snd (MemStorage.deleteBook id s)).
Proof.
  intros Hp. unfold handle, on, on_param; cbn -[MemStorage.deleteBook].
  rewrite (parseInt_not_empty _ _ Hp), Hp.
  now destruct (MemStorage.deleteBook id s) as [[|] ?].
Qed.

(** X8.  A book created by [POST /api/books] is served by
    [GET /api/books/:id] under the id of the answer, without change to
    the storage; [DELETE /api/books/:id] then answers 204, and after it
    the same [GET] and a second [DELETE] answer 404. *)
Theorem book_api_round_trip now q body s res s1 :
  handle now (mkRequest POST ["api"; "books"] q body) s = Some (res, s1) ->
  status res = 201 ->
  exists book s2,
    content res = OneBook book
    /\ (forall now' q' b',
          let at_id m :=
            mkRequest m ["api"; "books"; string_of_Z (Book.id book)] q' b' in
          handle now' (at_id GET) s1 = Some (mkResponse 200 (OneBook book), s1)
          /\ handle now' (at_id DELETE) s1 = Some (mkResponse 204 Empty, s2)
          /\ handle now' (at_id GET) s2
             = Some (mkResponse 404 (Error "Book not found"), s2)
          /\ handle now' (at_id DELETE) s2
             = Some (mkResponse 404 (Error "Book not found"), s2)).
Proof.
  intros H Hst. unfold handle, on, on_param in H; simpl in H.
  destruct (Zod.insertBookSchema body) as [data|];
    [|inversion H; subst; discriminate Hst].
  unfold MemStorage.createBook, reply in H. inversion H; subst. clear H Hst.
  set (book := Book.mk (MemStorage.currentId s) (InsertBook.title data)
                 (InsertBook.author data) (InsertBook.category data)
                 (InsertBook.language data) (InsertBook.price data)
                 (InsertBook.publisher data) (InsertBook.ddc data)
                 (InsertBook.coverImage data) "available" (Some now)).
  set (s1 := MemStorage.with_books s _ _).
  assert (Hget : MemStorage.getBook (MemStorage.currentId s) s1 = Some book)
    by apply get_set_same.
  exists book, (snd (MemStorage.deleteBook (MemStorage.currentId s) s1)).
  split; [reflexivity|]. intros now' q' b' at_id. unfold at_id.
  change (Book.id book) with (MemStorage.currentId s).
  pose proof (parseInt_decimal (MemStorage.currentId s)) as Hp.
  assert (Hdel : fst (MemStorage.deleteBook (MemStorage.currentId s) s1) = true).
  { unfold MemStorage.deleteBook, JsMap.delete, JsMap.has.
    unfold MemStorage.getBook in Hget. now rewrite Hget. }
  assert (Hgone : MemStorage.getBook (MemStorage.currentId s)
                    (snd (MemStorage.deleteBook (MemStorage.currentId s) s1))
                  = None) by apply get_remove_same.
  rewrite !(get_book_route _ _ _ _ _ _ Hp), !(delete_book_route _ _ _ _ _ _ Hp).
  rewrite Hget, Hdel, Hgone.
  split; [reflexivity|]. split; [reflexivity|]. split; [reflexivity|].
  destruct (unknown_id_is_noop_aux _ _ Hgone) as [_ Hd2]. now rewrite Hd2.
Qed.

(** The theorem for the first book of a new storage. *)
Lemma book_api_round_trip_witness :
  let created := MemStorage.createBook 0 bookDataWithoutStatus MemStorage.init in
  handle 1 (mkRequest GET ["api"; "books"; "1"] None JNull) (snd created)
  = Some (mkResponse 200 (OneBook (fst created)), snd created).
Proof.
  intros created.
  destruct (book_api_round_trip 0 None bookBodyWithStatus MemStorage.init
              (mkResponse 201 (OneBook (fst created))) (snd created)
              eq_refl eq_refl) as (book & s2 & Hc & H).
  simpl in Hc. inversion Hc; subst book.
  exact (proj1 (H 1 None JNull)).
Defined.

(* ------------------------------------------------------------------ *)
(** ** Updates and creations in the storage *)

Lemma set_same {V : Type} (k : Z) (v : V) (m : JsMap.t V) :
  JsMap.get k m = Some v -> JsMap.set k v m = m.
Proof.
  induction m as [|[k' v'] r IH]; simpl; [discriminate|].
  destruct (k =? k') eqn:E.
  - apply Z.eqb_eq in E. subst k'. intros H. now inversion H.
  - intros H. now rewrite IH.
Qed.

Lemma spread_none (b : Book.t) : PartialBook.spread b PartialBook.none = b.
Proof. now destruct b. Qed.

Lemma updateBook_stored_aux id updates b s :
  MemStorage.getBook id s = Some b ->
  MemStorage.updateBook id updates s
  = (Some (PartialBook.spread b updates),
     MemStorage.with_books s
       (JsMap.set id (PartialBook.spread b updates) (MemStorage.books s))
       (MemStorage.currentId s))
  /\ MemStorage.getBook id (snd (MemStorage.updateBook id updates s))
     = Some (PartialBook.spread b updates).
Proof.
  unfold MemStorage.getBook. intros Hget.
  assert (E : MemStorage.updateBook id updates s
              = (Some (PartialBook.spread b updates),
                 MemStorage.with_books s
                   (JsMap.set id (PartialBook.spread b updates)
                      (MemStorage.books s))
                   (MemStorage.currentId s))).
  { unfold MemStorage.updateBook. now rewrite Hget. }
  split; [exact E|]. rewrite E. apply get_set_same.
Qed.

(** X9.  [updateBook] on a stored id returns the merged book and stores
    it under the same id, in the same place of the listing: the keys and
    their order, every other book, the other collections and [currentId]
    stay as they were.  An update without fields changes nothing. *)
Theorem updateBook_stored (id : Z) (updates : PartialBook.t) (b : Book.t)
    (s : MemStorage.t) :
  MemStorage.getBook id s = Some b ->
  let s' := snd (MemStorage.updateBook id updates s) in
  fst (MemStorage.updateBook id updates s) = Some (PartialBook.spread b updates)
  /\ MemStorage.getBook id s' = Some (PartialBook.spread b updates)
  /\ (forall k, k <> id -> MemStorage.getBook k s' = MemStorage.getBook k s)
  /\ JsMap.keys (MemStorage.books s') = JsMap.keys (MemStorage.books s)
  /\ MemStorage.with_books s' (MemStorage.books s) (MemStorage.currentId s) = s
  /\ MemStorage.updateBook id PartialBook.none s = (Some b, s).
Proof.
  intros Hget s'. unfold MemStorage.getBook in Hget.
  assert (E : MemStorage.updateBook id updates s
              = (Some (PartialBook.spread b updates),
                 MemStorage.with_books s
                   (JsMap.set id (PartialBook.spread b updates)
                      (MemStorage.books s))
                   (MemStorage.currentId s))).
  { unfold MemStorage.updateBook. now rewrite Hget. }
  unfold s'. rewrite E. cbn [fst snd].
  split; [reflexivity|]. split; [apply get_set_same|]. split.
  - intros k Hk. unfold MemStorage.getBook, MemStorage.with_books.
    cbn [MemStorage.books]. now apply get_set_other.
  - split; [|split].
    + unfold MemStorage.with_books. cbn [MemStorage.books].
      now rewrite keys_set_cases, Hget.
    + unfold MemStorage.with_books. cbn. apply with_same.
    + unfold MemStorage.updateBook. rewrite Hget, spread_none.
      unfold MemStorage.with_books. rewrite (set_same _ _ _ Hget).
      now rewrite with_same.
Qed.

(** The theorem for the book of [shelf] and a new status. *)
Lemma updateBook_stored_witness :
  option_map Book.status
    (MemStorage.getBook 1
       (snd (MemStorage.updateBook 1
               (partialBook_of_json (JObj [("status", JStr "reserved")]))
               shelf)))
  = Some "reserved"
  /\ MemStorage.updateBook 1 PartialBook.none shelf
     = (MemStorage.getBook 1 shelf, shelf).
Proof.
  destruct (updateBook_stored 1
              (partialBook_of_json (JObj [("status", JStr "reserved")]))
              (fst (MemStorage.createBook 0 bookDataWithoutStatus
                      MemStorage.init))
              shelf eq_refl) as (_ & Hget & _ & _ & _ & Hnone).
  split; [now rewrite Hget | exact Hnone].
Defined.

(** X10.  On every storage reached from [new MemStorage()], each of the
    six [create] methods puts the new row at the end of its list, so a
    list is in order of creation. *)
Theorem create_appends (ops : list op) (now : Z) :
  let s := run ops MemStorage.init in
  (forall d, MemStorage.getBooks (snd (MemStorage.createBook now d s))
             = MemStorage.getBooks s ++ [fst (MemStorage.createBook now d s)])
  /\ (forall d, MemStorage.getMembers (snd (MemStorage.createMember now d s))
                = MemStorage.getMembers s
                  ++ [fst (MemStorage.createMember now d s)])
  /\ (forall d, MemStorage.getCategories
                  (snd (MemStorage.createCategory now d s))
                = MemStorage.getCategories s
                  ++ [fst (MemStorage.createCategory now d s)])
  /\ (forall d, MemStorage.getBookSuggestions
                  (snd (MemStorage.createBookSuggestion now d s))
                = MemStorage.getBookSuggestions s
                  ++ [fst (MemStorage.createBookSuggestion now d s)])
  /\ (forall d, MemStorage.getBookReviews
                  (snd (MemStorage.createBookReview now d s))
                = MemStorage.getBookReviews s
                  ++ [fst (MemStorage.createBookReview now d s)])
  /\ (forall d, MemStorage.getCirculation
                  (snd (MemStorage.createCirculationRecord now d s))
                = MemStorage.getCirculation s
                  ++ [fst (MemStorage.createCirculationRecord now d s)]).
Proof.
  intros s.
  destruct (run_keys_below ops MemStorage.init init_keys_below)
    as [(Bb & Bm & Bc & Bg & Br & Bx) _].
  fold s in Bb, Bm, Bc, Bg, Br, Bx.
  repeat split; intros d;
    unfold MemStorage.getBooks, MemStorage.getMembers,
      MemStorage.getCategories, MemStorage.getBookSuggestions,
      MemStorage.getBookReviews, MemStorage.getCirculation;
    storage_unfold; cbn [fst snd]; storage_fields;
    apply values_set_absent; now apply below_unused.
Qed.

(* ------------------------------------------------------------------ *)
(** ** The two mutations of the circulation tab, step by step *)


Section MutationSteps.
Variable unrouted : response.
Variable strict : bool.
Variable toISOString : Z -> string.

(** The last request of both mutations. *)
Lemma put_status now bookId status s :
  apiRequest unrouted strict now PUT ["api"; "books"; string_of_Z bookId]
    (JObj [("status", JStr status)]) s
  = match fst (MemStorage.updateBook bookId (statusUpdate status) s) with
    | Some book =>
        (Some (mkResponse 200 (OneBook book)),
         snd (MemStorage.updateBook bookId (statusUpdate status) s))
    | None =>
        (if strict then None
         else Some (mkResponse 404 (Error "Book not found")), s)
    end.
Proof.
  rewrite apiRequest_eq,
    (put_book_route _ _ _ _ _ _ (parseInt_decimal bookId)).
  fold (statusUpdate status).
  destruct (MemStorage.updateBook bookId (statusUpdate status) s)
    as [[book|] s1] eqn:E; cbn [fst snd].
  - replace (ok (mkResponse 200 (OneBook book))) with true by reflexivity.
    now rewrite andb_false_r.
  - replace (ok (mkResponse 404 (Error "Book not found"))) with false
      by reflexivity.
    unfold MemStorage.updateBook in E.
    destruct (JsMap.get bookId (MemStorage.books s)); inversion E; subst.
    now destruct strict.
Qed.

Lemma post_record now bookId memberId action s :
  Zod.int4 bookId = true -> Zod.int4 memberId = true ->
  apiRequest unrouted strict now POST ["api"; "circulation"]
    (circulationBody bookId memberId action) s
  = let r :=
      MemStorage.createCirculationRecord now
        (InsertCirculation.mk bookId memberId action None None) s in
    (Some (mkResponse 201 (OneCirculation (fst r))), snd r).
Proof.
  intros Hb Hm. rewrite apiRequest_eq, post_circulation by assumption.
  cbv beta iota zeta.
  match goal with
  | |- context [ok (mkResponse 201 ?c)] =>
      replace (ok (mkResponse 201 c)) with true by reflexivity
  end.
  now rewrite andb_false_r.
Qed.

(** X11.  What [issueBook] does, request by request.  It always creates
    the borrow record.  If the answer to the unrouted
    [PUT /api/circulation/:id] makes [apiRequest] throw, it stops there.
    Otherwise it sets the status of the book to ["issued"] when the book
    exists, and when it does not, the 404 leaves the storage with the
    record of a loan of no book. *)
Theorem issueBook_steps (now clientNow bookId memberId : Z) (s : MemStorage.t) :
  Zod.int4 bookId = true -> Zod.int4 memberId = true ->
  let s1 :=
    snd (MemStorage.createCirculationRecord now
           (InsertCirculation.mk bookId memberId "borrow" None None) s) in
  let update := MemStorage.updateBook bookId (statusUpdate "issued") s1 in
  issueBook unrouted strict toISOString now clientNow bookId memberId s
  = (if strict && negb (ok unrouted) then (false, s1)
     else match fst update with
          | Some _ => (true, snd update)
          | None => (negb strict, s1)
          end)
  /\ (forall b,
        strict && negb (ok unrouted) = false ->
        MemStorage.getBook bookId s = Some b ->
        MemStorage.getBook bookId (snd update)
        = Some (PartialBook.spread b (statusUpdate "issued"))
        /\ Book.status (PartialBook.spread b (statusUpdate "issued"))
           = "issued").
Proof.
  intros Hb Hm s1 update. split.
  - unfold issueBook. fold (circulationBody bookId memberId "borrow").
    rewrite post_record by assumption. cbv zeta. cbn [content].
    rewrite apiRequest_eq, put_circulation_unrouted.
    destruct (strict && negb (ok unrouted)); [reflexivity|].
    rewrite put_status. fold s1. fold update.
    destruct (fst update); [reflexivity|]. now destruct strict.
  - intros b _ Hget.
    assert (Hget1 : MemStorage.getBook bookId s1 = Some b) by exact Hget.
    destruct (updateBook_stored_aux bookId (statusUpdate "issued") b s1 Hget1)
      as [_ Hstored].
    split; [exact Hstored | reflexivity].
Qed.


End MutationSteps.

(** X11 for book 1 and member 2 of [shelf], with a server that answers
    200 where it has no route. *)
Lemma issueBook_steps_witness :
  let s' :=
    snd (issueBook (mkResponse 200 Empty) true (fun _ => "") 10 11 1 2 shelf) in
  fst (issueBook (mkResponse 200 Empty) true (fun _ => "") 10 11 1 2 shelf) = true
  /\ option_map Book.status (MemStorage.getBook 1 s') = Some "issued".
Proof.
  intros s'. unfold s'.
  destruct (issueBook_steps (mkResponse 200 Empty) true (fun _ => "") 10 11 1 2
              shelf eq_refl eq_refl) as [Heq _].
  rewrite Heq. split; reflexivity.
Defined.


(* ------------------------------------------------------------------ *)
(** ** [LIKE] on a query without wildcards *)

Local Open Scope string_scope.

Lemma like_percent (p s : string) :
  DatabaseStorage.like_match (String "%" p) s
  = DatabaseStorage.like_match p s
    || match s with
       | EmptyString => false
       | String _ r => DatabaseStorage.like_match (String "%" p) r
       end.
Proof. destruct s; reflexivity. Qed.

Lemma like_percent_end (s : string) : DatabaseStorage.like_match "%" s = true.
Proof.
  induction s as [|a s IH]; [reflexivity|].
  rewrite like_percent, IH. apply orb_true_r.
Qed.

Lemma like_literal (c : ascii) (p s : string) :
  like_special c = false ->
  DatabaseStorage.like_match (String c p) s
  = match s with
    | EmptyString => false
    | String d r => Ascii.eqb c d && DatabaseStorage.like_match p r
    end.
Proof.
  unfold like_special. intros H.
  apply orb_false_iff in H. destruct H as [H H3].
  apply orb_false_iff in H. destruct H as [H1 H2].
  cbn [DatabaseStorage.like_match]. now rewrite H1, H2, H3.
Qed.

Lemma like_plain_prefix (p s : string) :
  plain p = true ->
  DatabaseStorage.like_match (p ++ "%") s = startsWith s p.
Proof.
  revert s. induction p as [|c p IH]; intros s Hp.
  - apply like_percent_end.
  - simpl in Hp. apply andb_true_iff in Hp. destruct Hp as [Hc Hp].
    apply negb_true_iff in Hc.
    change (String c p ++ "%") with (String c (p ++ "%")).
    rewrite (like_literal _ _ _ Hc). destruct s as [|d r]; [reflexivity|].
    simpl. now rewrite IH.
Qed.

Lemma like_plain_includes (p s : string) :
  plain p = true ->
  DatabaseStorage.like_match (String "%" (p ++ "%")) s = includes s p.
Proof.
  intros Hp. induction s as [|d r IH].
  - rewrite like_percent, (like_plain_prefix _ _ Hp). simpl.
    now rewrite orb_false_r.
  - rewrite like_percent, (like_plain_prefix _ _ Hp), IH. reflexivity.
Qed.

Lemma lower_not_special (c : ascii) :
  like_special c = false -> like_special (lower_ascii c) = false.
Proof.
  destruct c as [[|] [|] [|] [|] [|] [|] [|] [|]]; vm_compute; congruence.
Qed.

Lemma plain_toLowerCase (q : string) :
  plain q = true -> plain (toLowerCase q) = true.
Proof.
  induction q as [|c q IH]; simpl; [reflexivity|].
  intros H. apply andb_true_iff in H. destruct H as [Hc Hq].
  apply negb_true_iff in Hc. rewrite (lower_not_special _ Hc). simpl.
  now apply IH.
Qed.

Lemma lower_text_toLowerCase (s : string) :
  lower_text s = true -> toLowerCase s = s.
Proof.
  induction s as [|c s IH]; [reflexivity|].
  cbn [lower_text toLowerCase]. cbv zeta. intros H.
  apply andb_true_iff in H. destruct H as [H Hs].
  apply andb_true_iff in H. destruct H as [_ Hc].
  apply negb_true_iff in Hc. unfold lower_ascii. cbv zeta. rewrite Hc.
  now rewrite IH.
Qed.

(** X13.  For an ASCII query without [%], [_] and backslash, the [LIKE]
    test of [DatabaseStorage] is a substring test: a column matches
    exactly when it contains the lower-cased query, letter case included.
    On rows whose title, author and category are ASCII text without
    capital letters, [DatabaseStorage.searchBooks] therefore returns what
    [MemStorage.searchBooks] returns. *)
Theorem like_is_substring_search (q : string) :
  plain q = true ->
  ascii_text q = true ->
  (forall column,
      DatabaseStorage.like column (DatabaseStorage.likePattern q)
      = includes column (toLowerCase q))
  /\ (forall s,
        (forall b, In b (MemStorage.getBooks s) -> lower_book b) ->
        DatabaseStorage.searchBooks q (MemStorage.getBooks s)
        = MemStorage.searchBooks q s).
Proof.
  intros Hq _. apply plain_toLowerCase in Hq.
  assert (Hlike : forall column,
             DatabaseStorage.like column (DatabaseStorage.likePattern q)
             = includes column (toLowerCase q)).
  { intros column. unfold DatabaseStorage.like, DatabaseStorage.likePattern.
    now apply like_plain_includes. }
  split; [exact Hlike|].
  intros s Hlow. unfold DatabaseStorage.searchBooks, MemStorage.searchBooks.
  unfold MemStorage.getBooks in *.
  induction (JsMap.values (MemStorage.books s)) as [|b l IH]; [reflexivity|].
  cbn [filter]. rewrite !Hlike.
  destruct (Hlow b (or_introl eq_refl)) as (Ht & Ha & Hc).
  rewrite (lower_text_toLowerCase _ Ht), (lower_text_toLowerCase _ Ha),
    (lower_text_toLowerCase _ Hc).
  rewrite IH by (intros b' Hb'; apply Hlow; now right).
  reflexivity.
Qed.

(** The theorem for the query "Wonder" and a title in lower case. *)
Lemma like_is_substring_search_witness :
  DatabaseStorage.like "alice in wonderland"
    (DatabaseStorage.likePattern "Wonder") = true.
Proof.
  destruct (like_is_substring_search "Wonder" eq_refl eq_refl) as [H _].
  rewrite H. reflexivity.
Defined.

Local Open Scope list_scope.
Local Open Scope Z_scope.

(* ------------------------------------------------------------------ *)
(** ** The order of the reports *)

Lemma existsb_keys {V : Type} (k : Z) (m : JsMap.t V) :
  existsb (Z.eqb k) (JsMap.keys m)
  = match JsMap.get k m with Some _ => true | None => false end.
Proof.
  induction m as [|[k' v'] r IH]; simpl; [reflexivity|].
  destruct (k =? k'); [reflexivity | exact IH].
Qed.

Lemma keys_bump (k : Z) (m : JsMap.t Z) :
  JsMap.keys (MemStorage.bump k m) = add_first (JsMap.keys m) k.
Proof.
  unfold MemStorage.bump, add_first. rewrite keys_set_cases, existsb_keys.
  now destruct (JsMap.get k m).
Qed.

Lemma keys_borrowCountsBy (key : Circulation.t -> Z)
    (records : list Circulation.t) :
  JsMap.keys (MemStorage.borrowCountsBy key records)
  = firsts (borrowed key records).
Proof.
  unfold MemStorage.borrowCountsBy, firsts.
  change (@nil Z) with (JsMap.keys (@JsMap.empty Z)).
  generalize (@JsMap.empty Z) as m.
  induction records as [|r records IH]; intros m; [reflexivity|].
  unfold borrowed, is_borrow in *. simpl.
  destruct (String.eqb (Circulation.action r) "borrow"); simpl.
  - rewrite IH. now rewrite keys_bump.
  - apply IH.
Qed.

Section Stability.
Context {A : Type} (f : A -> Z).
Let cmp := fun a b : A => f b - f a.

Lemma sort_insert_stable (c : Z) (x : A) (l : list A) :
  filter (fun y => f y =? c) (MemStorage.sort_insert cmp x l)
  = filter (fun y => f y =? c) (x :: l).
Proof.
  induction l as [|y r IH]; [reflexivity|].
  cbn [MemStorage.sort_insert]. destruct (cmp x y <=? 0) eqn:E; [reflexivity|].
  apply Z.leb_gt in E. unfold cmp in E.
  cbn [filter] in *. rewrite IH.
  destruct (f x =? c) eqn:Ex; destruct (f y =? c) eqn:Ey; try reflexivity.
  apply Z.eqb_eq in Ex, Ey. lia.
Qed.

Lemma sort_stable (c : Z) (l : list A) :
  filter (fun y => f y =? c) (MemStorage.sort cmp l)
  = filter (fun y => f y =? c) l.
Proof.
  induction l as [|x l IH]; [reflexivity|].
  cbn [MemStorage.sort fold_right]. fold (MemStorage.sort cmp l).
  rewrite sort_insert_stable. cbn [filter]. now rewrite IH.
Qed.
End Stability.

Lemma getMostReadBooks_unsorted (s : MemStorage.t) :
  let l := borrowed Circulation.bookId (MemStorage.getCirculation s) in
  MemStorage.joinBooks (MemStorage.books s)
    (MemStorage.borrowCountsBy Circulation.bookId (MemStorage.getCirculation s))
  = flat_map (book_row (MemStorage.books s) l) (firsts l).
Proof.
  intros l.
  pose proof (borrowCountsBy_counts Circulation.bookId
                (MemStorage.getCirculation s)) as Hc.
  destruct (counts_of_entries _ _ Hc) as [Hn _].
  rewrite (joinBooks_rows _ l) by exact Hn.
  now rewrite keys_borrowCountsBy.
Qed.

(** X14.  [getMostReadBooks] never reorders books with the same borrow
    count: for every count, the rows with that count come in the order in
    which their books were first borrowed.  (With the descending order of
    the counts this fixes the whole result.) *)
Theorem getMostReadBooks_ties_keep_order (s : MemStorage.t) (c : Z) :
  let l := borrowed Circulation.bookId (MemStorage.getCirculation s) in
  filter (fun row => MemStorage.BookCount.borrowCount row =? c)
         (MemStorage.getMostReadBooks s)
  = filter (fun row => MemStorage.BookCount.borrowCount row =? c)
           (flat_map (book_row (MemStorage.books s) l) (firsts l)).
Proof.
  intros l. unfold MemStorage.getMostReadBooks, JsMap.entries.
  rewrite (sort_stable MemStorage.BookCount.borrowCount).
  unfold MemStorage.getCirculation in *. fold l.
  f_equal. apply getMostReadBooks_unsorted.
Qed.

Lemma joinMembers_member_rows (ms : JsMap.t Member.t) (l : list Z)
    (m : JsMap.t Z) :
  (forall id n, In (id, n) m -> n = times id l) ->
  MemStorage.joinMembers ms m = flat_map (member_row ms l) (JsMap.keys m).
Proof.
  induction m as [|[id n] r IH]; intros H; simpl; [reflexivity|].
  rewrite IH by (intros; apply H; now right).
  pose proof (H id n (or_introl eq_refl)) as Hn. subst n.
  unfold member_row. destruct (JsMap.get id ms); reflexivity.
Qed.

(** X15.  [getMostActiveReaders] is sorted by descending borrow count and
    has one row for every [memberId] that occurs in a borrow record and
    names a stored member, pairing the member with the number of borrow
    records of the [memberId]; members with the same count come in the
    order of their first borrow. *)
Theorem getMostActiveReaders_sorted_counts (s : MemStorage.t) :
  let l := borrowed Circulation.memberId (MemStorage.getCirculation s) in
  StronglySorted more_active (MemStorage.getMostActiveReaders s)
  /\ Permutation (MemStorage.getMostActiveReaders s)
       (flat_map (member_row (MemStorage.members s) l) (firsts l))
  /\ NoDup (firsts l)
  /\ (forall id, In id (firsts l) <-> 0 < times id l)
  /\ (forall c,
        filter (fun row => MemStorage.MemberCount.borrowCount row =? c)
               (MemStorage.getMostActiveReaders s)
        = filter (fun row => MemStorage.MemberCount.borrowCount row =? c)
                 (flat_map (member_row (MemStorage.members s) l) (firsts l))).
Proof.
  intros l.
  pose proof (borrowCountsBy_counts Circulation.memberId
                (MemStorage.getCirculation s)) as Hc.
  fold l in Hc. destruct (counts_of_entries _ _ Hc) as [Hn Hk].
  destruct Hc as [Hnd _].
  rewrite keys_borrowCountsBy in Hnd, Hk. fold l in Hnd, Hk.
  assert (Hrows : MemStorage.joinMembers (MemStorage.members s)
                    (MemStorage.borrowCountsBy Circulation.memberId
                       (MemStorage.getCirculation s))
                  = flat_map (member_row (MemStorage.members s) l) (firsts l)).
  { rewrite (joinMembers_member_rows _ l) by exact Hn.
    now rewrite keys_borrowCountsBy. }
  unfold MemStorage.getMostActiveReaders, JsMap.entries.
  unfold MemStorage.getCirculation in *.
  split; [apply (sort_sorted MemStorage.MemberCount.borrowCount)|].
  split; [rewrite (sort_perm MemStorage.MemberCount.borrowCount);
          now rewrite Hrows|].
  split; [exact Hnd|]. split; [exact Hk|].
  intros c. rewrite (sort_stable MemStorage.MemberCount.borrowCount).
  now rewrite Hrows.
Qed.

(* ------------------------------------------------------------------ *)
(** ** Overdue loans, on the server and in the browser *)

Lemma joinIssued_filter (bs : JsMap.t Book.t) (ms : JsMap.t Member.t)
    (p : option Z -> bool) (records : list Circulation.t) :
  filter (fun item => p (MemStorage.Issued.dueDate item))
         (MemStorage.joinIssued bs ms records)
  = MemStorage.joinIssued bs ms
      (filter (fun c => p (Circulation.dueDate c)) records).
Proof.
  induction records as [|c records IH]; [reflexivity|].
  cbn [MemStorage.joinIssued filter].
  destruct (JsMap.get (Circulation.bookId c) bs) as [b|] eqn:Eb;
    destruct (JsMap.get (Circulation.memberId c) ms) as [m|] eqn:Em;
    destruct (p (Circulation.dueDate c)) eqn:Ep;
    cbn [MemStorage.joinIssued filter MemStorage.Issued.dueDate];
    rewrite ?Eb, ?Em, ?Ep, IH; reflexivity.
Qed.

Lemma filter_filter {A : Type} (p q : A -> bool) (l : list A) :
  filter p (filter q l) = filter (fun x => q x && p x) l.
Proof.
  induction l as [|x l IH]; [reflexivity|]. simpl.
  destruct (q x); simpl; [destruct (p x)|]; now rewrite IH.
Qed.

Lemma overdue_of_active (now : Z) (s : MemStorage.t) :
  MemStorage.getOverdueCirculation now s
  = filter (fun c => match Circulation.dueDate c with
                     | Some due => due <? now
                     | None => false
                     end)
           (MemStorage.getActiveCirculation s).
Proof.
  unfold MemStorage.getOverdueCirculation, MemStorage.getActiveCirculation.
  rewrite filter_filter. reflexivity.
Qed.

(** X16.  The overdue records are the active records whose due date has
    passed, and a record that is overdue stays overdue as time goes on:
    the list at an earlier time is the later list restricted to the
    records that were already overdue. *)
Theorem overdue_grows_with_time (now now' : Z) (s : MemStorage.t) :
  now <= now' ->
  MemStorage.getOverdueCirculation now s
  = filter (fun c => match Circulation.dueDate c with
                     | Some due => due <? now
                     | None => false
                     end)
           (MemStorage.getActiveCirculation s)
  /\ MemStorage.getOverdueCirculation now s
     = filter (MemStorage.is_overdue now)
              (MemStorage.getOverdueCirculation now' s)
  /\ incl (MemStorage.getOverdueCirculation now s)
          (MemStorage.getOverdueCirculation now' s).
Proof.
  intros Hle.
  assert (Hsub : MemStorage.getOverdueCirculation now s
                 = filter (MemStorage.is_overdue now)
                          (MemStorage.getOverdueCirculation now' s)).
  { unfold MemStorage.getOverdueCirculation. rewrite filter_filter.
    apply filter_ext. intros c. unfold MemStorage.is_overdue.
    destruct (String.eqb (Circulation.status c) "active"); [|reflexivity].
    destruct (Circulation.dueDate c) as [due|]; [|reflexivity]. simpl.
    destruct (due <? now) eqn:E; [|now rewrite andb_false_r].
    apply Z.ltb_lt in E. assert (H : (due <? now') = true) by (apply Z.ltb_lt; lia).
    now rewrite H. }
  split; [|split; [exact Hsub|]].
  - apply overdue_of_active.
  - rewrite Hsub. intros c Hc. apply filter_In in Hc. tauto.
Qed.

(** The theorem one day before and one day after a due date. *)
Lemma overdue_grows_with_time_witness :
  let s :=
    MemStorage.mk [] [] [] [] []
      [(1, Circulation.mk 1 5 6 "borrow" (Some 0) (Some 1000) None "active")] 2 in
  incl (MemStorage.getOverdueCirculation (1000 - oneDay) s)
       (MemStorage.getOverdueCirculation (1000 + oneDay) s).
Proof.
  intros s.
  exact (proj2 (proj2 (overdue_grows_with_time (1000 - oneDay) (1000 + oneDay) s
                         ltac:(discriminate)))).
Defined.

(** X17.  The "overdue" tab of the circulation tab, computed in the
    browser from [getIssuedBooks], shows exactly the rows of the records
    that [getOverdueCirculation] returns at the same time: the two
    computations of "overdue" agree on every storage. *)
Theorem client_overdue_agrees_with_server (now : Z) (s : MemStorage.t) :
  CirculationTab.overdueBooks now (MemStorage.getIssuedBooks s)
  = MemStorage.joinIssued (MemStorage.books s) (MemStorage.members s)
      (MemStorage.getOverdueCirculation now s)
  /\ (List.length (CirculationTab.overdueBooks now (MemStorage.getIssuedBooks s))
      <= List.length (MemStorage.getOverdueCirculation now s))%nat.
Proof.
  assert (H : CirculationTab.overdueBooks now (MemStorage.getIssuedBooks s)
              = MemStorage.joinIssued (MemStorage.books s)
                  (MemStorage.members s)
                  (MemStorage.getOverdueCirculation now s)).
  { unfold CirculationTab.overdueBooks, MemStorage.getIssuedBooks.
    rewrite (joinIssued_filter _ _
               (fun d => match d with Some due => due <? now | None => false end)).
    f_equal. symmetry. apply overdue_of_active. }
  split; [exact H|]. rewrite H.
  generalize (MemStorage.getOverdueCirculation now s) as l.
  induction l as [|c l IH]; simpl; [lia|].
  destruct (JsMap.get (Circulation.bookId c) (MemStorage.books s));
    [destruct (JsMap.get (Circulation.memberId c) (MemStorage.members s))|];
    simpl; lia.
Qed.

(* ------------------------------------------------------------------ *)
(** ** The filters of the admin tabs *)

Lemma includes_empty (s : string) : includes s "" = true.
Proof. destruct s; reflexivity. Qed.

Lemma empty_query_matches (q field : string) :
  String.eqb q "" = true ->
  includes (toLowerCase field) (toLowerCase q) = true.
Proof. intros H. apply String.eqb_eq in H. subst q. apply includes_empty. Qed.

(** X18.  The filter of the members tab selects exactly the members
    [searchMembers] returns for the same query (its test for the empty
    query adds nothing), and the book filter of the library tab shows
    every book [searchBooks] returns; it also matches on the publisher.
    With an empty query each filter keeps the whole list. *)
Theorem client_filters_agree_with_search (q : string) (s : MemStorage.t) :
  MembersTab.filteredMembers q (MemStorage.getMembers s)
  = MemStorage.searchMembers q s
  /\ incl (MemStorage.searchBooks q s)
          (LibraryTab.filteredBooks q (MemStorage.getBooks s))
  /\ MembersTab.filteredMembers "" (MemStorage.getMembers s)
     = MemStorage.getMembers s
  /\ LibraryTab.filteredBooks "" (MemStorage.getBooks s) = MemStorage.getBooks s
  /\ LibraryTab.filteredCategories "" (MemStorage.getCategories s)
     = MemStorage.getCategories s
  /\ CirculationTab.displayAvailable "" (MemStorage.getBooks s)
     = CirculationTab.availableBooks (MemStorage.getBooks s).
Proof.
  split; [|split; [|split; [|split; [|split]]]].
  - unfold MembersTab.filteredMembers, MemStorage.searchMembers,
      MemStorage.getMembers.
    apply filter_ext. intros m.
    destruct (String.eqb q "") eqn:E; [|reflexivity].
    now rewrite (empty_query_matches q _ E).
  - intros b Hb. unfold MemStorage.searchBooks in Hb.
    apply filter_In in Hb. destruct Hb as [Hin Hmatch].
    unfold LibraryTab.filteredBooks, MemStorage.getBooks.
    apply filter_In. split; [exact Hin|].
    apply orb_true_iff in Hmatch. destruct Hmatch as [Hmatch | Hc].
    + apply orb_true_iff in Hmatch. destruct Hmatch as [Ht | Ha].
      * rewrite Ht. now rewrite orb_true_r.
      * rewrite Ha. now rewrite !orb_true_r.
    + rewrite Hc. now rewrite !orb_true_r.
  - now apply filter_all.
  - now apply filter_all.
  - apply filter_all. intros c _. apply includes_empty.
  - now apply filter_all.
Qed.

(* ------------------------------------------------------------------ *)
(** ** Keys outside the insert schemas *)

Lemma prop_without_key (f k : string) (fs : list (string * json)) :
  String.eqb k f = false -> prop f (without_key k fs) = prop f fs.
Proof.
  intros Hne. induction fs as [|[k' v'] fs IH]; [reflexivity|].
  unfold without_key in *. cbn [filter fst].
  destruct (String.eqb k k') eqn:E; cbn [negb prop].
  - apply String.eqb_eq in E. subst k'.
    rewrite String.eqb_sym, Hne. exact IH.
  - now rewrite IH.
Qed.

Ltac not_among_split H :=
  unfold not_among in H; cbn [existsb] in H;
  repeat (apply orb_false_iff in H;
          let H' := fresh "Hk" in destruct H as [H' H]).

(** X19.  The insert schemas read only the properties they list: a body
    with and a body without a property of any other name ([id], [status],
    [createdAt], [date], ...) parse to the same value or fail alike, so a
    client cannot set a field the server assigns. *)
Theorem insert_schemas_ignore_other_keys (k : string)
    (fs : list (string * json)) :
  (not_among k ["title"; "author"; "category"; "language"; "price";
                "publisher"; "ddc"; "coverImage"] ->
   Zod.insertBookSchema (JObj (without_key k fs))
   = Zod.insertBookSchema (JObj fs))
  /\ (not_among k ["fullName"; "class"; "registrationNo"] ->
      Zod.insertMemberSchema (JObj (without_key k fs))
      = Zod.insertMemberSchema (JObj fs))
  /\ (not_among k ["name"] ->
      Zod.insertCategorySchema (JObj (without_key k fs))
      = Zod.insertCategorySchema (JObj fs))
  /\ (not_among k ["memberId"; "bookTitle"; "author"; "reason"] ->
      Zod.insertBookSuggestionSchema (JObj (without_key k fs))
      = Zod.insertBookSuggestionSchema (JObj fs))
  /\ (not_among k ["bookId"; "memberId"; "rating"; "review"] ->
      Zod.insertBookReviewSchema (JObj (without_key k fs))
      = Zod.insertBookReviewSchema (JObj fs))
  /\ (not_among k ["bookId"; "memberId"; "action"; "dueDate"; "returnDate"] ->
      Zod.insertCirculationSchema (JObj (without_key k fs))
      = Zod.insertCirculationSchema (JObj fs)).
Proof.
  repeat split; intros H; not_among_split H;
    unfold Zod.insertBookSchema, Zod.insertMemberSchema,
      Zod.insertCategorySchema, Zod.insertBookSuggestionSchema,
      Zod.insertBookReviewSchema, Zod.insertCirculationSchema,
      Zod.text, Zod.integer, Zod.textNullable, Zod.timestampNullable,
      fields_of, Zod.bind;
    rewrite !prop_without_key by assumption; reflexivity.
Qed.

(** The theorem for a [status] in the body of [POST /api/books]. *)
Lemma insert_schemas_ignore_other_keys_witness :
  Zod.insertBookSchema
    (JObj (without_key "status"
             [("title", JStr "Dune"); ("author", JStr "Frank Herbert");
              ("category", JStr "Fiction"); ("language", JStr "English");
              ("price", JNum 900); ("publisher", JStr "Chilton");
              ("ddc", JStr "813"); ("status", JStr "issued"); ("id", JNum 99)]))
  = Some bookDataWithoutStatus.
Proof.
  destruct (insert_schemas_ignore_other_keys "status"
              [("title", JStr "Dune"); ("author", JStr "Frank Herbert");
               ("category", JStr "Fiction"); ("language", JStr "English");
               ("price", JNum 900); ("publisher", JStr "Chilton");
               ("ddc", JStr "813"); ("status", JStr "issued"); ("id", JNum 99)])
    as [H _].
  rewrite (H eq_refl). reflexivity.
Defined.

(* ------------------------------------------------------------------ *)
(** ** The borrow and return pairs of the history tab *)

Lemma find_first {A : Type} (f : A -> bool) (l : list A) (x : A) :
  find f l = Some x ->
  exists before after,
    l = before ++ x :: after /\ f x = true
    /\ forall y, In y before -> f y = false.
Proof.
  induction l as [|a l IH]; simpl; [discriminate|].
  destruct (f a) eqn:E.
  - intros H. inversion H; subst a. exists [], l.
    split; [reflexivity|]. split; [exact E|]. intros y [].
  - intros H. destruct (IH H) as (before & after & -> & Hx & Hb).
    exists (a :: before), after. split; [reflexivity|]. split; [exact Hx|].
    intros y [<- | Hy]; [exact E | now apply Hb].
Qed.

Lemma returns_spec (borrowRecord record : Circulation.t) :
  EnhancedHistoryTab.returns borrowRecord record = true
  <-> returns_loan (Circulation.bookId borrowRecord)
        (Circulation.memberId borrowRecord) (time_of borrowRecord) record.
Proof.
  unfold EnhancedHistoryTab.returns, returns_loan, time_of,
    EnhancedHistoryTab.dateOr0.
  rewrite !andb_true_iff, String.eqb_eq, !Z.eqb_eq, Z.gtb_lt. tauto.
Qed.

Lemma getBookTitle_first (books : list Book.t) (bookId : Z) :
  (exists book,
      first_with (fun b => Book.id b = bookId) books book
      /\ EnhancedHistoryTab.getBookTitle books bookId = Book.title book)
  \/ ((forall b, In b books -> Book.id b <> bookId)
      /\ EnhancedHistoryTab.getBookTitle books bookId = "Unknown Book").
Proof.
  unfold EnhancedHistoryTab.getBookTitle.
  destruct (find (fun b => Book.id b =? bookId) books) as [book|] eqn:E.
  - left. exists book. split; [|reflexivity].
    destruct (find_first _ _ _ E) as (before & after & Hl & Hx & Hb).
    exists before, after. split; [exact Hl|]. split; [now apply Z.eqb_eq|].
    intros y Hy. apply Z.eqb_neq. now apply Hb.
  - right. split; [|reflexivity]. intros b Hb. apply Z.eqb_neq.
    exact (find_none _ _ E b Hb).
Qed.

Lemma getMemberName_first (members : list Member.t) (memberId : Z) :
  (exists member,
      first_with (fun m => Member.id m = memberId) members member
      /\ EnhancedHistoryTab.getMemberName members memberId
         = Member.fullName member)
  \/ ((forall m, In m members -> Member.id m <> memberId)
      /\ EnhancedHistoryTab.getMemberName members memberId = "Unknown Member").
Proof.
  unfold EnhancedHistoryTab.getMemberName.
  destruct (find (fun m => Member.id m =? memberId) members) as [member|] eqn:E.
  - left. exists member. split; [|reflexivity].
    destruct (find_first _ _ _ E) as (before & after & Hl & Hx & Hb).
    exists before, after. split; [exact Hl|]. split; [now apply Z.eqb_eq|].
    intros y Hy. apply Z.eqb_neq. now apply Hb.
  - right. split; [|reflexivity]. intros m Hm. apply Z.eqb_neq.
    exact (find_none _ _ E m Hm).
Qed.

Lemma pairOf_return now circulation books members borrowRecord :
  let pair :=
    EnhancedHistoryTab.pairOf now circulation books members borrowRecord in
  let returned :=
    returns_loan (Circulation.bookId borrowRecord)
      (Circulation.memberId borrowRecord) (time_of borrowRecord) in
  match EnhancedHistoryTab.CirculationPair.returnDate pair with
  | Some r =>
      exists record, first_with returned circulation record /\ time_of record = r
  | None => forall record, In record circulation -> ~ returned record
  end.
Proof.
  intros pair returned. unfold pair, EnhancedHistoryTab.pairOf.
  cbn [EnhancedHistoryTab.CirculationPair.returnDate].
  destruct (find (EnhancedHistoryTab.returns borrowRecord) circulation)
    as [record|] eqn:E; cbn [option_map].
  - exists record. split; [|reflexivity].
    destruct (find_first _ _ _ E) as (before & after & Hl & Hx & Hb).
    exists before, after. split; [exact Hl|].
    split; [now apply returns_spec|].
    intros y Hy Hret. apply returns_spec in Hret.
    rewrite (Hb y Hy) in Hret. discriminate Hret.
  - intros record Hin Hret. apply returns_spec in Hret.
    rewrite (find_none _ _ E record Hin) in Hret. discriminate Hret.
Qed.

Lemma pairOf_overdue now circulation books members borrowRecord :
  let pair :=
    EnhancedHistoryTab.pairOf now circulation books members borrowRecord in
  EnhancedHistoryTab.CirculationPair.isOverdue pair = true
  <-> EnhancedHistoryTab.CirculationPair.returnDate pair = None
      /\ exists due,
           EnhancedHistoryTab.CirculationPair.dueDate pair = Some due
           /\ due < now.
Proof.
  intros pair. unfold pair, EnhancedHistoryTab.pairOf.
  cbn [EnhancedHistoryTab.CirculationPair.returnDate
       EnhancedHistoryTab.CirculationPair.isOverdue
       EnhancedHistoryTab.CirculationPair.dueDate].
  destruct (Circulation.dueDate borrowRecord) as [due|];
    destruct (option_map _ _) as [r|]; split.
  all: try discriminate.
  all: try (intros [H _]; discriminate H).
  all: try (intros [_ (d & H & _)]; discriminate H).
  - intros H. apply Z.gtb_lt in H. split; [reflexivity|]. now exists due.
  - intros [_ (d & H & Hlt)]. inversion H; subst d. now apply Z.gtb_lt.
Qed.

(** X20.  The history tab makes one pair for every borrow record, with
    the book, member, date, due date and activity of the record, and lists
    the pairs by descending borrow date.  The return date of a pair is the
    date of the first record of the circulation list that is a ["return"]
    of the same book by the same member later than the borrow, and it is
    absent exactly when there is no such record.  The title and the name
    are those of the first book and member with the id, or the "Unknown"
    texts when there is none.  A pair is marked overdue exactly when it
    has no return date and a due date in the past.  So the badge of a pair
    is "completed" exactly when it has a return date and "overdue" exactly
    when it is marked so, and the "completed" and "active" filters split
    the pairs in two. *)
Theorem circulationPairs_facts (now : Z) (circulation : list Circulation.t)
    (books : list Book.t) (members : list Member.t) :
  let pairs :=
    EnhancedHistoryTab.circulationPairs now circulation books members in
  Permutation (map loan_of_pair pairs)
    (map loan_of_record (filter is_borrow circulation))
  /\ StronglySorted borrowed_later pairs
  /\ (forall pair,
        In pair pairs ->
        let bookId := EnhancedHistoryTab.CirculationPair.bookId pair in
        let memberId := EnhancedHistoryTab.CirculationPair.memberId pair in
        let returned :=
          returns_loan bookId memberId
            (EnhancedHistoryTab.CirculationPair.borrowDate pair) in
        match EnhancedHistoryTab.CirculationPair.returnDate pair with
        | Some r =>
            exists record,
              first_with returned circulation record /\ time_of record = r
        | None => forall record, In record circulation -> ~ returned record
        end
        /\ ((exists book,
                first_with (fun b => Book.id b = bookId) books book
                /\ EnhancedHistoryTab.CirculationPair.bookTitle pair
                   = Book.title book)
            \/ ((forall b, In b books -> Book.id b <> bookId)
                /\ EnhancedHistoryTab.CirculationPair.bookTitle pair
                   = "Unknown Book"))
        /\ ((exists member,
                first_with (fun m => Member.id m = memberId) members member
                /\ EnhancedHistoryTab.CirculationPair.memberName pair
                   = Member.fullName member)
            \/ ((forall m, In m members -> Member.id m <> memberId)
                /\ EnhancedHistoryTab.CirculationPair.memberName pair
                   = "Unknown Member"))
        /\ (EnhancedHistoryTab.CirculationPair.isOverdue pair = true
            <-> EnhancedHistoryTab.CirculationPair.returnDate pair = None
                /\ exists due,
                     EnhancedHistoryTab.CirculationPair.dueDate pair = Some due
                     /\ due < now)
        /\ (EnhancedHistoryTab.getStatusBadge pair
            = EnhancedHistoryTab.COMPLETED
            <-> EnhancedHistoryTab.CirculationPair.returnDate pair <> None)
        /\ (EnhancedHistoryTab.getStatusBadge pair
            = EnhancedHistoryTab.OVERDUE
            <-> EnhancedHistoryTab.CirculationPair.isOverdue pair = true)
        /\ EnhancedHistoryTab.actionMatch "completed" pair
           = negb (EnhancedHistoryTab.actionMatch "active" pair)).
Proof.
  intros pairs.
  assert (Hperm : Permutation pairs
                    (map (EnhancedHistoryTab.pairOf now circulation books members)
                         (filter is_borrow circulation))).
  { unfold pairs, EnhancedHistoryTab.circulationPairs.
    apply (sort_perm EnhancedHistoryTab.CirculationPair.borrowDate). }
  split; [|split].
  - rewrite (Permutation_map loan_of_pair Hperm), map_map. reflexivity.
  - apply (sort_sorted EnhancedHistoryTab.CirculationPair.borrowDate).
  - intros pair Hin. apply (Permutation_in _ Hperm) in Hin.
    apply in_map_iff in Hin. destruct Hin as (b & <- & _).
    pose proof (pairOf_return now circulation books members b) as Hret.
    pose proof (pairOf_overdue now circulation books members b) as Hover.
    cbv zeta in Hret, Hover. cbv zeta.
    split; [exact Hret|].
    split; [apply getBookTitle_first|].
    split; [apply getMemberName_first|].
    split; [exact Hover|].
    unfold EnhancedHistoryTab.getStatusBadge, EnhancedHistoryTab.actionMatch.
    destruct (EnhancedHistoryTab.CirculationPair.isOverdue
                (EnhancedHistoryTab.pairOf now circulation books members b))
      eqn:Eo.
    + destruct (proj1 Hover eq_refl) as [Hnone _]. rewrite Hnone.
      split; [split; [discriminate | congruence]|].
      split; [tauto | reflexivity].
    + destruct (EnhancedHistoryTab.CirculationPair.returnDate
                  (EnhancedHistoryTab.pairOf now circulation books members b));
        destruct (EnhancedHistoryTab.CirculationPair.isActive
                    (EnhancedHistoryTab.pairOf now circulation books members b));
        simpl; repeat split; congruence.
Qed.

(** The theorem on the records of [history], read at time 10: four loans,
    of which the first made is the one returned. *)
Lemma circulationPairs_facts_witness :
  let pairs :=
    EnhancedHistoryTab.circulationPairs 10
      (MemStorage.getCirculation history) (MemStorage.getBooks history)
      (MemStorage.getMembers history) in
  List.length pairs = 4%nat
  /\ map EnhancedHistoryTab.CirculationPair.returnDate pairs
     = [None; None; None; Some 3].
Proof.
  intros pairs.
  destruct (circulationPairs_facts 10 (MemStorage.getCirculation history)
              (MemStorage.getBooks history) (MemStorage.getMembers history))
    as (Hperm & _ & _).
  apply Permutation_length in Hperm. rewrite !length_map in Hperm.
  unfold pairs. split; [rewrite Hperm; reflexivity | reflexivity].
Defined.

(* ------------------------------------------------------------------ *)
(** ** Reviews of one book *)

(** X21.  [getBookReviewsByBook] returns the reviews of the book and no
    others.  On a storage reached from [new MemStorage()], a new review
    goes to the end of the list of its book and leaves the list of every
    other book as it was; [GET /api/book-reviews/book/:bookId] serves the
    list, and an id that is not a number gets the empty list. *)
Theorem reviews_by_book (ops : list op) (now : Z) (review : InsertBookReview.t) :
  let s := run ops MemStorage.init in
  let created := MemStorage.createBookReview now review s in
  (forall bookId r,
      In r (MemStorage.getBookReviewsByBook bookId s) <->
      In r (MemStorage.getBookReviews s) /\ BookReview.bookId r = bookId)
  /\ MemStorage.getBookReviewsByBook (InsertBookReview.bookId review)
       (snd created)
     = MemStorage.getBookReviewsByBook (InsertBookReview.bookId review) s
       ++ [fst created]
  /\ (forall bookId,
        bookId <> InsertBookReview.bookId review ->
        MemStorage.getBookReviewsByBook bookId (snd created)
        = MemStorage.getBookReviewsByBook bookId s)
  /\ (forall t bookId q b,
        handle t (mkRequest GET ["api"; "book-reviews"; "book";
                                  string_of_Z bookId] q b) s
        = Some (mkResponse 200
                  (Reviews (MemStorage.getBookReviewsByBook bookId s)), s))
  /\ (forall t q b,
        handle t (mkRequest GET ["api"; "book-reviews"; "book"; "abc"] q b) s
        = Some (mkResponse 200 (Reviews []), s)).
Proof.
  intros s created.
  destruct (run_keys_below ops MemStorage.init init_keys_below)
    as [(_ & _ & _ & _ & Br & _) _]. fold s in Br.
  assert (Happ : MemStorage.getBookReviews (snd created)
                 = MemStorage.getBookReviews s ++ [fst created]).
  { unfold created, MemStorage.getBookReviews, MemStorage.createBookReview,
      MemStorage.with_bookReviews. cbn [fst snd MemStorage.bookReviews].
    apply values_set_absent. now apply below_unused. }
  split; [|split; [|split; [|split]]].
  - intros bookId r. unfold MemStorage.getBookReviewsByBook,
      MemStorage.getBookReviews. rewrite filter_In, Z.eqb_eq. reflexivity.
  - unfold MemStorage.getBookReviewsByBook.
    unfold MemStorage.getBookReviews in Happ. rewrite Happ, filter_app.
    f_equal. unfold created, MemStorage.createBookReview.
    cbn [fst filter BookReview.bookId]. now rewrite Z.eqb_refl.
  - intros bookId Hne. unfold MemStorage.getBookReviewsByBook.
    unfold MemStorage.getBookReviews in Happ. rewrite Happ, filter_app.
    unfold created, MemStorage.createBookReview.
    cbn [fst filter BookReview.bookId].
    destruct (InsertBookReview.bookId review =? bookId) eqn:E.
    + apply Z.eqb_eq in E. congruence.
    + apply app_nil_r.
  - intros t bookId q b. pose proof (parseInt_decimal bookId) as Hp.
    revert Hp. generalize (string_of_Z bookId) as seg. intros seg Hp.
    unfold handle, on, on_param; simpl.
    rewrite (parseInt_not_empty _ _ Hp), Hp. reflexivity.
  - intros t q b. reflexivity.
Qed.

(* ------------------------------------------------------------------ *)
(** ** Deleting a book *)

Lemma remove_split {V : Type} (k : Z) (v : V) (m : JsMap.t V) :
  NoDup (JsMap.keys m) -> JsMap.get k m = Some v ->
  exists m1 m2, m = m1 ++ (k, v) :: m2 /\ JsMap.remove k m = m1 ++ m2.
Proof.
  induction m as [|[k' v'] r IH]; simpl; intros Hnd Hget; [discriminate|].
  inversion Hnd as [|? ? Hout Hnd']; subst.
  destruct (k =? k') eqn:E.
  - apply Z.eqb_eq in E. subst k'. inversion Hget; subst v'.
    exists [], r. split; [reflexivity|]. simpl.
    apply remove_absent. now apply get_None_keys.
  - destruct (IH Hnd' Hget) as (m1 & m2 & -> & Hrem).
    exists ((k', v') :: m1), m2. split; [reflexivity|]. simpl.
    now rewrite Hrem.
Qed.

Lemma run_NoDup_books (ops : list op) :
  NoDup (JsMap.keys (MemStorage.books (run ops MemStorage.init))).
Proof.
  apply NoDup_count_occ with (decA := Z.eq_dec). intros k.
  assert (H : (uses k (run ops MemStorage.init) <= 1)%nat).
  { apply run_uses; [apply init_keys_below|]. unfold uses. simpl. lia. }
  unfold uses in H. lia.
Qed.

(** X22.  On a storage reached from [new MemStorage()], [deleteBook] on
    a stored id answers [true] and takes exactly that book out of the
    listing, the other books keeping their order.  Nothing else is
    touched: the circulation records and the reviews that reference the
    book stay in the storage. *)
Theorem deleteBook_removes_one (ops : list op) (id : Z) (b : Book.t) :
  let s := run ops MemStorage.init in
  let s' := snd (MemStorage.deleteBook id s) in
  MemStorage.getBook id s = Some b ->
  fst (MemStorage.deleteBook id s) = true
  /\ MemStorage.getBook id s' = None
  /\ (forall k, k <> id -> MemStorage.getBook k s' = MemStorage.getBook k s)
  /\ (exists before after,
        MemStorage.getBooks s = before ++ b :: after
        /\ MemStorage.getBooks s' = before ++ after)
  /\ MemStorage.getCirculation s' = MemStorage.getCirculation s
  /\ MemStorage.getBookReviews s' = MemStorage.getBookReviews s
  /\ MemStorage.getMembers s' = MemStorage.getMembers s.
Proof.
  intros s s' Hget. unfold MemStorage.getBook in Hget.
  split; [|split; [|split; [|split]]].
  - unfold MemStorage.deleteBook, JsMap.delete, JsMap.has. now rewrite Hget.
  - apply get_remove_same.
  - intros k Hk. unfold s', MemStorage.getBook, MemStorage.deleteBook,
      JsMap.delete, MemStorage.with_books. cbn [snd MemStorage.books].
    now apply get_remove_other.
  - destruct (remove_split id b (MemStorage.books s) (run_NoDup_books ops) Hget)
      as (m1 & m2 & Hm & Hrem).
    exists (JsMap.values m1), (JsMap.values m2).
    unfold s', MemStorage.getBooks, MemStorage.deleteBook, JsMap.delete,
      MemStorage.with_books. cbn [snd MemStorage.books].
    rewrite Hrem. fold s. rewrite Hm. unfold JsMap.values.
    rewrite !map_app. split; reflexivity.
  - repeat split.
Qed.

(** The theorem for a book that has one borrow record: the record
    outlives the book. *)
Lemma deleteBook_removes_one_witness :
  let ops :=
    [CreateBook 0 bookDataWithoutStatus;
     CreateCirculationRecord 1 (InsertCirculation.mk 1 7 "borrow" None None)] in
  let s' := snd (MemStorage.deleteBook 1 (run ops MemStorage.init)) in
  MemStorage.getBook 1 s' = None
  /\ MemStorage.getCirculation s'
     = MemStorage.getCirculation (run ops MemStorage.init).
Proof.
  intros ops s'.
  destruct (deleteBook_removes_one ops 1 _ eq_refl)
    as (_ & Hnone & _ & _ & Hcirc & _).
  split; [exact Hnone | exact Hcirc].
Defined.

(* ------------------------------------------------------------------ *)
(** ** What [PUT /api/books/:id] accepts *)

(** X23.  [PUT /api/books/:id] hands the body to [updateBook] without
    validation: on a stored book, any string is stored as the status (not
    only "available", "issued" and "reserved"), and a number under [id]
    replaces the [id] field of the row while the row stays under its old
    key, so the book served at [/api/books/:id] then carries another
    id. *)
Theorem put_book_is_unvalidated (now id id' : Z) (status : string)
    (b : Book.t) (s : MemStorage.t) :
  MemStorage.getBook id s = Some b ->
  let put body :=
    handle now (mkRequest PUT ["api"; "books"; string_of_Z id] None body) s in
  (exists b' s',
      put (JObj [("status", JStr status)]) = Some (mkResponse 200 (OneBook b'), s')
      /\ MemStorage.getBook id s' = Some b'
      /\ Book.status b' = status)
  /\ (exists b' s',
        put (JObj [("id", JNum id')]) = Some (mkResponse 200 (OneBook b'), s')
        /\ MemStorage.getBook id s' = Some b'
        /\ Book.id b' = id'
        /\ (id' <> id -> MemStorage.getBook id' s = None ->
            MemStorage.getBook id' s' = None)).
Proof.
  intros Hget put. pose proof (parseInt_decimal id) as Hp. split.
  - destruct (updateBook_stored_aux id
                (partialBook_of_json (JObj [("status", JStr status)])) b s Hget)
      as [E Hst].
    eexists. eexists. split; [|split].
    + unfold put. rewrite (put_book_route _ _ _ _ _ _ Hp), E. reflexivity.
    + cbn [snd]. rewrite E in Hst. exact Hst.
    + reflexivity.
  - destruct (updateBook_stored_aux id
                (partialBook_of_json (JObj [("id", JNum id')])) b s Hget)
      as [E Hst].
    eexists. eexists. split; [|split; [|split]].
    + unfold put. rewrite (put_book_route _ _ _ _ _ _ Hp), E. reflexivity.
    + cbn [snd]. rewrite E in Hst. exact Hst.
    + reflexivity.
    + intros Hne Hnone. cbn [snd]. unfold MemStorage.getBook,
        MemStorage.with_books in *. cbn [MemStorage.books].
      now rewrite get_set_other.
Qed.

(** The theorem for the book of [shelf]: a status that is none of the
    three, and the id 99. *)
Lemma put_book_is_unvalidated_witness :
  (exists b' s',
      handle 0 (mkRequest PUT ["api"; "books"; "1"] None
                  (JObj [("status", JStr "lost")])) shelf
      = Some (mkResponse 200 (OneBook b'), s')
      /\ Book.status b' = "lost")
  /\ (exists b' s',
        handle 0 (mkRequest PUT ["api"; "books"; "1"] None
                    (JObj [("id", JNum 99)])) shelf
        = Some (mkResponse 200 (OneBook b'), s')
        /\ MemStorage.getBook 1 s' = Some b'
        /\ Book.id b' = 99).
Proof.
  destruct (put_book_is_unvalidated 0 1 99 "lost" _ shelf eq_refl)
    as [(b1 & s1 & H1 & _ & Hs) (b2 & s2 & H2 & Hg & Hi & _)].
  split.
  - exists b1, s1. split; [exact H1 | exact Hs].
  - exists b2, s2. split; [exact H2|]. split; [exact Hg | exact Hi].
Defined.
